(** * Results retrieval with a two-tier cache: a shallow embedding

    The development follows [trial_logic/get_results_caching_redis.py]
    (classes [CacheManager] and [ResultsRetriever], and [lambda_handler])
    and [handler/get_results.py], the same service and handler without a
    cache, whose response normalizer is the same code.

    Python values are embedded as a small universe [pyval]; a Python
    exception is an explicit result [Raise e]; the module-level stores
    ([redis_client], [in_memory_cache]) and the logger are threaded through
    a state-and-exception monad [M].

    What the embedding leaves out: DynamoDB sets and binaries; the
    difference between [int], [float] and [Decimal]; the text of the
    interpreter's own exception messages beyond a best rendering; the
    sub-second part of the clock; the retrieval service on a feedback id
    that is not a string, which the handlers take as given. *)

From Stdlib Require Import ZArith Ascii String List Bool Lia.
From stdpp Require Import base gmap strings list pretty.

Open Scope string_scope.
Open Scope list_scope.
Open Scope Z_scope.

(** ** Python values *)

(** Numbers ([int], [float], [Decimal]) are represented by an integer: the
    code only ever tests a number for truthiness or fails on it. *)
#[warnings="-register-all"]
Inductive pyval : Type :=
| VNone
| VBool (b : bool)
| VNum (n : Z)
| VStr (s : string)
| VList (items : list pyval)
| VDict (entries : list (pyval * pyval)).

(** A Python [dict] is kept as its entries in insertion order. *)
Abbreviation pydict := (list (pyval * pyval)).

Definition truthy (v : pyval) : bool :=
  match v with
  | VNone => false
  | VBool b => b
  | VNum n => negb (n =? 0)
  | VStr s => negb (String.eqb s "")
  | VList items => match items with [] => false | _ => true end
  | VDict entries => match entries with [] => false | _ => true end
  end.

Definition type_name (v : pyval) : string :=
  match v with
  | VNone => "NoneType"
  | VBool _ => "bool"
  | VNum _ => "int"
  | VStr _ => "str"
  | VList _ => "list"
  | VDict _ => "dict"
  end.

Definition hashable (v : pyval) : bool :=
  match v with
  | VList _ | VDict _ => false
  | _ => true
  end.

Definition isinstance_dict (v : pyval) : bool :=
  match v with VDict _ => true | _ => false end.

Definition isinstance_str (v : pyval) : bool :=
  match v with VStr _ => true | _ => false end.

(** [==] between two hashable values, as used for dictionary keys
    ([True == 1] and [False == 0] in Python). *)
Definition key_eqb (a b : pyval) : bool :=
  match a, b with
  | VNone, VNone => true
  | VStr s, VStr t => String.eqb s t
  | VBool x, VBool y => Bool.eqb x y
  | VNum x, VNum y => x =? y
  | VBool x, VNum y | VNum y, VBool x => (if x then 1 else 0) =? y
  | _, _ => false
  end.

(** [v == 'literal'] *)
Definition eq_str (v : pyval) (lit : string) : bool :=
  match v with VStr s => String.eqb s lit | _ => false end.

(** ** Exceptions *)

Inductive exn_class : Type :=
| JSONDecodeError
| TypeError
| AttributeError
| KeyError
| OtherException (name : string).

(** [exn_str] is [str(e)]. *)
Record exn : Type := MkExn { exn_cls : exn_class; exn_str : string }.

Inductive res (A : Type) : Type :=
| Ok (a : A)
| Raise (e : exn).
Arguments Ok {A} a.
Arguments Raise {A} e.

Definition res_bind {A B} (r : res A) (k : A -> res B) : res B :=
  match r with
  | Ok a => k a
  | Raise e => Raise e
  end.

Declare Scope res_scope.
Delimit Scope res_scope with res.
Notation "'let?' x := r 'in' k" := (res_bind r (fun x => k))
  (at level 10, x name, r at level 100, k at level 200) : res_scope.

(** ** Dictionaries *)

Fixpoint dict_lookup (k : pyval) (d : pydict) : option pyval :=
  match d with
  | [] => None
  | (k', v) :: rest => if key_eqb k' k then Some v else dict_lookup k rest
  end.

(** [d[k] = v]: overwrite in place, or append a new entry. *)
Fixpoint dict_set (k v : pyval) (d : pydict) : pydict :=
  match d with
  | [] => [(k, v)]
  | (k', v') :: rest =>
      if key_eqb k' k then (k', v) :: rest else (k', v') :: dict_set k v rest
  end.

(** [k in d] for a string literal or any hashable [k]. *)
Definition dict_contains (k : pyval) (d : pydict) : bool :=
  match dict_lookup k d with Some _ => true | None => false end.

(** [d.get(k, default)] on a value known to be a dict, string key. *)
Definition dict_get (d : pydict) (k : string) (default : pyval) : pyval :=
  match dict_lookup (VStr k) d with Some v => v | None => default end.

(** [d[k]] *)
Definition dict_item (d : pydict) (k : string) : res pyval :=
  match dict_lookup (VStr k) d with
  | Some v => Ok v
  | None => Raise (MkExn KeyError ("'" +:+ k +:+ "'"))
  end.

Definition no_attribute (v : pyval) (attr : string) : exn :=
  MkExn AttributeError
    ("'" +:+ type_name v +:+ "' object has no attribute '" +:+ attr +:+ "'").

(** [v.get(k, default)] on an arbitrary value. *)
Definition py_get (v : pyval) (k : string) (default : pyval) : res pyval :=
  match v with
  | VDict d => Ok (dict_get d k default)
  | _ => Raise (no_attribute v "get")
  end.

(** [v[k] = x] on an arbitrary value, string key. *)
Definition py_setitem (v : pyval) (k : string) (x : pyval) : res pyval :=
  match v with
  | VDict d => Ok (VDict (dict_set (VStr k) x d))
  | VList _ =>
      Raise (MkExn TypeError "list indices must be integers or slices, not str")
  | _ =>
      Raise (MkExn TypeError
               ("'" +:+ type_name v +:+ "' object does not support item assignment"))
  end.

(** [len(v)] *)
Definition py_len (v : pyval) : res Z :=
  match v with
  | VStr s => Ok (Z.of_nat (String.length s))
  | VList l => Ok (Z.of_nat (length l))
  | VDict d => Ok (Z.of_nat (length d))
  | _ => Raise (MkExn TypeError
                  ("object of type '" +:+ type_name v +:+ "' has no len()"))
  end.

Fixpoint chars (s : string) : list pyval :=
  match s with
  | EmptyString => []
  | String c rest => VStr (String c EmptyString) :: chars rest
  end.

(** The sequence a [for] loop walks through. *)
Definition py_iter (v : pyval) : res (list pyval) :=
  match v with
  | VList l => Ok l
  | VStr s => Ok (chars s)
  | VDict d => Ok (map fst d)
  | _ => Raise (MkExn TypeError
                  ("'" +:+ type_name v +:+ "' object is not iterable"))
  end.

(** A dict display with string keys. *)
Definition mk_dict (entries : list (string * pyval)) : pydict :=
  map (fun kv => (VStr (fst kv), snd kv)) entries.

(** ** The process state: cache backend and observable effects *)

Inductive log_level : Type := INFO | WARNING | ERROR.

(** What the process does to the outside: logger records, commands sent to
    the network cache, queries sent to the durable table. *)
Inductive event : Type :=
| Log (level : log_level) (msg : string)
| RedisGet (key : string)
| RedisSetex (key : string) (ttl : Z) (value : string)
| RedisDelete (key : string)
| TableQuery (feedback_id : string).

(** One entry of [in_memory_cache]: [{'data': ..., 'expires_at': ...}]. *)
Record cache_entry : Type := MkEntry { data : pyval; expires_at : Z }.

(** The capability probe at import time chooses one backend for the life of
    the process: the network cache (values are JSON text, each with the
    server-side deadline set by SETEX) or the module-level dict. *)
Inductive cache_backend : Type :=
| RedisBackend (db : gmap string (string * Z))
| MemoryBackend (in_memory_cache : gmap string cache_entry).

Record world : Type := MkWorld { backend : cache_backend; trace : list event }.

(** What the environment supplies to one cache operation: the clock reading
    ([time.time()], also the cache server's clock, in whole ticks) and
    whether the network call of that operation fails, and with what. *)
Record ambient : Type := MkAmbient { time_time : Z; redis_fault : option exn }.

Definition initial_world (redis_ok : bool) : world :=
  MkWorld (if redis_ok then RedisBackend ∅ else MemoryBackend ∅) [].

(** ** State and exceptions *)

Definition M (A : Type) : Type := world -> res A * world.

Definition ret {A} (a : A) : M A := fun w => (Ok a, w).

Definition raise {A} (e : exn) : M A := fun w => (Raise e, w).

Definition bind {A B} (m : M A) (k : A -> M B) : M B :=
  fun w =>
    match m w with
    | (Ok a, w') => k a w'
    | (Raise e, w') => (Raise e, w')
    end.

Definition lift {A} (r : res A) : M A := fun w => (r, w).

(** [try: body / except <classes> as e: handler]; effects of [body] up to
    the raise are kept. *)
Definition try_except {A} (body : M A) (catches : exn_class -> bool)
    (handler : exn -> M A) : M A :=
  fun w =>
    match body w with
    | (Ok a, w') => (Ok a, w')
    | (Raise e, w') =>
        if catches (exn_cls e) then handler e w' else (Raise e, w')
    end.

(** [except Exception] *)
Definition Exception (c : exn_class) : bool := true.

Definition emit (ev : event) : M unit :=
  fun w => (Ok tt, MkWorld (backend w) (trace w ++ [ev])).

Definition logger_info (msg : string) : M unit := emit (Log INFO msg).
Definition logger_error (msg : string) : M unit := emit (Log ERROR msg).

Declare Scope M_scope.
Delimit Scope M_scope with M.
Notation "'let!' x := m 'in' k" := (bind m (fun x => k))
  (at level 10, x name, m at level 100, k at level 200) : M_scope.
Notation "m ;; k" := (bind m (fun _ => k))
  (at level 100, k at level 200, right associativity) : M_scope.

Definition name_error {A} (name : string) : M A :=
  raise (MkExn (OtherException "NameError")
           ("name '" +:+ name +:+ "' is not defined")).

Definition REDIS_AVAILABLE : M bool :=
  fun w => (Ok (match backend w with RedisBackend _ => true | _ => false end), w).

(** *** The network cache, as the client sees it *)

Definition redis_client_get (amb : ambient) (key : string) : M (option string) :=
  fun w =>
    let w1 := MkWorld (backend w) (trace w ++ [RedisGet key]) in
    match backend w, redis_fault amb with
    | RedisBackend db, None =>
        (Ok (match db !! key with
             | Some (s, deadline) =>
                 if time_time amb <? deadline then Some s else None
             | None => None
             end), w1)
    | RedisBackend _, Some e => (Raise e, w1)
    | MemoryBackend _, _ => name_error "redis_client" w
    end.

Definition redis_client_setex (amb : ambient) (key : string) (ttl : Z)
    (value : string) : M unit :=
  fun w =>
    let tr := trace w ++ [RedisSetex key ttl value] in
    match backend w, redis_fault amb with
    | RedisBackend db, None =>
        if ttl <=? 0
        then (Raise (MkExn (OtherException "ResponseError")
                       "invalid expire time in 'setex' command"),
              MkWorld (backend w) tr)
        else (Ok tt,
              MkWorld (RedisBackend (<[key := (value, time_time amb + ttl)]> db)) tr)
    | RedisBackend _, Some e => (Raise e, MkWorld (backend w) tr)
    | MemoryBackend _, _ => name_error "redis_client" w
    end.

Definition redis_client_delete (amb : ambient) (key : string) : M unit :=
  fun w =>
    let tr := trace w ++ [RedisDelete key] in
    match backend w, redis_fault amb with
    | RedisBackend db, None => (Ok tt, MkWorld (RedisBackend (delete key db)) tr)
    | RedisBackend _, Some e => (Raise e, MkWorld (backend w) tr)
    | MemoryBackend _, _ => name_error "redis_client" w
    end.

(** *** The module-level dict *)

Definition memory_lookup (key : string) : M (option cache_entry) :=
  fun w =>
    match backend w with
    | MemoryBackend c => (Ok (c !! key), w)
    | RedisBackend _ => name_error "in_memory_cache" w
    end.

Definition memory_store (key : string) (e : cache_entry) : M unit :=
  fun w =>
    match backend w with
    | MemoryBackend c => (Ok tt, MkWorld (MemoryBackend (<[key := e]> c)) (trace w))
    | RedisBackend _ => name_error "in_memory_cache" w
    end.

(** [del in_memory_cache[key]] and [in_memory_cache.pop(key, None)] on a
    key that may be absent. *)
Definition memory_remove (key : string) : M unit :=
  fun w =>
    match backend w with
    | MemoryBackend c => (Ok tt, MkWorld (MemoryBackend (delete key c)) (trace w))
    | RedisBackend _ => name_error "in_memory_cache" w
    end.

(** The in-process store hands out the very object it holds: a key
    assignment made on an object obtained from [in_memory_cache] is seen by
    the entry. The network cache holds text, detached from any object. *)
Definition aliased (key : string) (obj : pyval) (b : cache_backend)
    : cache_backend :=
  match b with
  | MemoryBackend c =>
      MemoryBackend (alter (fun e => MkEntry obj (expires_at e)) key c)
  | RedisBackend db => RedisBackend db
  end.

Definition write_through (key : string) (obj : pyval) : M unit :=
  fun w => (Ok tt, MkWorld (aliased key obj (backend w)) (trace w)).

(** ** Reference instances of the library functions

    A small JSON codec (null, booleans, integers, strings with the two
    escapes it writes, arrays, objects) and ASCII lowering. The retrieval
    code is stated and proved for any codec; these run the scenarios. *)

Module ReferenceJSON.

Definition quote_char : Ascii.ascii := Ascii.ascii_of_nat 34.
Definition backslash : Ascii.ascii := Ascii.ascii_of_nat 92.

Fixpoint escape (s : string) : string :=
  match s with
  | EmptyString => EmptyString
  | String c rest =>
      if (Ascii.eqb c quote_char || Ascii.eqb c backslash)%bool
      then String backslash (String c (escape rest))
      else String c (escape rest)
  end.

Definition quoted (s : string) : string :=
  String quote_char (escape s +:+ String quote_char EmptyString).

Definition key_text (k : pyval) : res string :=
  match k with
  | VStr s => Ok s
  | VNone => Ok "null"
  | VBool b => Ok (if b then "true" else "false")
  | VNum n => Ok (pretty n)
  | _ => Raise (MkExn TypeError
                  ("keys must be str, int, float, bool or None, not "
                   +:+ type_name k))
  end.

Fixpoint encode (v : pyval) : res string :=
  match v with
  | VNone => Ok "null"
  | VBool b => Ok (if b then "true" else "false")
  | VNum n => Ok (pretty n)
  | VStr s => Ok (quoted s)
  | VList items =>
      (let? body :=
         (fix elements (l : list pyval) : res string :=
            match l with
            | [] => Ok ""
            | x :: rest =>
                let? a := encode x in
                match rest with
                | [] => Ok a
                | _ => let? b := elements rest in Ok (a +:+ ", " +:+ b)
                end
            end) items in
       Ok (String "["%char (body +:+ "]")))%res
  | VDict entries =>
      (let? body :=
         (fix members (d : pydict) : res string :=
            match d with
            | [] => Ok ""
            | (k, x) :: rest =>
                let? kt := key_text k in
                let? a := encode x in
                let m := quoted kt +:+ ": " +:+ a in
                match rest with
                | [] => Ok m
                | _ => let? b := members rest in Ok (m +:+ ", " +:+ b)
                end
            end) entries in
       Ok (String "{"%char (body +:+ "}")))%res
  end.

Definition is_space (c : Ascii.ascii) : bool :=
  let n := Ascii.nat_of_ascii c in
  ((n =? 32) || (n =? 9) || (n =? 10) || (n =? 13))%nat%bool.

Fixpoint skip_ws (s : string) : string :=
  match s with
  | EmptyString => EmptyString
  | String c rest => if is_space c then skip_ws rest else s
  end.

(** The characters up to the closing quote, unescaped, and what follows. *)
Fixpoint read_string (s : string) : option (string * string) :=
  match s with
  | EmptyString => None
  | String c rest =>
      if Ascii.eqb c quote_char then Some (EmptyString, rest)
      else if Ascii.eqb c backslash then
        match rest with
        | String c2 rest2 =>
            if (Ascii.eqb c2 quote_char || Ascii.eqb c2 backslash)%bool then
              match read_string rest2 with
              | Some (t, after) => Some (String c2 t, after)
              | None => None
              end
            else None
        | EmptyString => None
        end
      else
        match read_string rest with
        | Some (t, after) => Some (String c t, after)
        | None => None
        end
  end.

Definition digit_of (c : Ascii.ascii) : option Z :=
  let n := Ascii.nat_of_ascii c in
  if ((48 <=? n) && (n <=? 57))%nat%bool then Some (Z.of_nat n - 48) else None.

Fixpoint read_digits (s : string) (acc : Z) : Z * string :=
  match s with
  | String c rest =>
      match digit_of c with
      | Some d => read_digits rest (10 * acc + d)
      | None => (acc, s)
      end
  | EmptyString => (acc, s)
  end.

Definition read_number (s : string) : option (Z * string) :=
  match s with
  | String c rest =>
      if Ascii.eqb c "-"%char then
        match rest with
        | String c2 _ =>
            match digit_of c2 with
            | Some _ => let (n, after) := read_digits rest 0 in Some (- n, after)
            | None => None
            end
        | EmptyString => None
        end
      else
        match digit_of c with
        | Some _ => Some (read_digits s 0)
        | None => None
        end
  | EmptyString => None
  end.

Fixpoint strip_prefix (p s : string) : option string :=
  match p, s with
  | EmptyString, _ => Some s
  | String a p', String b s' => if Ascii.eqb a b then strip_prefix p' s' else None
  | _, _ => None
  end.

Definition read_literal (s : string) : option (pyval * string) :=
  match strip_prefix "null" s with
  | Some after => Some (VNone, after)
  | None =>
      match strip_prefix "true" s with
      | Some after => Some (VBool true, after)
      | None =>
          match strip_prefix "false" s with
          | Some after => Some (VBool false, after)
          | None =>
              match read_number s with
              | Some (n, after) => Some (VNum n, after)
              | None => None
              end
          end
      end
  end.

Fixpoint parse_value (fuel : nat) (s : string) : option (pyval * string) :=
  match fuel with
  | O => None
  | S n =>
      match skip_ws s with
      | EmptyString => None
      | String c rest =>
          if Ascii.eqb c "{"%char then
            match skip_ws rest with
            | String c2 rest2 =>
                if Ascii.eqb c2 "}"%char then Some (VDict [], rest2)
                else match parse_members n rest with
                     | Some (d, after) => Some (VDict d, after)
                     | None => None
                     end
            | EmptyString => None
            end
          else if Ascii.eqb c "["%char then
            match skip_ws rest with
            | String c2 rest2 =>
                if Ascii.eqb c2 "]"%char then Some (VList [], rest2)
                else match parse_elements n rest with
                     | Some (l, after) => Some (VList l, after)
                     | None => None
                     end
            | EmptyString => None
            end
          else if Ascii.eqb c quote_char then
            match read_string rest with
            | Some (t, after) => Some (VStr t, after)
            | None => None
            end
          else read_literal (String c rest)
      end
  end
with parse_elements (fuel : nat) (s : string) : option (list pyval * string) :=
  match fuel with
  | O => None
  | S n =>
      match parse_value n s with
      | Some (v, after) =>
          match skip_ws after with
          | String c rest =>
              if Ascii.eqb c ","%char then
                match parse_elements n rest with
                | Some (l, after') => Some (v :: l, after')
                | None => None
                end
              else if Ascii.eqb c "]"%char then Some ([v], rest)
              else None
          | EmptyString => None
          end
      | None => None
      end
  end
with parse_members (fuel : nat) (s : string) : option (pydict * string) :=
  match fuel with
  | O => None
  | S n =>
      match skip_ws s with
      | String c rest =>
          if Ascii.eqb c quote_char then
            match read_string rest with
            | Some (k, after) =>
                match skip_ws after with
                | String c2 rest2 =>
                    if Ascii.eqb c2 ":"%char then
                      match parse_value n rest2 with
                      | Some (v, after2) =>
                          match skip_ws after2 with
                          | String c3 rest3 =>
                              if Ascii.eqb c3 ","%char then
                                match parse_members n rest3 with
                                | Some (d, after3) => Some ((VStr k, v) :: d, after3)
                                | None => None
                                end
                              else if Ascii.eqb c3 "}"%char then Some ([(VStr k, v)], rest3)
                              else None
                          | EmptyString => None
                          end
                      | None => None
                      end
                    else None
                | EmptyString => None
                end
            | None => None
            end
          else None
      | EmptyString => None
      end
  end.

Definition decode_error (msg : string) : exn := MkExn JSONDecodeError msg.

Definition loads (s : string) : res pyval :=
  match parse_value (S (String.length s)) s with
  | Some (v, after) =>
      match skip_ws after with
      | EmptyString => Ok v
      | String _ _ => Raise (decode_error "Extra data")
      end
  | None => Raise (decode_error "Expecting value")
  end.

Definition dumps (v : pyval) : res string := encode v.

End ReferenceJSON.

(** ASCII lowering, the reference instance of [str.lower]. *)
Definition lower_char (c : Ascii.ascii) : Ascii.ascii :=
  let n := Ascii.nat_of_ascii c in
  if ((65 <=? n)%nat && (n <=? 90)%nat)%bool
  then Ascii.ascii_of_nat (n + 32) else c.

Fixpoint ascii_lower (s : string) : string :=
  match s with
  | EmptyString => EmptyString
  | String c rest => String (lower_char c) (ascii_lower rest)
  end.

(** ** Scenario data *)

(** A completed record with a nested analysis payload. *)
Definition record_A1 : pydict :=
  mk_dict
    [("feedback_id", VStr "A1");
     ("timestamp", VNum 1700000000);
     ("status", VStr "completed");
     ("results",
       VDict (mk_dict
         [("analysis",
            VDict (mk_dict
              [("executive_summary", VStr "Good");
               ("key_points", VList [VStr "x"]);
               ("actionable_recommendations", VList []);
               ("customer_impact", VStr "low")]))]))].

(** A record marked completed that carries no analysis at all. *)
Definition record_B2 : pydict :=
  mk_dict [("feedback_id", VStr "B2"); ("timestamp", VNum 1700000100);
           ("status", VStr "completed")].

(** A record still being processed. *)
Definition record_C3 : pydict :=
  mk_dict [("feedback_id", VStr "C3"); ("timestamp", VNum 1700000200);
           ("status", VStr "processing")].

(** A record whose results text does not decode. *)
Definition record_D4 : pydict :=
  mk_dict [("feedback_id", VStr "D4"); ("timestamp", VNum 1700000300);
           ("status", VStr "completed");
           ("results", VStr "{not valid json")].

Definition recommendations_E5 : list pyval :=
  [VDict (mk_dict [("action", VStr "Call the customer back");
                   ("priority", VStr "High");
                   ("department", VStr "Support");
                   ("timeline", VStr "next quarter")]);
   VDict (mk_dict [("action", VStr "Refund the order");
                   ("priority", VStr "low");
                   ("timeline", VStr "24 hours")]);
   VDict (mk_dict [("action", VStr "Review the carrier");
                   ("priority", VStr "critical")])].

(** A record stored as failed although its payload is there. *)
Definition record_E5 : pydict :=
  mk_dict
    [("feedback_id", VStr "E5");
     ("timestamp", VNum 1700000400);
     ("status", VStr "failed");
     ("analysis",
       VDict (mk_dict
         [("executive_summary", VStr "Late delivery");
          ("actionable_recommendations", VList recommendations_E5)]))].

Definition table_1 (feedback_id : string) : res (list pydict) :=
  if String.eqb feedback_id "A1" then Ok [record_A1]
  else if String.eqb feedback_id "B2" then Ok [record_B2]
  else if String.eqb feedback_id "C3" then Ok [record_C3]
  else if String.eqb feedback_id "D4" then Ok [record_D4]
  else if String.eqb feedback_id "E5" then Ok [record_E5]
  else Ok [].

Definition table_down (feedback_id : string) : res (list pydict) :=
  Raise (MkExn (OtherException "ClientError") "table unavailable").

(** The environment at clock reading [t], the cache backend answering. *)
Definition at_time (t : Z) : ambient := MkAmbient t None.

(** The environment at clock reading [t], the network cache unreachable. *)
Definition cache_down (t : Z) : ambient :=
  MkAmbient t (Some (MkExn (OtherException "ConnectionError")
                       "Error 111 connecting to localhost:6379")).

(** A completed record as the current writer stores it, whose nested
    analysis text does not decode; and a legacy one with a top-level
    analysis text that does not decode. *)
Definition record_G7 : pydict :=
  mk_dict [("feedback_id", VStr "G7"); ("timestamp", VNum 1700000600);
           ("status", VStr "completed");
           ("results", VDict (mk_dict [("analysis", VStr "{not valid json")]))].

Definition record_H8 : pydict :=
  mk_dict [("feedback_id", VStr "H8"); ("timestamp", VNum 1700000700);
           ("status", VStr "completed");
           ("analysis", VStr "{not valid json")].

(** ** Further Python operations and scenario data for the handlers *)

(** [v[k]] on an arbitrary value, string key. *)
Definition py_item (v : pyval) (k : string) : res pyval :=
  match v with
  | VDict d => dict_item d k
  | VStr _ =>
      Raise (MkExn TypeError "string indices must be integers, not 'str'")
  | VList _ =>
      Raise (MkExn TypeError "list indices must be integers or slices, not str")
  | _ =>
      Raise (MkExn TypeError ("'" +:+ type_name v +:+ "' object is not subscriptable"))
  end.

(** A reference instance of [format] as f-strings apply it: [str] of a
    scalar, [repr] of the parts of a container. *)
Fixpoint reference_repr (v : pyval) : string :=
  match v with
  | VNone => "None"
  | VBool b => if b then "True" else "False"
  | VNum n => pretty n
  | VStr s => "'" +:+ s +:+ "'"
  | VList items =>
      "[" +:+
      (fix elements (l : list pyval) : string :=
         match l with
         | [] => ""
         | [x] => reference_repr x
         | x :: rest => reference_repr x +:+ ", " +:+ elements rest
         end) items +:+ "]"
  | VDict entries =>
      "{" +:+
      (fix members (d : pydict) : string :=
         match d with
         | [] => ""
         | [(k, x)] => reference_repr k +:+ ": " +:+ reference_repr x
         | (k, x) :: rest =>
             reference_repr k +:+ ": " +:+ reference_repr x +:+ ", " +:+ members rest
         end) entries +:+ "}"
  end.

Definition reference_format (v : pyval) : string :=
  match v with
  | VStr s => s
  | _ => reference_repr v
  end.

(** A record whose results text decodes to a list, not a mapping. *)
Definition record_F6 : pydict :=
  mk_dict [("feedback_id", VStr "F6"); ("timestamp", VNum 1700000500);
           ("status", VStr "completed");
           ("results", VStr "[1, 2]")].

Definition table_2 (feedback_id : string) : res (list pydict) :=
  if String.eqb feedback_id "F6" then Ok [record_F6] else Ok [].

(** Requests: by path (the query string is then not read); with path
    parameters that carry no id; by query string, forcing a refresh; a
    direct invocation; a direct invocation with the cache switched off. *)
Definition event_path : pyval :=
  VDict (mk_dict
    [("pathParameters", VDict (mk_dict [("feedback_id", VStr "A1")]));
     ("queryStringParameters",
       VDict (mk_dict [("feedback_id", VStr "B2"); ("use_cache", VStr "false")]))]).

Definition event_without_id : pyval :=
  VDict (mk_dict
    [("pathParameters", VDict (mk_dict [("id", VStr "A1")]));
     ("body", VDict (mk_dict [("feedback_id", VStr "A1")]))]).

Definition event_refresh : pyval :=
  VDict (mk_dict
    [("queryStringParameters",
       VDict (mk_dict [("feedback_id", VStr "A1"); ("force_refresh", VStr "True")]))]).

Definition event_direct : pyval :=
  VDict (mk_dict [("feedback_id", VStr "A1")]).

Definition event_uncached : pyval :=
  VDict (mk_dict [("feedback_id", VStr "A1"); ("use_cache", VBool false)]).

Definition utc_1 : string := "2024-01-01T00:00:00".

(** A retrieval service that refuses an id that is not a string; the
    scenarios only ask for string ids. *)
Definition untyped_rejected (feedback_id : pyval) (use_cache : bool) : M pyval :=
  raise (MkExn TypeError "feedback_id must be a string").

Definition plain_untyped_rejected (feedback_id : pyval) : M pyval :=
  raise (MkExn TypeError "feedback_id must be a string").

Section Retrieval.

Set Default Proof Using "Type".

(** Library functions the module calls: [json.loads] on a [str],
    [json.dumps(_, default=str)], [str.lower]; and the process configuration
    [int(os.environ.get('CACHE_TTL_SECONDS', 300))]. *)
Variable json_loads : string -> res pyval.
Variable json_dumps : pyval -> res string.
Variable str_lower : string -> string.
Variable CACHE_TTL_SECONDS : Z.

(** ** class CacheManager *)

Definition cache_ttl : Z := CACHE_TTL_SECONDS.

Definition cache_key_prefix : string := "feedback_results:".

Definition _get_cache_key (feedback_id : string) : string :=
  cache_key_prefix +:+ feedback_id.

Definition CacheManager_get (amb : ambient) (feedback_id : string) : M pyval :=
  let cache_key := _get_cache_key feedback_id in
  let miss : M pyval :=
    (logger_info ("Cache MISS for feedback_id: " +:+ feedback_id) ;;
     ret VNone)%M in
  try_except
    (let! redis := REDIS_AVAILABLE in
     if redis then
       let! cached_data := redis_client_get amb cache_key in
       match cached_data with
       | Some s =>
           if truthy (VStr s) then
             logger_info ("Cache HIT for feedback_id: " +:+ feedback_id) ;;
             lift (json_loads s)
           else miss
       | None => miss
       end
     else
       let! found := memory_lookup cache_key in
       match found with
       | Some cache_entry =>
           if time_time amb <? expires_at cache_entry then
             logger_info ("Memory cache HIT for feedback_id: " +:+ feedback_id) ;;
             ret (data cache_entry)
           else
             memory_remove cache_key ;;
             miss
       | None => miss
       end)%M
    Exception
    (fun e =>
       logger_error ("Cache retrieval error: " +:+ exn_str e) ;;
       ret VNone)%M.

Definition CacheManager_set (amb : ambient) (feedback_id : string)
    (data : pyval) : M bool :=
  let cache_key := _get_cache_key feedback_id in
  try_except
    (let! redis := REDIS_AVAILABLE in
     (if redis then
        let! text := lift (json_dumps data) in
        redis_client_setex amb cache_key cache_ttl text ;;
        logger_info ("Cached results for feedback_id: " +:+ feedback_id
                     +:+ " (TTL: " +:+ pretty cache_ttl +:+ "s)")
      else
        memory_store cache_key (MkEntry data (time_time amb + cache_ttl)) ;;
        logger_info ("Memory cached results for feedback_id: " +:+ feedback_id)) ;;
     ret true)%M
    Exception
    (fun e =>
       logger_error ("Cache storage error: " +:+ exn_str e) ;;
       ret false)%M.

Definition CacheManager_invalidate (amb : ambient) (feedback_id : string)
    : M bool :=
  let cache_key := _get_cache_key feedback_id in
  try_except
    (let! redis := REDIS_AVAILABLE in
     (if redis then redis_client_delete amb cache_key
      else memory_remove cache_key) ;;
     logger_info ("Cache invalidated for feedback_id: " +:+ feedback_id) ;;
     ret true)%M
    Exception
    (fun e =>
       logger_error ("Cache invalidation error: " +:+ exn_str e) ;;
       ret false)%M.

(** ** class ResultsRetriever: the response normalizer *)

Definition status_messages : pydict :=
  mk_dict
    [("processing", VStr "Feedback is still being processed");
     ("completed", VStr "Analysis completed successfully");
     ("failed", VStr "Analysis failed - please try again");
     ("not_found", VStr "Feedback ID not found")].

Definition unhashable (v : pyval) : exn :=
  MkExn TypeError ("unhashable type: '" +:+ type_name v +:+ "'").

(** [self.status_messages.get(status, default)] with a key of any type. *)
Definition status_messages_get (status default : pyval) : res pyval :=
  if hashable status then
    Ok (match dict_lookup status status_messages with
        | Some m => m
        | None => default
        end)
  else Raise (unhashable status).

(** [v.lower()] *)
Definition py_lower (v : pyval) : res string :=
  match v with
  | VStr s => Ok (str_lower s)
  | _ => Raise (no_attribute v "lower")
  end.

(** The containers [_format_recommendations] fills while it walks the
    recommendations. *)
Record groups : Type := MkGroups {
  by_priority : list (string * list pyval);
  by_department : list (pyval * list pyval);
  immediate_actions : list pyval
}.

(** [formatted['by_priority'][priority].append(rec)] *)
Definition priority_append (priority : string) (rec : pyval)
    (buckets : list (string * list pyval)) : list (string * list pyval) :=
  map (fun b => if String.eqb (fst b) priority
                then (fst b, snd b ++ [rec]) else b) buckets.

(** [if department not in d: d[department] = []] then
    [d[department].append(rec)] *)
Fixpoint department_append (department rec : pyval)
    (d : list (pyval * list pyval)) : list (pyval * list pyval) :=
  match d with
  | [] => [(department, [rec])]
  | (k, l) :: rest =>
      if key_eqb k department then (k, l ++ [rec]) :: rest
      else (k, l) :: department_append department rec rest
  end.

Definition urgent_timelines : list string :=
  ["immediate"; "urgent"; "24 hours"; "within the next 2 weeks"].

(** The body of [for rec in recommendations]. *)
Definition group_one (g : groups) (rec : pyval) : res groups :=
  (let? p := py_get rec "priority" (VStr "medium") in
   let? priority := py_lower p in
   let? department := py_get rec "department" (VStr "General") in
   let g1 :=
     if existsb (fun b => String.eqb (fst b) priority) (by_priority g)
     then MkGroups (priority_append priority rec (by_priority g))
            (by_department g) (immediate_actions g)
     else g in
   let? g2 :=
     if hashable department
     then Ok (MkGroups (by_priority g1)
                (department_append department rec (by_department g1))
                (immediate_actions g1))
     else Raise (unhashable department) in
   let? immediate :=
     if String.eqb priority "high" then Ok true
     else
       let? t := py_get rec "timeline" (VStr "") in
       let? tl := py_lower t in
       Ok (existsb (String.eqb tl) urgent_timelines) in
   if immediate : bool then
     let? action := py_get rec "action" (VStr "") in
     let? timeline := py_get rec "timeline" (VStr "") in
     Ok (MkGroups (by_priority g2) (by_department g2)
           (immediate_actions g2 ++
              [VDict (mk_dict [("action", action);
                               ("department", department);
                               ("timeline", timeline);
                               ("priority", VStr priority)])]))
   else Ok g2)%res.

Fixpoint group_all (g : groups) (recs : list pyval) : res groups :=
  match recs with
  | [] => Ok g
  | rec :: rest => (let? g' := group_one g rec in group_all g' rest)%res
  end.

Definition empty_groups : groups :=
  MkGroups [("high", []); ("medium", []); ("low", [])] [] [].

Definition formatted_of (total : Z) (g : groups) (recommendations : pyval)
    : pyval :=
  VDict (mk_dict
    [("total_recommendations", VNum total);
     ("by_priority",
       VDict (map (fun b => (VStr (fst b), VList (snd b))) (by_priority g)));
     ("by_department",
       VDict (map (fun b => (fst b, VList (snd b))) (by_department g)));
     ("immediate_actions", VList (immediate_actions g));
     ("detailed_recommendations", recommendations)]).

Definition _format_recommendations (recommendations : pyval) : res pyval :=
  if negb (truthy recommendations) then
    Ok (VDict (mk_dict [("message", VStr "No specific recommendations generated")]))
  else
    (let? total := py_len recommendations in
     let? recs := py_iter recommendations in
     let? g := group_all empty_groups recs in
     Ok (formatted_of total g recommendations))%res.

Definition _structure_analysis_results (analysis_data : pyval) : res pyval :=
  if negb (truthy analysis_data) then
    Ok (VDict (mk_dict [("summary", VStr "Analysis results not available");
                        ("error", VStr "No analysis data found")]))
  else
    (let? executive_summary :=
       py_get analysis_data "executive_summary" (VStr "Summary not available") in
     let? main_points := py_get analysis_data "key_points" (VList []) in
     let? impact := py_get analysis_data "customer_impact" (VStr "Not assessed") in
     let? recs := py_get analysis_data "actionable_recommendations" (VList []) in
     let? recommendations := _format_recommendations recs in
     let? summary := py_get analysis_data "executive_summary" VNone in
     Ok (VDict (mk_dict
       [("executive_summary", executive_summary);
        ("key_insights",
          VDict (mk_dict [("main_points", main_points);
                          ("customer_impact_assessment", impact)]));
        ("actionable_recommendations", recommendations);
        ("analysis_confidence",
          VStr (if truthy summary then "High" else "Low"))])))%res.

(** [except (json.JSONDecodeError, TypeError)] *)
Definition decode_or_type_error (c : exn_class) : bool :=
  match c with
  | JSONDecodeError | TypeError => true
  | _ => false
  end.

(** [json.loads(x) if isinstance(x, str) else x] *)
Definition loads_if_str (x : pyval) : res pyval :=
  match x with
  | VStr s => json_loads s
  | _ => Ok x
  end.

(** The body of the [try] in [_extract_analysis_data]. *)
Definition select_payload (record : pydict) : res pyval :=
  match dict_lookup (VStr "results") record with
  | Some results =>
      match results with
      | VDict rd =>
          match dict_lookup (VStr "analysis") rd with
          | Some analysis_str => loads_if_str analysis_str
          | None =>
              if dict_contains (VStr "executive_summary") rd
              then Ok results
              else Ok (VDict [])
          end
      | VStr s => json_loads s
      | _ => Ok (VDict [])
      end
  | None =>
      match dict_lookup (VStr "analysis") record with
      | Some analysis_str => loads_if_str analysis_str
      | None => Ok (VDict [])
      end
  end.

Definition _extract_analysis_data (record : pydict) : M pyval :=
  try_except
    (lift (select_payload record))
    decode_or_type_error
    (fun e =>
       logger_error ("Error parsing analysis data: " +:+ exn_str e) ;;
       ret (VDict []))%M.

Definition _format_response (record : pydict) : M pydict :=
  let status := dict_get record "status" (VStr "completed") in
  (let! feedback_id := lift (dict_item record "feedback_id") in
   let! message :=
     lift (status_messages_get status (VStr "Analysis results available")) in
   let response := mk_dict
     [("feedback_id", feedback_id);
      ("status", status);
      ("message", message);
      ("created_at", dict_get record "created_at" VNone);
      ("updated_at", dict_get record "updated_at" VNone);
      ("processing_timestamp", dict_get record "processing_timestamp" VNone);
      ("request_id", dict_get record "request_id" VNone);
      ("original_data", dict_get record "original_data" (VDict []));
      ("cache_metadata",
        VDict (mk_dict [("cacheable", VBool (eq_str status "completed"));
                        ("cache_ttl", VNum CACHE_TTL_SECONDS)]))] in
   if eq_str status "processing" then
     ret (dict_set (VStr "estimated_completion") (VStr "Within 2-3 minutes")
            response)
   else
     let! analysis_data := _extract_analysis_data record in
     if truthy analysis_data then
       let! results := lift (_structure_analysis_results analysis_data) in
       ret (dict_set (VStr "message") (dict_get status_messages "completed" VNone)
              (dict_set (VStr "status") (VStr "completed")
                 (dict_set (VStr "results") results response)))
     else
       ret (dict_set (VStr "results") (VDict [])
              (dict_set (VStr "message")
                 (VStr "Analysis results not found or corrupted")
                 (dict_set (VStr "status") (VStr "failed") response))))%M.

(** ** class ResultsRetriever: retrieval *)

(** [obj[k] = x] on an object that came out of the cache. *)
Definition setitem_cached (feedback_id : string) (obj : pyval) (k : string)
    (x : pyval) : M pyval :=
  (let! obj' := lift (py_setitem obj k x) in
   write_through (_get_cache_key feedback_id) obj' ;;
   ret obj')%M.

(** The database branch of [get_feedback_results]; [state_table_query] is
    what [state_table.query] answers for a feedback id with
    [ScanIndexForward=False, Limit=1]: the [Items] of the response (the most
    recent record, if any) or a fault. *)
Definition fetch_from_database (amb_store : ambient)
    (state_table_query : string -> res (list pydict))
    (feedback_id : string) (use_cache : bool) : M pyval :=
  try_except
    (emit (TableQuery feedback_id) ;;
     let! items := lift (state_table_query feedback_id) in
     match items with
     | [] =>
         ret (VDict (mk_dict
           [("status", VStr "not_found");
            ("message", dict_get status_messages "not_found" VNone);
            ("feedback_id", VStr feedback_id);
            ("cache_hit", VBool false);
            ("retrieved_from", VStr "database")]))
     | record :: _ =>
         let! response := _format_response record in
         let result :=
           dict_set (VStr "retrieved_from") (VStr "database")
             (dict_set (VStr "cache_hit") (VBool false) response) in
         (if (use_cache && eq_str (dict_get result "status" VNone) "completed")%bool
          then let! _ := CacheManager_set amb_store feedback_id (VDict result) in
               ret tt
          else ret tt) ;;
         ret (VDict result)
     end)%M
    Exception
    (fun e =>
       logger_error ("Error retrieving feedback results: " +:+ exn_str e) ;;
       ret (VDict (mk_dict
         [("status", VStr "error");
          ("message", VStr ("Error retrieving results: " +:+ exn_str e));
          ("feedback_id", VStr feedback_id);
          ("cache_hit", VBool false);
          ("retrieved_from", VStr "error")])))%M.

(** [amb_lookup] is the environment of the cache lookup, [amb_store] that
    of the cache write; [return cached_result] inside the [if] is the first
    branch, the rest of the function body the database branch. *)
Definition get_feedback_results (amb_lookup amb_store : ambient)
    (state_table_query : string -> res (list pydict))
    (feedback_id : string) (use_cache : bool) : M pyval :=
  (if use_cache then
     let! cached_result := CacheManager_get amb_lookup feedback_id in
     if truthy cached_result then
       let! r1 := setitem_cached feedback_id cached_result "cache_hit" (VBool true) in
       setitem_cached feedback_id r1 "retrieved_from" (VStr "cache")
     else fetch_from_database amb_store state_table_query feedback_id use_cache
   else fetch_from_database amb_store state_table_query feedback_id use_cache)%M.

Definition invalidate_cache (amb : ambient) (feedback_id : string) : M bool :=
  CacheManager_invalidate amb feedback_id.


(** ** Derived notions used by the statements *)

(** The operation returns a value from [w]: it raises nothing. *)
Definition returns {A} (m : M A) (w : world) : Prop :=
  exists a w', m w = (Ok a, w').

(** The keys the cache store holds, whichever backend it is. *)
Definition cached_keys (w : world) : gset string :=
  match backend w with
  | RedisBackend db => dom db
  | MemoryBackend c => dom c
  end.

(** [r.get('status')] etc. on a returned value. *)
Definition field (r : pyval) (k : string) : pyval :=
  match r with VDict d => dict_get d k VNone | _ => VNone end.

(** [REDIS_AVAILABLE], as a property of the state. *)
Definition redis_mode (w : world) : bool :=
  match backend w with RedisBackend _ => true | MemoryBackend _ => false end.

(** The feedback ids for which the durable table was queried, in order. *)
Fixpoint table_queries (tr : list event) : list string :=
  match tr with
  | [] => []
  | TableQuery feedback_id :: rest => feedback_id :: table_queries rest
  | _ :: rest => table_queries rest
  end.

(** The cache backend answers the call made under [amb]: the in-process
    store always does, the network cache unless the call faults. *)
Definition backend_answers (w : world) (amb : ambient) : Prop :=
  redis_mode w = true -> redis_fault amb = None.

(** The two fixed envelopes of [get_feedback_results]. *)
Definition not_found_result (feedback_id : string) : pyval :=
  VDict [(VStr "status", VStr "not_found");
         (VStr "message", VStr "Feedback ID not found");
         (VStr "feedback_id", VStr feedback_id);
         (VStr "cache_hit", VBool false);
         (VStr "retrieved_from", VStr "database")].

Definition error_result (feedback_id : string) (e : exn) : pyval :=
  VDict [(VStr "status", VStr "error");
         (VStr "message", VStr ("Error retrieving results: " +:+ exn_str e));
         (VStr "feedback_id", VStr feedback_id);
         (VStr "cache_hit", VBool false);
         (VStr "retrieved_from", VStr "error")].

(** [result['cache_hit'] = False; result['retrieved_from'] = 'database'] *)
Definition tag_database (response : pydict) : pyval :=
  VDict (dict_set (VStr "retrieved_from") (VStr "database")
           (dict_set (VStr "cache_hit") (VBool false) response)).

(** [cached['cache_hit'] = True; cached['retrieved_from'] = 'cache'] *)
Definition tag_cache (cached : pydict) : pyval :=
  VDict (dict_set (VStr "retrieved_from") (VStr "cache")
           (dict_set (VStr "cache_hit") (VBool true) cached)).

(** The cache store holds, at the time of [amb], an entry for the id that
    it can serve: an unexpired entry of the in-process store, or an
    unexpired text of the network cache that the call obtains and decodes. *)
Definition cache_holds (w : world) (amb : ambient) (feedback_id : string)
    (cached : pyval) : Prop :=
  match backend w with
  | MemoryBackend c =>
      exists deadline,
        c !! _get_cache_key feedback_id = Some (MkEntry cached deadline) /\
        time_time amb < deadline
  | RedisBackend db =>
      exists text deadline,
        db !! _get_cache_key feedback_id = Some (text, deadline) /\
        time_time amb < deadline /\
        redis_fault amb = None /\
        text <> "" /\
        json_loads text = Ok cached
  end.

(** A record as the table hands it out: it carries its partition key, and
    its status attribute, when present, is a scalar. *)
Definition stored_record (record : pydict) : Prop :=
  dict_contains (VStr "feedback_id") record = true /\
  hashable (dict_get record "status" (VStr "completed")) = true.

(** A recommendation the grouping loop can process: a mapping whose
    priority and timeline, when present, are strings and whose department,
    when present, is a scalar. *)
Definition recommendation_ok (rec : pyval) : bool :=
  match rec with
  | VDict d =>
      isinstance_str (dict_get d "priority" (VStr "medium"))
      && hashable (dict_get d "department" (VStr "General"))
      && isinstance_str (dict_get d "timeline" (VStr ""))
  | _ => false
  end.


(** The number of items in the priority buckets together. *)
Definition bucket_total (buckets : list (string * list pyval)) : nat :=
  list_sum (map (fun b => length (snd b)) buckets).

(** [by_priority] keeps its three keys, in order. *)
Definition three_buckets (buckets : list (string * list pyval)) : Prop :=
  exists high medium low,
    buckets = [("high", high); ("medium", medium); ("low", low)].

(** [w'] holds no cache entry that [w] does not hold. *)
Definition store_within (w' w : world) : Prop :=
  match backend w', backend w with
  | MemoryBackend c', MemoryBackend c => c' ⊆ c
  | RedisBackend db', RedisBackend db => db' ⊆ db
  | _, _ => False
  end.

(** The store after the two key assignments of a cache hit. *)
Definition hit_backend (key : string) (d : pydict) (b : cache_backend)
    : cache_backend :=
  aliased key (tag_cache d)
    (aliased key (VDict (dict_set (VStr "cache_hit") (VBool true) d)) b).

(** What [CacheManager.set] leaves in the store. *)
Definition stored_backend (amb : ambient) (key : string) (v : pyval)
    (b : cache_backend) : cache_backend :=
  match b with
  | MemoryBackend c =>
      MemoryBackend (<[key := MkEntry v (time_time amb + cache_ttl)]> c)
  | RedisBackend db =>
      match json_dumps v, redis_fault amb with
      | Ok text, None =>
          if cache_ttl <=? 0 then RedisBackend db
          else RedisBackend (<[key := (text, time_time amb + cache_ttl)]> db)
      | _, _ => RedisBackend db
      end
  end.

(** A caller that was handed a response by the in-process store holds the
    object the store holds; [obj[k] = x] on it (the handler adds
    ['performance']) is an assignment to the cached object. *)
Definition caller_assigns (feedback_id k : string) (x : pyval) (w : world)
    : world :=
  match backend w with
  | MemoryBackend c =>
      match c !! _get_cache_key feedback_id with
      | Some e =>
          match py_setitem (data e) k x with
          | Ok obj =>
              MkWorld (aliased (_get_cache_key feedback_id) obj (backend w))
                (trace w)
          | Raise _ => w
          end
      | None => w
      end
  | RedisBackend _ => w
  end.

(** The durable table never answered with a record for an id in
    [never_stored] (records are added or overwritten, not removed). *)
Definition respects (never_stored : string -> Prop)
    (q : string -> res (list pydict)) : Prop :=
  forall feedback_id record rest,
    never_stored feedback_id -> q feedback_id <> Ok (record :: rest).

(** The process starts with an empty cache of either kind and then only
    runs the two public operations, with any arguments, in any environment. *)
Inductive reachable (never_stored : string -> Prop) : world -> Prop :=
| reach_start redis_ok : reachable never_stored (initial_world redis_ok)
| reach_get_feedback_results w amb1 amb2 q feedback_id use_cache r w' :
    reachable never_stored w ->
    respects never_stored q ->
    get_feedback_results amb1 amb2 q feedback_id use_cache w = (r, w') ->
    reachable never_stored w'
| reach_invalidate_cache w amb feedback_id r w' :
    reachable never_stored w ->
    invalidate_cache amb feedback_id w = (r, w') ->
    reachable never_stored w'
| reach_caller_assigns w feedback_id k x :
    reachable never_stored w ->
    reachable never_stored (caller_assigns feedback_id k x w).

(** Every cached object is a mapping. *)
Definition mappings_of (b : cache_backend) : Prop :=
  match b with
  | MemoryBackend c =>
      forall key e, c !! key = Some e -> isinstance_dict (data e) = true
  | RedisBackend db =>
      forall key text deadline v,
        db !! key = Some (text, deadline) ->
        json_loads text = Ok v -> truthy v = true -> isinstance_dict v = true
  end.

Definition cached_mappings (w : world) : Prop := mappings_of (backend w).

(** No key of a never stored id is cached. *)
Definition no_phantom_keys (never_stored : string -> Prop) (w : world) : Prop :=
  forall feedback_id,
    never_stored feedback_id -> _get_cache_key feedback_id ∉ cached_keys w.

(** ** Unextractable records

    The class of records the failed downgrade is about, stated on the
    record itself and not through the extraction function. The stored
    value the ordered policy takes the payload from: [results.analysis]
    when [results] is a mapping with that key; [results] itself when it is
    a mapping with an executive summary; [results] when it is a string; a
    top-level [analysis] of a record without [results]. *)
Definition stored_analysis (record : pydict) : option pyval :=
  match dict_lookup (VStr "results") record with
  | Some (VDict rd) =>
      match dict_lookup (VStr "analysis") rd with
      | Some nested => Some nested
      | None =>
          if dict_contains (VStr "executive_summary") rd
          then Some (VDict rd) else None
      end
  | Some (VStr text) => Some (VStr text)
  | Some _ => None
  | None => dict_lookup (VStr "analysis") record
  end.

(** No analysis payload can be extracted from the record: nothing is
    stored where the policy looks; or what is stored is a text that is
    malformed (it fails to parse) or that parses to an empty value; or it
    is an empty value itself. *)
Definition unextractable (record : pydict) : Prop :=
  match stored_analysis record with
  | None => True
  | Some (VStr text) =>
      match json_loads text with
      | Raise e => exn_cls e = JSONDecodeError
      | Ok v => truthy v = false
      end
  | Some v => truthy v = false
  end.

(** ** Notions for the grouping of recommendations *)

(** [rec.get('priority', 'medium').lower()] *)
Definition priority_of (rec : pyval) : string :=
  match rec with
  | VDict d =>
      match dict_get d "priority" (VStr "medium") with
      | VStr s => str_lower s
      | _ => ""
      end
  | _ => ""
  end.

(** [rec.get('department', 'General')] *)
Definition department_of (rec : pyval) : pyval :=
  match rec with
  | VDict d => dict_get d "department" (VStr "General")
  | _ => VNone
  end.

(** [rec.get('timeline', '').lower()] *)
Definition timeline_of (rec : pyval) : string :=
  match rec with
  | VDict d =>
      match dict_get d "timeline" (VStr "") with
      | VStr s => str_lower s
      | _ => ""
      end
  | _ => ""
  end.

(** The test that puts an item among the immediate actions. *)
Definition is_immediate (rec : pyval) : bool :=
  String.eqb (priority_of rec) "high"
  || existsb (String.eqb (timeline_of rec)) urgent_timelines.

(** [rec.get(k, default)] on an item known to be a mapping. *)
Definition item_get (rec : pyval) (k : string) (default : pyval) : pyval :=
  match rec with VDict d => dict_get d k default | _ => default end.

(** The entry an immediate item leaves in [immediate_actions]. *)
Definition immediate_summary (rec : pyval) : pyval :=
  VDict (mk_dict [("action", item_get rec "action" (VStr ""));
                  ("department", department_of rec);
                  ("timeline", item_get rec "timeline" (VStr ""));
                  ("priority", VStr (priority_of rec))]).

(** The items grouped under a department. *)
Fixpoint group_lookup (k : pyval) (groups : list (pyval * list pyval))
    : option (list pyval) :=
  match groups with
  | [] => None
  | (k', l) :: rest => if key_eqb k' k then Some l else group_lookup k rest
  end.

(** ** Notions for the cache store *)

(** The two states hold the same thing under [key]. *)
Definition same_entry (key : string) (w w' : world) : Prop :=
  match backend w, backend w' with
  | MemoryBackend c, MemoryBackend c' => c !! key = c' !! key
  | RedisBackend db, RedisBackend db' => db !! key = db' !! key
  | _, _ => False
  end.

(** The deadline of the entry cached for an id, if there is one. *)
Definition deadline_of (w : world) (feedback_id : string) : option Z :=
  match backend w with
  | MemoryBackend c => expires_at <$> c !! _get_cache_key feedback_id
  | RedisBackend db => snd <$> db !! _get_cache_key feedback_id
  end.

(** The commands sent to the network cache, in order. *)
Fixpoint cache_calls (tr : list event) : list event :=
  match tr with
  | [] => []
  | Log _ _ :: rest => cache_calls rest
  | TableQuery _ :: rest => cache_calls rest
  | ev :: rest => ev :: cache_calls rest
  end.

(** The statuses a response fetched from the table can carry. *)
Definition known_statuses : list pyval :=
  [VStr "not_found"; VStr "error"; VStr "processing"; VStr "completed";
   VStr "failed"].

(** ** lambda_handler *)

(** What the handler needs beyond the retrieval service: [format] as
    f-strings apply it to a value that is not a [str], and the retrieval
    service on a feedback id that is not a [str] (its signature, and the
    embedding above, are for strings). *)
Variable py_format : pyval -> string.
Variable get_feedback_results_untyped : pyval -> bool -> M pyval.

(** [f"{v}"] *)
Definition interpolate (v : pyval) : string :=
  match v with VStr s => s | _ => py_format v end.

Definition json_headers : list (string * pyval) :=
  [("Content-Type", VStr "application/json");
   ("Access-Control-Allow-Origin", VStr "*")].

(** The dict the handler returns. *)
Definition http_response (status_code : pyval) (headers : list (string * pyval))
    (body : string) : pyval :=
  VDict (mk_dict [("statusCode", status_code);
                  ("headers", VDict (mk_dict headers));
                  ("body", VStr body)]).

(** The body of the 400 response. *)
Definition usage_body : pyval :=
  VDict (mk_dict
    [("error", VStr "Missing required parameter: feedback_id");
     ("usage", VStr "Provide feedback_id in path parameters, query parameters, or request body");
     ("cache_options",
       VDict (mk_dict
         [("use_cache", VStr "true/false - Enable/disable cache lookup");
          ("force_refresh", VStr "true/false - Force refresh from database")]))]).

(** The body of the 500 response of the handler's own [except]. *)
Definition internal_error_body (e : exn) : pyval :=
  VDict (mk_dict
    [("error", VStr "Internal server error");
     ("message", VStr "An unexpected error occurred while retrieving results");
     ("details", VStr (exn_str e));
     ("cache_enabled", VBool false)]).

Definition status_code_map : pydict :=
  mk_dict [("not_found", VNum 404); ("error", VNum 500); ("processing", VNum 202);
           ("failed", VNum 422); ("completed", VNum 200)].

(** [status_code_map.get(status, 200)] *)
Definition status_code_map_get (status : pyval) : res pyval :=
  if hashable status then
    Ok (match dict_lookup status status_code_map with
        | Some code => code
        | None => VNum 200
        end)
  else Raise (unhashable status).

(** [x.get(k, default).lower() == 'true'] *)
Definition flag_of_text (x : pyval) (k default : string) : res pyval :=
  (let? v := py_get x k (VStr default) in
   let? lowered := py_lower v in
   Ok (VBool (String.eqb lowered "true")))%res.

(** [event.get(k) and event[k]] *)
Definition present (event : pyval) (k : string) : res bool :=
  (let? v := py_get event k VNone in
   if truthy v then
     let? again := py_item event k in Ok (truthy again)
   else Ok false)%res.

(** The first part of the handler's [try]: the feedback id and the two
    cache flags, from the first source the event has. *)
Definition extract_request (event : pyval) : res (pyval * pyval * pyval) :=
  (let? has_path := present event "pathParameters" in
   if has_path : bool then
     let? path := py_item event "pathParameters" in
     let? feedback_id := py_get path "feedback_id" VNone in
     Ok (feedback_id, VBool true, VBool false)
   else
     let? has_query := present event "queryStringParameters" in
     if has_query : bool then
       let? query := py_item event "queryStringParameters" in
       let? feedback_id := py_get query "feedback_id" VNone in
       let? use_cache := flag_of_text query "use_cache" "true" in
       let? force_refresh := flag_of_text query "force_refresh" "false" in
       Ok (feedback_id, use_cache, force_refresh)
     else
       let? raw := py_get event "body" VNone in
       if truthy raw then
         let? body := py_item event "body" in
         let? body := loads_if_str body in
         let? feedback_id := py_get body "feedback_id" VNone in
         let? use_cache := py_get body "use_cache" (VBool true) in
         let? force_refresh := py_get body "force_refresh" (VBool false) in
         Ok (feedback_id, use_cache, force_refresh)
       else
         let? feedback_id := py_get event "feedback_id" VNone in
         let? use_cache := py_get event "use_cache" (VBool true) in
         let? force_refresh := py_get event "force_refresh" (VBool false) in
         Ok (feedback_id, use_cache, force_refresh))%res.

(** The returned object is the one the in-process store holds when it was
    served from the cache, or written to it by this very call. *)
Definition shares_cached_object (use_cache : bool) (results : pyval) : bool :=
  use_cache
  && (match field results "cache_hit" with VBool true => true | _ => false end
      || eq_str (field results "status") "completed").

(** The handler's [try] from the status code on; [results] is what the
    retrieval service returned, [utcnow] is
    [datetime.utcnow().isoformat()]. *)
Definition respond (utcnow id_text : string) (use_cache results : pyval)
    : M pyval :=
  (let! status := lift (py_item results "status") in
   let! status_code := lift (status_code_map_get status) in
   let! cache_hit := lift (py_get results "cache_hit" (VBool false)) in
   let! retrieved_from := lift (py_get results "retrieved_from" (VStr "unknown")) in
   let performance :=
     VDict (mk_dict [("cache_enabled", use_cache);
                     ("cache_hit", cache_hit);
                     ("retrieved_from", retrieved_from);
                     ("timestamp", VStr utcnow)]) in
   let! results := lift (py_setitem results "performance" performance) in
   (if shares_cached_object (truthy use_cache) results
    then write_through (_get_cache_key id_text) results
    else ret tt) ;;
   let! status := lift (py_item results "status") in
   let! cache_hit := lift (py_get results "cache_hit" (VBool false)) in
   logger_info ("Retrieved results for feedback_id: " +:+ id_text
                +:+ ", status: " +:+ interpolate status
                +:+ ", cache_hit: " +:+ interpolate cache_hit) ;;
   let! hit := lift (py_get results "cache_hit" VNone) in
   let! body := lift (json_dumps results) in
   ret (http_response status_code
          (json_headers ++
           [("X-Cache-Status", VStr (if truthy hit then "HIT" else "MISS"))])
          body))%M.

(** [amb_invalidate], [amb_lookup], [amb_store] are the environments of the
    three cache operations the handler may cause. The 400 and 500 bodies
    are written with [json.dumps] without [default=str], which on these
    fixed dicts of strings and booleans is the same function. *)
Definition lambda_handler (amb_invalidate amb_lookup amb_store : ambient)
    (utcnow : string) (state_table_query : string -> res (list pydict))
    (event : pyval) : M pyval :=
  try_except
    (let! request := lift (extract_request event) in
     let '(feedback_id, use_cache, force_refresh) := request in
     if negb (truthy feedback_id) then
       let! body := lift (json_dumps usage_body) in
       ret (http_response (VNum 400) json_headers body)
     else
       let id_text := interpolate feedback_id in
       let! use_cache :=
         (if truthy force_refresh then
            let! _ := invalidate_cache amb_invalidate id_text in
            ret (VBool false)
          else ret use_cache) in
       let! results :=
         match feedback_id with
         | VStr id =>
             get_feedback_results amb_lookup amb_store state_table_query id
               (truthy use_cache)
         | _ => get_feedback_results_untyped feedback_id (truthy use_cache)
         end in
       respond utcnow id_text use_cache results)%M
    Exception
    (fun e =>
       logger_error ("Unexpected error in results retrieval: " +:+ exn_str e) ;;
       let! body := lift (json_dumps (internal_error_body e)) in
       ret (http_response (VNum 500) json_headers body))%M.

(** ** Notions for the handler *)

(** The HTTP code of a status, as the handler's table gives it. *)
Definition http_code (status : pyval) : Z :=
  if eq_str status "not_found" then 404
  else if eq_str status "error" then 500
  else if eq_str status "processing" then 202
  else if eq_str status "failed" then 422
  else 200.

(** The results with the handler's ['performance'] entry. *)
Definition with_performance (use_cache : pyval) (utcnow : string)
    (results : pydict) : pyval :=
  VDict (dict_set (VStr "performance")
           (VDict (mk_dict
              [("cache_enabled", use_cache);
               ("cache_hit", dict_get results "cache_hit" (VBool false));
               ("retrieved_from", dict_get results "retrieved_from" (VStr "unknown"));
               ("timestamp", VStr utcnow)]))
           results).

(** The codes the handler can answer with. *)
Definition handler_codes : list Z := [200; 202; 400; 404; 422; 500].

(** The object cached for an id by the in-process store, if any. *)
Definition cached_object (w : world) (feedback_id : string) : option pyval :=
  match backend w with
  | MemoryBackend c => data <$> c !! _get_cache_key feedback_id
  | RedisBackend _ => None
  end.

(** ** [handler/get_results.py]: the same service without a cache

    [_structure_analysis_results] and [_format_recommendations] are the
    functions above, line for line; so is the [try] body of
    [_extract_analysis_data]. *)

(** [json.dumps(record, default=str, indent=2)], and the plain service on a
    feedback id that is not a [str]. *)
Variable json_dumps_indent : pyval -> res string.
Variable plain_get_feedback_results_untyped : pyval -> M pyval.

Definition plain_extract_analysis_data (record : pydict) : M pyval :=
  try_except
    (lift (select_payload record))
    decode_or_type_error
    (fun e =>
       logger_error ("Error parsing analysis data: " +:+ exn_str e) ;;
       let! text := lift (json_dumps_indent (VDict record)) in
       logger_error ("Record structure: " +:+ text) ;;
       ret (VDict []))%M.

Definition plain_format_response (record : pydict) : M pydict :=
  let status := dict_get record "status" (VStr "completed") in
  (let! feedback_id := lift (dict_item record "feedback_id") in
   let! message :=
     lift (status_messages_get status (VStr "Analysis results available")) in
   let response := mk_dict
     [("feedback_id", feedback_id);
      ("status", status);
      ("message", message);
      ("created_at", dict_get record "created_at" VNone);
      ("updated_at", dict_get record "updated_at" VNone);
      ("processing_timestamp", dict_get record "processing_timestamp" VNone);
      ("request_id", dict_get record "request_id" VNone);
      ("original_data", dict_get record "original_data" (VDict []))] in
   if eq_str status "processing" then
     ret (dict_set (VStr "estimated_completion") (VStr "Within 2-3 minutes")
            response)
   else
     let! analysis_data := plain_extract_analysis_data record in
     if truthy analysis_data then
       let! results := lift (_structure_analysis_results analysis_data) in
       ret (dict_set (VStr "message") (dict_get status_messages "completed" VNone)
              (dict_set (VStr "status") (VStr "completed")
                 (dict_set (VStr "results") results response)))
     else
       ret (dict_set (VStr "results") (VDict [])
              (dict_set (VStr "message")
                 (VStr "Analysis results not found or corrupted")
                 (dict_set (VStr "status") (VStr "failed") response))))%M.

Definition plain_get_feedback_results
    (state_table_query : string -> res (list pydict))
    (feedback_id : string) : M pyval :=
  try_except
    (emit (TableQuery feedback_id) ;;
     let! items := lift (state_table_query feedback_id) in
     match items with
     | [] =>
         ret (VDict (mk_dict
           [("status", VStr "not_found");
            ("message", dict_get status_messages "not_found" VNone);
            ("feedback_id", VStr feedback_id)]))
     | record :: _ =>
         let! response := plain_format_response record in
         ret (VDict response)
     end)%M
    Exception
    (fun e =>
       logger_error ("Error retrieving feedback results: " +:+ exn_str e) ;;
       ret (VDict (mk_dict
         [("status", VStr "error");
          ("message", VStr ("Error retrieving results: " +:+ exn_str e));
          ("feedback_id", VStr feedback_id)])))%M.

(** The first part of the plain handler's [try]. *)
Definition plain_extract_request (event : pyval) : res pyval :=
  (let? has_path := present event "pathParameters" in
   if has_path : bool then
     let? path := py_item event "pathParameters" in
     py_get path "feedback_id" VNone
   else
     let? has_query := present event "queryStringParameters" in
     if has_query : bool then
       let? query := py_item event "queryStringParameters" in
       py_get query "feedback_id" VNone
     else
       let? raw := py_get event "body" VNone in
       if truthy raw then
         let? body := py_item event "body" in
         let? body := loads_if_str body in
         py_get body "feedback_id" VNone
       else py_get event "feedback_id" VNone)%res.

Definition plain_usage_body : pyval :=
  VDict (mk_dict
    [("error", VStr "Missing required parameter: feedback_id");
     ("usage", VStr "Provide feedback_id in path parameters, query parameters, or request body")]).

Definition plain_internal_error_body (e : exn) : pyval :=
  VDict (mk_dict
    [("error", VStr "Internal server error");
     ("message", VStr "An unexpected error occurred while retrieving results");
     ("details", VStr (exn_str e))]).

Definition plain_lambda_handler
    (state_table_query : string -> res (list pydict)) (event : pyval)
    : M pyval :=
  try_except
    (let! feedback_id := lift (plain_extract_request event) in
     if negb (truthy feedback_id) then
       let! body := lift (json_dumps plain_usage_body) in
       ret (http_response (VNum 400) json_headers body)
     else
       let! results :=
         match feedback_id with
         | VStr id => plain_get_feedback_results state_table_query id
         | _ => plain_get_feedback_results_untyped feedback_id
         end in
       let! status := lift (py_item results "status") in
       let! status_code := lift (status_code_map_get status) in
       let! status := lift (py_item results "status") in
       logger_info ("Retrieved results for feedback_id: " +:+ interpolate feedback_id
                    +:+ ", status: " +:+ interpolate status) ;;
       let! body := lift (json_dumps results) in
       ret (http_response status_code json_headers body))%M
    Exception
    (fun e =>
       logger_error ("Unexpected error in results retrieval: " +:+ exn_str e) ;;
       let! body := lift (json_dumps (plain_internal_error_body e)) in
       ret (http_response (VNum 500) json_headers body))%M.

(** ** Notions for comparing the two services *)

(** The mapping without the key [k]. *)
Definition without_key (k : string) (d : pydict) : pydict :=
  List.filter (fun kv => negb (key_eqb (fst kv) (VStr k))) d.

(** A result of the caching service with what only it adds taken out. *)
Definition without_cache_fields (d : pydict) : pydict :=
  without_key "cache_metadata"
    (without_key "retrieved_from" (without_key "cache_hit" d)).

(** ** Running the monad *)

Ltac unfold_M :=
  unfold get_feedback_results, fetch_from_database, setitem_cached,
    invalidate_cache, CacheManager_get, CacheManager_set,
    CacheManager_invalidate, try_except, bind, ret, lift, raise,
    logger_info, logger_error, emit, REDIS_AVAILABLE, redis_client_get,
    redis_client_setex, redis_client_delete, memory_lookup, memory_store,
    memory_remove, write_through, name_error, Exception in *.

Lemma CacheManager_get_memory amb feedback_id c tr :
  CacheManager_get amb feedback_id (MkWorld (MemoryBackend c) tr) =
  match c !! _get_cache_key feedback_id with
  | Some e =>
      if time_time amb <? expires_at e then
        (Ok (data e),
         MkWorld (MemoryBackend c)
           (tr ++ [Log INFO ("Memory cache HIT for feedback_id: " +:+ feedback_id)]))
      else
        (Ok VNone,
         MkWorld (MemoryBackend (delete (_get_cache_key feedback_id) c))
           (tr ++ [Log INFO ("Cache MISS for feedback_id: " +:+ feedback_id)]))
  | None =>
      (Ok VNone,
       MkWorld (MemoryBackend c)
         (tr ++ [Log INFO ("Cache MISS for feedback_id: " +:+ feedback_id)]))
  end.
Proof.
  unfold_M. cbn.
  destruct (c !! _get_cache_key feedback_id) as [e|]; [|reflexivity].
  destruct (time_time amb <? expires_at e); reflexivity.
Qed.


Lemma CacheManager_get_redis amb feedback_id db tr :
  CacheManager_get amb feedback_id (MkWorld (RedisBackend db) tr) =
  let key := _get_cache_key feedback_id in
  let tr1 := tr ++ [RedisGet key] in
  let miss :=
    (Ok VNone,
     MkWorld (RedisBackend db)
       (tr1 ++ [Log INFO ("Cache MISS for feedback_id: " +:+ feedback_id)])) in
  match redis_fault amb with
  | Some e =>
      (Ok VNone,
       MkWorld (RedisBackend db)
         (tr1 ++ [Log ERROR ("Cache retrieval error: " +:+ exn_str e)]))
  | None =>
      match db !! key with
      | Some (s, deadline) =>
          if ((time_time amb <? deadline) && truthy (VStr s))%bool then
            let tr2 :=
              tr1 ++ [Log INFO ("Cache HIT for feedback_id: " +:+ feedback_id)] in
            match json_loads s with
            | Ok v => (Ok v, MkWorld (RedisBackend db) tr2)
            | Raise e =>
                (Ok VNone,
                 MkWorld (RedisBackend db)
                   (tr2 ++ [Log ERROR ("Cache retrieval error: " +:+ exn_str e)]))
            end
          else miss
      | None => miss
      end
  end.
Proof.
  unfold_M. cbn.
  destruct (redis_fault amb); [reflexivity|].
  destruct (db !! _get_cache_key feedback_id) as [[s deadline]|]; [|reflexivity].
  destruct (time_time amb <? deadline); [|reflexivity].
  cbn. destruct (negb (String.eqb s "")); [|reflexivity].
  cbn. destruct (json_loads s); reflexivity.
Qed.

Lemma CacheManager_set_memory amb feedback_id v c tr :
  CacheManager_set amb feedback_id v (MkWorld (MemoryBackend c) tr) =
  (Ok true,
   MkWorld
     (MemoryBackend
        (<[_get_cache_key feedback_id := MkEntry v (time_time amb + cache_ttl)]> c))
     (tr ++ [Log INFO ("Memory cached results for feedback_id: " +:+ feedback_id)])).
Proof. reflexivity. Qed.

Lemma CacheManager_set_redis amb feedback_id v db tr :
  CacheManager_set amb feedback_id v (MkWorld (RedisBackend db) tr) =
  let key := _get_cache_key feedback_id in
  let failed tr' e :=
    (Ok false,
     MkWorld (RedisBackend db)
       (tr' ++ [Log ERROR ("Cache storage error: " +:+ exn_str e)])) in
  match json_dumps v with
  | Raise e => failed tr e
  | Ok text =>
      let tr1 := tr ++ [RedisSetex key cache_ttl text] in
      match redis_fault amb with
      | Some e => failed tr1 e
      | None =>
          if cache_ttl <=? 0 then
            failed tr1 (MkExn (OtherException "ResponseError")
                          "invalid expire time in 'setex' command")
          else
            (Ok true,
             MkWorld
               (RedisBackend (<[key := (text, time_time amb + cache_ttl)]> db))
               (tr1 ++ [Log INFO ("Cached results for feedback_id: "
                                  +:+ feedback_id +:+ " (TTL: "
                                  +:+ pretty cache_ttl +:+ "s)")]))
      end
  end.
Proof.
  unfold_M. cbn.
  destruct (json_dumps v); [|reflexivity]. cbn.
  destruct (redis_fault amb); [reflexivity|].
  destruct (cache_ttl <=? 0); reflexivity.
Qed.

Lemma CacheManager_invalidate_memory amb feedback_id c tr :
  CacheManager_invalidate amb feedback_id (MkWorld (MemoryBackend c) tr) =
  (Ok true,
   MkWorld (MemoryBackend (delete (_get_cache_key feedback_id) c))
     (tr ++ [Log INFO ("Cache invalidated for feedback_id: " +:+ feedback_id)])).
Proof. reflexivity. Qed.

Lemma CacheManager_invalidate_redis amb feedback_id db tr :
  CacheManager_invalidate amb feedback_id (MkWorld (RedisBackend db) tr) =
  let key := _get_cache_key feedback_id in
  let tr1 := tr ++ [RedisDelete key] in
  match redis_fault amb with
  | Some e =>
      (Ok false,
       MkWorld (RedisBackend db)
         (tr1 ++ [Log ERROR ("Cache invalidation error: " +:+ exn_str e)]))
  | None =>
      (Ok true,
       MkWorld (RedisBackend (delete key db))
         (tr1 ++ [Log INFO ("Cache invalidated for feedback_id: " +:+ feedback_id)]))
  end.
Proof. unfold_M. cbn. destruct (redis_fault amb); reflexivity. Qed.


(** ** Dictionary facts *)

Lemma key_eqb_VStr k s : key_eqb k (VStr s) = true <-> k = VStr s.
Proof.
  destruct k; cbn; try (split; [discriminate | discriminate]).
  rewrite String.eqb_eq. split; congruence.
Qed.

Lemma dict_lookup_set_same k v d :
  dict_lookup (VStr k) (dict_set (VStr k) v d) = Some v.
Proof.
  induction d as [|[k' v'] d IH]; cbn.
  - rewrite String.eqb_refl. reflexivity.
  - destruct (key_eqb k' (VStr k)) eqn:E; cbn; rewrite E; auto.
Qed.

Lemma dict_lookup_set_other k k' v d :
  k <> k' ->
  dict_lookup (VStr k') (dict_set (VStr k) v d) = dict_lookup (VStr k') d.
Proof.
  intros Hne. induction d as [|[k0 v0] d IH]; cbn.
  - destruct (String.eqb_spec k k'); [contradiction | reflexivity].
  - destruct (key_eqb k0 (VStr k)) eqn:E; cbn.
    + apply key_eqb_VStr in E. subst k0. cbn.
      destruct (String.eqb_spec k k'); [contradiction | reflexivity].
    + rewrite IH. reflexivity.
Qed.

Lemma dict_get_set_same k v d default :
  dict_get (dict_set (VStr k) v d) k default = v.
Proof. unfold dict_get. rewrite dict_lookup_set_same. reflexivity. Qed.

Lemma dict_get_set_other k k' v d default :
  k <> k' ->
  dict_get (dict_set (VStr k) v d) k' default = dict_get d k' default.
Proof. intros H. unfold dict_get. rewrite dict_lookup_set_other by exact H. reflexivity. Qed.

Lemma dict_set_nonempty k v d : dict_set k v d <> [].
Proof. destruct d as [|[k' v'] d]; cbn; [|destruct (key_eqb k' k)]; discriminate. Qed.

Ltac dict_fields :=
  repeat (rewrite dict_get_set_same
          || (rewrite dict_get_set_other by discriminate));
  try reflexivity.

(** ** Facts about the normalizer *)

Lemma priority_append_three priority rec buckets :
  three_buckets buckets ->
  three_buckets (priority_append priority rec buckets) /\
  (bucket_total (priority_append priority rec buckets) <= S (bucket_total buckets))%nat.
Proof.
  intros (h & m & l & ->). unfold priority_append, bucket_total.
  cbn [map fst snd].
  destruct (String.eqb_spec "high" priority), (String.eqb_spec "medium" priority),
    (String.eqb_spec "low" priority); try congruence;
    (split; [repeat eexists|]); simpl; rewrite ?length_app; simpl; lia.
Qed.

Lemma group_one_buckets g rec g' :
  group_one g rec = Ok g' ->
  three_buckets (by_priority g) ->
  three_buckets (by_priority g') /\
  (bucket_total (by_priority g') <= S (bucket_total (by_priority g)))%nat.
Proof.
  unfold group_one. intros H Hg.
  destruct (py_get rec "priority" (VStr "medium")) as [p|]; cbn in H; [|discriminate].
  destruct (py_lower p) as [priority|]; cbn in H; [|discriminate].
  destruct (py_get rec "department" (VStr "General")) as [department|];
    cbn in H; [|discriminate].
  set (g1 := if existsb _ _ then _ else g) in H.
  assert (Hg1 : three_buckets (by_priority g1) /\
                (bucket_total (by_priority g1) <= S (bucket_total (by_priority g)))%nat).
  { subst g1. destruct (existsb _ _); cbn.
    - apply priority_append_three, Hg.
    - split; [exact Hg | lia]. }
  clearbody g1.
  destruct (hashable department); cbn [res_bind] in H; [|discriminate].
  repeat match type of H with
  | context [res_bind ?r _] =>
      destruct r; cbn [res_bind] in H; try discriminate
  | context [if ?b then _ else _] => destruct b; cbn [res_bind] in H
  end; inversion H; subst g'; exact Hg1.
Qed.

Lemma group_all_buckets recs : forall g g',
  group_all g recs = Ok g' ->
  three_buckets (by_priority g) ->
  three_buckets (by_priority g') /\
  (bucket_total (by_priority g') <= bucket_total (by_priority g) + length recs)%nat.
Proof.
  induction recs as [|rec recs IH]; intros g g' H Hg; cbn in H.
  - inversion H; subst. split; [exact Hg | lia].
  - destruct (group_one g rec) as [g1|] eqn:E1; cbn in H; [|discriminate].
    destruct (group_one_buckets _ _ _ E1 Hg) as [H3 Hle].
    destruct (IH _ _ H H3) as [H3' Hle']. split; [exact H3'|]. cbn. lia.
Qed.

Lemma group_one_total g rec :
  recommendation_ok rec = true -> exists g', group_one g rec = Ok g'.
Proof.
  destruct rec; cbn; try discriminate. intros H.
  apply andb_true_iff in H as [H Ht]. apply andb_true_iff in H as [Hp Hd].
  unfold group_one. cbn [py_get res_bind].
  destruct (dict_get entries "priority" (VStr "medium")); try discriminate.
  cbn [py_lower res_bind]. rewrite Hd.
  destruct (dict_get entries "timeline" (VStr "")); try discriminate.
  cbn [py_lower res_bind].
  destruct (String.eqb (str_lower s) "high"); cbn [res_bind].
  - eexists; reflexivity.
  - match goal with |- context [if ?b then Ok _ else Ok _] => destruct b end;
      eexists; reflexivity.
Qed.

Lemma group_all_total recs : forall g,
  forallb recommendation_ok recs = true -> exists g', group_all g recs = Ok g'.
Proof.
  induction recs as [|rec recs IH]; intros g H; cbn in *.
  - eexists; reflexivity.
  - apply andb_true_iff in H as [H1 H2].
    destruct (group_one_total g rec H1) as [g1 E]. rewrite E. cbn. apply IH, H2.
Qed.


Lemma format_recommendations_total recs :
  forallb recommendation_ok recs = true ->
  exists out, _format_recommendations (VList recs) = Ok out.
Proof.
  intros H. unfold _format_recommendations.
  destruct recs as [|rec recs]; [eexists; reflexivity|].
  cbn [truthy negb py_len py_iter res_bind].
  destruct (group_all_total (rec :: recs) empty_groups H) as [g ->].
  eexists; reflexivity.
Qed.


Lemma extract_analysis_data_spec record w :
  _extract_analysis_data record w =
  match select_payload record with
  | Ok v => (Ok v, w)
  | Raise e =>
      if decode_or_type_error (exn_cls e)
      then (Ok (VDict []),
            MkWorld (backend w)
              (trace w ++ [Log ERROR ("Error parsing analysis data: " +:+ exn_str e)]))
      else (Raise e, w)
  end.
Proof.
  unfold _extract_analysis_data. unfold_M.
  destruct (select_payload record) as [v|e]; [reflexivity|].
  destruct (decode_or_type_error (exn_cls e)); reflexivity.
Qed.

(** ** Claims about the normalizer *)

(** C9: the grouping transform keeps [detailed_recommendations] equal to
    its input, reports its length as [total_recommendations], puts at most
    that many items into the three priority buckets together, and answers
    the empty sequence with the message-only mapping. It returns on every
    sequence of recommendations of the documented shape. *)
Theorem format_recommendations_partition (recs : list pyval) :
  (recs = [] ->
   _format_recommendations (VList recs) =
   Ok (VDict [(VStr "message", VStr "No specific recommendations generated")])) /\
  (forallb recommendation_ok recs = true ->
   exists out, _format_recommendations (VList recs) = Ok out) /\
  (forall out,
     recs <> [] -> _format_recommendations (VList recs) = Ok out ->
     exists high medium low,
       field out "total_recommendations" = VNum (Z.of_nat (length recs)) /\
       field out "detailed_recommendations" = VList recs /\
       field out "by_priority" =
         VDict [(VStr "high", VList high); (VStr "medium", VList medium);
                (VStr "low", VList low)] /\
       (length high + length medium + length low <= length recs)%nat).
Proof.
  split; [intros ->; reflexivity|].
  split; [apply format_recommendations_total|].
  intros out Hne H. unfold _format_recommendations in H.
  destruct recs as [|rec recs]; [congruence|].
  cbn [truthy negb py_len py_iter res_bind] in H.
  destruct (group_all empty_groups (rec :: recs)) as [g|] eqn:E;
    cbn [res_bind] in H; [|discriminate].
  inversion H; subst out; clear H.
  destruct (group_all_buckets _ _ _ E) as [(h & m & l & Hb) Hle].
  { repeat eexists. }
  exists h, m, l. unfold formatted_of. rewrite Hb in *.
  repeat split. unfold bucket_total in Hle. simpl in Hle. simpl. lia.
Qed.

(** What the extraction answers for a record from which, in the
    specification's words, no payload can be extracted. *)
Lemma unextractable_extraction record w :
  unextractable record ->
  exists payload w1,
    _extract_analysis_data record w = (Ok payload, w1) /\
    truthy payload = false /\
    backend w1 = backend w.
Proof.
  intros H. rewrite extract_analysis_data_spec.
  unfold unextractable, stored_analysis in H.
  unfold select_payload, loads_if_str.
  assert (Hdone : forall v, truthy v = false ->
            exists payload w1,
              (Ok v, w) = (Ok payload, w1) /\ truthy payload = false /\
              backend w1 = backend w)
    by (intros v Hv; exists v, w; auto).
  assert (Htext : forall text,
            match json_loads text with
            | Raise e => exn_cls e = JSONDecodeError
            | Ok v => truthy v = false
            end ->
            exists payload w1,
              match json_loads text with
              | Ok v => (Ok v, w)
              | Raise e =>
                  if decode_or_type_error (exn_cls e)
                  then (Ok (VDict []),
                        MkWorld (backend w)
                          (trace w ++
                           [Log ERROR ("Error parsing analysis data: " +:+ exn_str e)]))
                  else (Raise e, w)
              end = (Ok payload, w1) /\
              truthy payload = false /\
              backend w1 = backend w).
  { intros text Ht. destruct (json_loads text) as [v|e]; [apply Hdone, Ht|].
    rewrite Ht. cbn [decode_or_type_error]. do 2 eexists.
    split; [reflexivity|]. split; reflexivity. }
  destruct (dict_lookup (VStr "results") record) as [results|].
  - destruct results as [| | |text| |rd];
      try (apply Hdone; reflexivity); [apply Htext, H|].
    destruct (dict_lookup (VStr "analysis") rd) as [nested|].
    + destruct nested; try (apply Hdone, H). apply Htext, H.
    + destruct (dict_contains (VStr "executive_summary") rd);
        [apply Hdone, H | apply Hdone; reflexivity].
  - destruct (dict_lookup (VStr "analysis") record) as [nested|];
      [|apply Hdone; reflexivity].
    destruct nested; try (apply Hdone, H). apply Htext, H.
Qed.

(** C8, as the code has it: a stored record that is not in the processing
    state and from which no analysis payload can be extracted (nothing is
    stored where the ordered policy looks, or the stored text is malformed
    and fails to parse, whether it is [results.analysis], [results] or a
    top-level [analysis], or the stored value is empty) is reported as
    failed with the fixed message and empty results, whatever its stored
    status; the cache store is not touched. A record whose
    stored status is processing is reported as processing: nothing is
    extracted or logged, and the response has no results. *)
Theorem unextractable_record_is_failed :
  (forall record w,
     stored_record record ->
     eq_str (dict_get record "status" (VStr "completed")) "processing" = false ->
     unextractable record ->
     exists response w1,
       _format_response record w = (Ok response, w1) /\
       backend w1 = backend w /\
       dict_get response "status" VNone = VStr "failed" /\
       dict_get response "message" VNone =
         VStr "Analysis results not found or corrupted" /\
       dict_get response "results" VNone = VDict []) /\
  (forall record w,
     stored_record record ->
     eq_str (dict_get record "status" (VStr "completed")) "processing" = true ->
     exists response,
       _format_response record w = (Ok response, w) /\
       dict_get response "status" VNone = VStr "processing" /\
       dict_get response "message" VNone =
         VStr "Feedback is still being processed" /\
       dict_lookup (VStr "results") response = None).
Proof.
  split.
  - intros record w [Hid Hst] Hproc Hun.
    destruct (unextractable_extraction record w Hun)
      as (payload & w1 & Hex & Hfalsy & Hb).
    unfold _format_response. unfold dict_contains in Hid. unfold dict_item.
    destruct (dict_lookup (VStr "feedback_id") record) as [fid|]; [|discriminate].
    unfold status_messages_get. rewrite Hst, Hproc.
    unfold bind, lift, ret. rewrite Hex, Hfalsy.
    exists (dict_set (VStr "results") (VDict [])
              (dict_set (VStr "message")
                 (VStr "Analysis results not found or corrupted")
                 (dict_set (VStr "status") (VStr "failed")
                    (mk_dict
                       [("feedback_id", fid);
                        ("status", dict_get record "status" (VStr "completed"));
                        ("message",
                          match dict_lookup (dict_get record "status" (VStr "completed"))
                                  status_messages with
                          | Some m => m
                          | None => VStr "Analysis results available"
                          end);
                        ("created_at", dict_get record "created_at" VNone);
                        ("updated_at", dict_get record "updated_at" VNone);
                        ("processing_timestamp",
                          dict_get record "processing_timestamp" VNone);
                        ("request_id", dict_get record "request_id" VNone);
                        ("original_data", dict_get record "original_data" (VDict []));
                        ("cache_metadata",
                          VDict (mk_dict
                            [("cacheable",
                               VBool (eq_str (dict_get record "status" (VStr "completed"))
                                        "completed"));
                             ("cache_ttl", VNum CACHE_TTL_SECONDS)]))])))), w1.
    split; [reflexivity|]. split; [exact Hb|].
    repeat split; dict_fields.
  - intros record w [Hid _] Hproc.
    assert (Hst : dict_get record "status" (VStr "completed") = VStr "processing").
    { destruct (dict_get record "status" (VStr "completed")); try discriminate.
      cbn in Hproc. apply String.eqb_eq in Hproc. subst. reflexivity. }
    unfold _format_response. unfold dict_contains in Hid. unfold dict_item.
    destruct (dict_lookup (VStr "feedback_id") record) as [fid|]; [|discriminate].
    rewrite Hst. cbn. eexists. split; [reflexivity|]. repeat split.
Qed.



(** ** Facts about the retrieval service *)

Lemma table_queries_app tr tr' :
  table_queries (tr ++ tr') = table_queries tr ++ table_queries tr'.
Proof.
  induction tr as [|ev tr IH]; [reflexivity|].
  destruct ev; cbn; rewrite IH; reflexivity.
Qed.

Lemma format_response_frame record w r w' :
  _format_response record w = (r, w') ->
  backend w' = backend w /\
  table_queries (trace w') = table_queries (trace w).
Proof.
  unfold _format_response, bind, lift, ret.
  destruct (dict_item record "feedback_id"); [|intros [= <- <-]; auto].
  destruct (status_messages_get _ _); [|intros [= <- <-]; auto].
  destruct (eq_str _ "processing"); [intros [= <- <-]; auto|].
  rewrite extract_analysis_data_spec.
  destruct (select_payload record) as [v|e].
  - destruct (truthy v); [|intros [= <- <-]; auto].
    destruct (_structure_analysis_results v); intros [= <- <-]; auto.
  - destruct (decode_or_type_error (exn_cls e)); [|intros [= <- <-]; auto].
    cbn [truthy]. intros [= <- <-]. cbn. rewrite table_queries_app. cbn.
    rewrite app_nil_r. auto.
Qed.

Lemma CacheManager_set_returns amb feedback_id v w :
  exists ok w',
    CacheManager_set amb feedback_id v w = (Ok ok, w') /\
    table_queries (trace w') = table_queries (trace w) /\
    redis_mode w' = redis_mode w.
Proof.
  destruct w as [[db|c] tr].
  - rewrite CacheManager_set_redis. cbn zeta.
    destruct (json_dumps v); [destruct (redis_fault amb); [|destruct (cache_ttl <=? 0)]|];
      do 2 eexists; (split; [reflexivity|]); cbn;
      rewrite ?table_queries_app; cbn; rewrite ?app_nil_r; auto.
  - rewrite CacheManager_set_memory. do 2 eexists. split; [reflexivity|].
    cbn. rewrite table_queries_app. cbn. rewrite app_nil_r. auto.
Qed.

Lemma fetch_from_database_spec amb q feedback_id use_cache w :
  fetch_from_database amb q feedback_id use_cache w =
  let w1 := MkWorld (backend w) (trace w ++ [TableQuery feedback_id]) in
  let failed e w2 :=
    (Ok (error_result feedback_id e),
     MkWorld (backend w2)
       (trace w2 ++ [Log ERROR ("Error retrieving feedback results: " +:+ exn_str e)])) in
  match q feedback_id with
  | Raise e => failed e w1
  | Ok [] => (Ok (not_found_result feedback_id), w1)
  | Ok (record :: _) =>
      match _format_response record w1 with
      | (Raise e, w2) => failed e w2
      | (Ok response, w2) =>
          let result := tag_database response in
          if (use_cache && eq_str (field result "status") "completed")%bool
          then (Ok result, snd (CacheManager_set amb feedback_id result w2))
          else (Ok result, w2)
      end
  end.
Proof.
  unfold fetch_from_database, try_except, bind, emit, lift, ret, logger_error,
    Exception. cbn zeta.
  destruct (q feedback_id) as [[|record rest]|e]; try reflexivity.
  destruct (_format_response record _) as [[response|e] w2]; [|reflexivity].
  unfold tag_database, field.
  destruct (use_cache && _)%bool; [|reflexivity].
  destruct (CacheManager_set_returns amb feedback_id
              (VDict (dict_set (VStr "retrieved_from") (VStr "database")
                        (dict_set (VStr "cache_hit") (VBool false) response))) w2)
    as (ok & w3 & -> & _). reflexivity.
Qed.

Lemma store_within_refl w w' : backend w' = backend w -> store_within w' w.
Proof. unfold store_within. intros ->. destruct (backend w); reflexivity. Qed.

Lemma store_within_keys w' w : store_within w' w -> cached_keys w' ⊆ cached_keys w.
Proof.
  unfold store_within, cached_keys.
  destruct (backend w'), (backend w); try contradiction; apply subseteq_dom.
Qed.

Lemma table_queries_log tr level msg :
  table_queries (tr ++ [Log level msg]) = table_queries tr.
Proof. rewrite table_queries_app. cbn. apply app_nil_r. Qed.

Lemma table_queries_redis_get tr key :
  table_queries (tr ++ [RedisGet key]) = table_queries tr.
Proof. rewrite table_queries_app. cbn. apply app_nil_r. Qed.

Ltac quiet_trace :=
  cbn [trace backend];
  rewrite ?table_queries_log, ?table_queries_redis_get; try reflexivity.

(** [CacheManager.get] always returns; it adds no entry and queries no table. *)
Lemma CacheManager_get_returns amb feedback_id w :
  exists v w0,
    CacheManager_get amb feedback_id w = (Ok v, w0) /\
    store_within w0 w /\
    table_queries (trace w0) = table_queries (trace w).
Proof.
  destruct w as [[db|c] tr].
  - rewrite CacheManager_get_redis. cbn zeta.
    destruct (redis_fault amb).
    { do 2 eexists. split; [reflexivity|]. split; [apply store_within_refl; reflexivity | quiet_trace]. }
    destruct (db !! _get_cache_key feedback_id) as [[s deadline]|].
    + destruct (_ && _)%bool; [destruct (json_loads s)|];
        do 2 eexists; (split; [reflexivity|]); (split; [apply store_within_refl; reflexivity | quiet_trace]).
    + do 2 eexists. split; [reflexivity|]. split; [apply store_within_refl; reflexivity | quiet_trace].
  - rewrite CacheManager_get_memory.
    destruct (c !! _get_cache_key feedback_id) as [e|].
    + destruct (time_time amb <? expires_at e);
        do 2 eexists; (split; [reflexivity|]); (split; [| quiet_trace]).
      * apply store_within_refl; reflexivity.
      * unfold store_within; cbn. apply delete_subseteq.
    + do 2 eexists. split; [reflexivity|]. split; [apply store_within_refl; reflexivity | quiet_trace].
Qed.

(** A truthy answer of [CacheManager.get] is an entry the store holds. *)
Lemma CacheManager_get_truthy amb feedback_id w v w0 :
  CacheManager_get amb feedback_id w = (Ok v, w0) ->
  truthy v = true ->
  cache_holds w amb feedback_id v /\ backend w0 = backend w.
Proof.
  destruct w as [[db|c] tr]; unfold cache_holds; cbn [backend].
  - rewrite CacheManager_get_redis. cbn zeta.
    destruct (redis_fault amb) eqn:Ef.
    { intros [= <- <-]. discriminate. }
    destruct (db !! _get_cache_key feedback_id) as [[s deadline]|];
      [|intros [= <- <-]; discriminate].
    destruct (time_time amb <? deadline) eqn:Et; cbn [andb];
      [|intros [= <- <-]; discriminate].
    destruct (truthy (VStr s)) eqn:Es; [|intros [= <- <-]; discriminate].
    destruct (json_loads s) as [v'|e] eqn:Ej; intros [= <- <-]; [|discriminate].
    intros _. split; [|reflexivity].
    exists s, deadline. repeat split; try reflexivity.
    + apply Z.ltb_lt, Et.
    + intros ->. discriminate.
    + exact Ej.
  - rewrite CacheManager_get_memory.
    destruct (c !! _get_cache_key feedback_id) as [[d deadline]|];
      [|intros [= <- <-]; discriminate].
    cbn [expires_at data].
    destruct (time_time amb <? deadline) eqn:Et; intros [= <- <-];
      [|discriminate].
    intros _. split; [|reflexivity].
    exists deadline. split; [reflexivity | apply Z.ltb_lt, Et].
Qed.

Lemma truthy_nonempty_text s : s <> "" -> truthy (VStr s) = true.
Proof. intros H. cbn. destruct (String.eqb_spec s ""); [contradiction | reflexivity]. Qed.

(** An entry the store holds is what [CacheManager.get] answers. *)
Lemma CacheManager_get_holds amb feedback_id w v :
  cache_holds w amb feedback_id v ->
  exists w0,
    CacheManager_get amb feedback_id w = (Ok v, w0) /\
    backend w0 = backend w /\
    table_queries (trace w0) = table_queries (trace w).
Proof.
  destruct w as [[db|c] tr]; unfold cache_holds; cbn [backend].
  - intros (s & deadline & Hl & Ht & Hf & Hs & Hj).
    rewrite CacheManager_get_redis. cbn zeta. rewrite Hf, Hl.
    apply Z.ltb_lt in Ht. rewrite Ht, (truthy_nonempty_text s Hs), Hj. cbn [andb].
    eexists. split; [reflexivity|]. split; [reflexivity | quiet_trace].
  - intros (deadline & Hl & Ht).
    rewrite CacheManager_get_memory, Hl. cbn [expires_at data].
    apply Z.ltb_lt in Ht. rewrite Ht.
    eexists. split; [reflexivity|]. split; [reflexivity | quiet_trace].
Qed.

(** Without an entry under the key, [CacheManager.get] answers [None]. *)
Lemma CacheManager_get_absent amb feedback_id w :
  _get_cache_key feedback_id ∉ cached_keys w ->
  exists w0, CacheManager_get amb feedback_id w = (Ok VNone, w0).
Proof.
  destruct w as [[db|c] tr]; unfold cached_keys; cbn [backend];
    intros H%not_elem_of_dom.
  - rewrite CacheManager_get_redis. cbn zeta. rewrite H.
    destruct (redis_fault amb); eexists; reflexivity.
  - rewrite CacheManager_get_memory, H. eexists; reflexivity.
Qed.

(** What a call of [get_feedback_results] amounts to: either the cache
    answered with a truthy object, which is then tagged in place, or the
    database branch runs from the world the lookup left behind. *)
Lemma get_feedback_results_cases amb1 amb2 q feedback_id use_cache w :
  (exists cached w0,
     use_cache = true /\
     cache_holds w amb1 feedback_id cached /\ truthy cached = true /\
     backend w0 = backend w /\
     table_queries (trace w0) = table_queries (trace w) /\
     get_feedback_results amb1 amb2 q feedback_id use_cache w =
       match py_setitem cached "cache_hit" (VBool true) with
       | Raise e => (Raise e, w0)
       | Ok r1 =>
           match py_setitem r1 "retrieved_from" (VStr "cache") with
           | Raise e =>
               (Raise e,
                MkWorld (aliased (_get_cache_key feedback_id) r1 (backend w0))
                  (trace w0))
           | Ok r2 =>
               (Ok r2,
                MkWorld
                  (aliased (_get_cache_key feedback_id) r2
                     (aliased (_get_cache_key feedback_id) r1 (backend w0)))
                  (trace w0))
           end
       end) \/
  (exists w0,
     store_within w0 w /\
     table_queries (trace w0) = table_queries (trace w) /\
     (use_cache = false -> w0 = w) /\
     get_feedback_results amb1 amb2 q feedback_id use_cache w =
       fetch_from_database amb2 q feedback_id use_cache w0).
Proof.
  destruct use_cache.
  - destruct (CacheManager_get_returns amb1 feedback_id w)
      as (v & w0 & Hget & Hin & Htq).
    destruct (truthy v) eqn:Hv.
    + left. exists v, w0.
      destruct (CacheManager_get_truthy _ _ _ _ _ Hget Hv) as [Hh Hb].
      repeat split; try assumption.
      unfold get_feedback_results. unfold bind at 1. rewrite Hget, Hv.
      unfold setitem_cached, bind, lift, ret, write_through.
      destruct (py_setitem v "cache_hit" (VBool true)) as [r1|]; [|reflexivity].
      cbn [backend trace].
      destruct (py_setitem r1 "retrieved_from" (VStr "cache")); reflexivity.
    + right. exists w0. repeat split; try assumption; [discriminate|].
      unfold get_feedback_results. unfold bind at 1. rewrite Hget, Hv.
      reflexivity.
  - right. exists w. repeat split; try reflexivity.
    apply store_within_refl; reflexivity.
Qed.

Lemma hit_backend_keys key d b tr tr' :
  cached_keys (MkWorld (hit_backend key d b) tr) = cached_keys (MkWorld b tr').
Proof.
  unfold cached_keys, hit_backend, aliased. destruct b; cbn; [reflexivity|].
  apply leibniz_equiv. rewrite !dom_alter. reflexivity.
Qed.

(** The cache-hit path. *)
Lemma get_feedback_results_hit amb1 amb2 q feedback_id w d :
  cache_holds w amb1 feedback_id (VDict d) -> d <> [] ->
  exists tr',
    get_feedback_results amb1 amb2 q feedback_id true w =
      (Ok (tag_cache d),
       MkWorld (hit_backend (_get_cache_key feedback_id) d (backend w)) tr') /\
    table_queries tr' = table_queries (trace w).
Proof.
  intros Hh Hd. unfold get_feedback_results.
  destruct (CacheManager_get_holds _ _ _ _ Hh) as (w0 & Hget & Hb & Htq).
  unfold bind at 1. rewrite Hget.
  assert (Ht : truthy (VDict d) = true) by (destruct d; [congruence | reflexivity]).
  rewrite Ht. exists (trace w0). split; [|exact Htq].
  unfold setitem_cached, bind, lift, ret, write_through. cbn.
  rewrite Hb. reflexivity.
Qed.

Lemma CacheManager_set_store amb feedback_id v w :
  backend (snd (CacheManager_set amb feedback_id v w)) =
    stored_backend amb (_get_cache_key feedback_id) v (backend w) /\
  table_queries (trace (snd (CacheManager_set amb feedback_id v w))) =
    table_queries (trace w).
Proof.
  destruct w as [[db|c] tr]; unfold stored_backend; cbn [backend].
  - rewrite CacheManager_set_redis. cbn zeta.
    destruct (json_dumps v); [destruct (redis_fault amb); [|destruct (cache_ttl <=? 0)]|];
      cbn; rewrite ?table_queries_app; cbn; rewrite ?app_nil_r; auto.
  - rewrite CacheManager_set_memory. cbn. rewrite table_queries_app. cbn.
    rewrite app_nil_r. auto.
Qed.

Lemma field_tag_cache_cache_hit d : field (tag_cache d) "cache_hit" = VBool true.
Proof. unfold field, tag_cache. dict_fields. Qed.

Lemma field_tag_cache_retrieved_from d :
  field (tag_cache d) "retrieved_from" = VStr "cache".
Proof. unfold field, tag_cache. dict_fields. Qed.

Lemma field_tag_cache_other d k :
  k <> "cache_hit" -> k <> "retrieved_from" ->
  field (tag_cache d) k = field (VDict d) k.
Proof.
  intros H1 H2. unfold field, tag_cache.
  rewrite !dict_get_set_other by congruence. reflexivity.
Qed.

(** The database branch always returns an envelope; it changes the store
    only by caching a completed response on behalf of a caching caller. *)
Lemma fetch_from_database_outcome amb q feedback_id use_cache w r w' :
  fetch_from_database amb q feedback_id use_cache w = (r, w') ->
  exists v,
    r = Ok v /\
    table_queries (trace w') = table_queries (trace w) ++ [feedback_id] /\
    ((backend w' = backend w /\
      (use_cache = false \/ eq_str (field v "status") "completed" = false)) \/
     (use_cache = true /\
      eq_str (field v "status") "completed" = true /\
      (exists record rest response,
         q feedback_id = Ok (record :: rest) /\ v = tag_database response) /\
      backend w' = stored_backend amb (_get_cache_key feedback_id) v (backend w))).
Proof.
  rewrite fetch_from_database_spec. cbn zeta.
  destruct (q feedback_id) as [[|record rest]|e] eqn:Eq.
  - intros [= <- <-]. eexists. split; [reflexivity|]. cbn.
    rewrite table_queries_app. split; [reflexivity|]. left. auto.
  - destruct (_format_response record _) as [[response|e] w2] eqn:Ef;
      apply format_response_frame in Ef as [Hb Htq]; cbn in Hb, Htq;
      rewrite table_queries_app in Htq; cbn in Htq.
    + destruct use_cache; cbn [andb].
      * destruct (eq_str (field (tag_database response) "status") "completed") eqn:Es;
          intros [= <- <-]; eexists; (split; [reflexivity|]).
        -- destruct (CacheManager_set_store amb feedback_id (tag_database response) w2)
             as [Hs Ht].
           rewrite Ht, Hs, Hb. split; [exact Htq|]. right.
           repeat split; eauto.
        -- split; [exact Htq|]. left. auto.
      * intros [= <- <-]. eexists. split; [reflexivity|].
        split; [exact Htq|]. left. auto.
    + intros [= <- <-]. eexists. split; [reflexivity|]. cbn.
      rewrite table_queries_log. split; [exact Htq|]. left. auto.
  - intros [= <- <-]. eexists. split; [reflexivity|]. cbn.
    rewrite table_queries_log, table_queries_app. split; [reflexivity|]. left. auto.
Qed.

Lemma tag_of_truthy_cached cached r1 r2 :
  py_setitem cached "cache_hit" (VBool true) = Ok r1 ->
  py_setitem r1 "retrieved_from" (VStr "cache") = Ok r2 ->
  exists d, cached = VDict d /\ r2 = tag_cache d /\
            r1 = VDict (dict_set (VStr "cache_hit") (VBool true) d).
Proof.
  destruct cached; cbn; try discriminate. intros [= <-]. cbn. intros [= <-].
  eexists; repeat split.
Qed.

(** A completed response fetched from the table by a caching caller is in
    the store afterwards, under the caller's key, whenever the store accepts
    it. *)
Lemma completed_response_is_stored amb1 amb2 q feedback_id w r w' :
  get_feedback_results amb1 amb2 q feedback_id true w = (Ok r, w') ->
  eq_str (field r "status") "completed" = true ->
  field r "cache_hit" = VBool false ->
  (exists d, r = VDict d /\ d <> []) /\
  match backend w' with
  | MemoryBackend c' =>
      c' !! _get_cache_key feedback_id =
        Some (MkEntry r (time_time amb2 + cache_ttl))
  | RedisBackend db' =>
      forall text,
        json_dumps r = Ok text -> redis_fault amb2 = None -> 0 < cache_ttl ->
        db' !! _get_cache_key feedback_id = Some (text, time_time amb2 + cache_ttl)
  end.
Proof.
  intros Hrun Hst Hhit.
  destruct (get_feedback_results_cases amb1 amb2 q feedback_id true w)
    as [(cached & w0 & _ & _ & _ & _ & _ & E) | (w0 & _ & _ & _ & E)];
    rewrite E in Hrun; clear E.
  - destruct (py_setitem cached "cache_hit" (VBool true)) as [r1|] eqn:E1;
      [|discriminate].
    destruct (py_setitem r1 "retrieved_from" (VStr "cache")) as [r2|] eqn:E2;
      [|discriminate].
    destruct (tag_of_truthy_cached _ _ _ E1 E2) as (d & _ & -> & _).
    inversion Hrun; subst r. rewrite field_tag_cache_cache_hit in Hhit.
    discriminate.
  - apply fetch_from_database_outcome in Hrun
      as (v & [= <-] & _ & [[_ [?|Hn]] | (_ & _ & (rec & rest & resp & _ & ->) & Hb)]);
      try discriminate; try congruence.
    split.
    { eexists. split; [reflexivity|]. apply dict_set_nonempty. }
    rewrite Hb. unfold stored_backend.
    destruct (backend w0) as [db|c].
    + destruct (json_dumps (tag_database resp)) as [text|] eqn:Ed.
      * destruct (redis_fault amb2) eqn:Ef.
        { intros ? _ ?. discriminate. }
        destruct (cache_ttl <=? 0) eqn:Ettl.
        { intros ? _ _ ?. apply Z.leb_le in Ettl. lia. }
        intros text' [= <-] _ _. apply lookup_insert_eq.
      * intros ?. discriminate.
    + apply lookup_insert_eq.
Qed.

(** ** Claims about the cache store and the retrieval service *)

(** C2: when the cache store holds an unexpired response for the id and the
    caller uses the cache, the call returns that response with
    [cache_hit = True] and [retrieved_from = 'cache'], every other field as
    cached, and the durable table is not queried. *)
Theorem cache_hit_is_served_without_table_access amb1 amb2 q feedback_id w d :
  cache_holds w amb1 feedback_id (VDict d) -> d <> [] ->
  exists w',
    get_feedback_results amb1 amb2 q feedback_id true w = (Ok (tag_cache d), w') /\
    field (tag_cache d) "cache_hit" = VBool true /\
    field (tag_cache d) "retrieved_from" = VStr "cache" /\
    (forall k, k <> "cache_hit" -> k <> "retrieved_from" ->
               field (tag_cache d) k = field (VDict d) k) /\
    table_queries (trace w') = table_queries (trace w).
Proof.
  intros Hh Hd.
  destruct (get_feedback_results_hit amb1 amb2 q feedback_id w d Hh Hd)
    as (tr' & Hrun & Htq).
  eexists. split; [exact Hrun|].
  split; [apply field_tag_cache_cache_hit|].
  split; [apply field_tag_cache_retrieved_from|].
  split; [apply field_tag_cache_other | exact Htq].
Qed.

(** C3: a call whose result is not completed, or whose caller does not use
    the cache, adds no key to the cache store, so an id that was absent
    stays absent for a later lookup; a call that fetched a completed
    response for a caching caller has stored it under the id, with the
    deadline of the TTL, whenever the store accepts the write. *)
Theorem cache_is_populated_only_with_completed
    amb1 amb2 q feedback_id use_cache w r w' :
  get_feedback_results amb1 amb2 q feedback_id use_cache w = (Ok r, w') ->
  (use_cache = false \/ eq_str (field r "status") "completed" = false ->
   cached_keys w' ⊆ cached_keys w /\
   (_get_cache_key feedback_id ∉ cached_keys w ->
    forall amb3, exists w'',
      CacheManager_get amb3 feedback_id w' = (Ok VNone, w''))) /\
  (use_cache = true ->
   eq_str (field r "status") "completed" = true ->
   field r "cache_hit" = VBool false ->
   match backend w' with
   | MemoryBackend c' =>
       c' !! _get_cache_key feedback_id =
         Some (MkEntry r (time_time amb2 + cache_ttl))
   | RedisBackend db' =>
       forall text,
         json_dumps r = Ok text -> redis_fault amb2 = None -> 0 < cache_ttl ->
         db' !! _get_cache_key feedback_id = Some (text, time_time amb2 + cache_ttl)
   end).
Proof.
  intros Hrun. split.
  - intros Hno.
    assert (Hkeys : cached_keys w' ⊆ cached_keys w).
    { destruct (get_feedback_results_cases amb1 amb2 q feedback_id use_cache w)
        as [(cached & w0 & _ & _ & _ & Hb & _ & E) | (w0 & Hin & _ & _ & E)];
        rewrite E in Hrun; clear E.
      - destruct (py_setitem cached "cache_hit" (VBool true)) as [r1|] eqn:E1;
          [|discriminate].
        destruct (py_setitem r1 "retrieved_from" (VStr "cache")) as [r2|] eqn:E2;
          [|discriminate].
        destruct (tag_of_truthy_cached _ _ _ E1 E2) as (d & _ & -> & ->).
        inversion Hrun; subst. rewrite Hb.
        fold (hit_backend (_get_cache_key feedback_id) d (backend w)).
        rewrite (hit_backend_keys _ _ _ _ (trace w)). destruct w; reflexivity.
      - apply store_within_keys in Hin.
        apply fetch_from_database_outcome in Hrun
          as (v & [= <-] & _ & [[Hb _] | (Huc & Hst & _)]).
        + unfold cached_keys in *. rewrite Hb. exact Hin.
        + destruct Hno; congruence. }
    split; [exact Hkeys|].
    intros Habs amb3. apply CacheManager_get_absent.
    intros Hin. apply Habs, Hkeys, Hin.
  - intros -> Hst Hhit.
    apply (completed_response_is_stored _ _ _ _ _ _ _ Hrun Hst Hhit).
Qed.

(** C1, as the code has it: when a caching call fetched a response whose
    status is completed, a second caching call made before the TTL has run
    out returns [cache_hit = True] and the same [results]; with the network
    cache this needs the two cache calls to succeed and the response to
    survive serialisation. *)
Theorem completed_response_is_then_served_from_cache
    amb1 amb2 amb3 amb4 q q' feedback_id w r1 w1 :
  get_feedback_results amb1 amb2 q feedback_id true w = (Ok r1, w1) ->
  eq_str (field r1 "status") "completed" = true ->
  field r1 "cache_hit" = VBool false ->
  time_time amb3 < time_time amb2 + cache_ttl ->
  (redis_mode w1 = true ->
   redis_fault amb2 = None /\ redis_fault amb3 = None /\ 0 < cache_ttl /\
   exists text, json_dumps r1 = Ok text /\ text <> "" /\ json_loads text = Ok r1) ->
  exists r2 w2,
    get_feedback_results amb3 amb4 q' feedback_id true w1 = (Ok r2, w2) /\
    field r2 "cache_hit" = VBool true /\
    field r2 "retrieved_from" = VStr "cache" /\
    field r2 "results" = field r1 "results" /\
    table_queries (trace w2) = table_queries (trace w1).
Proof.
  intros Hrun Hst Hhit Htime Hredis.
  destruct (completed_response_is_stored _ _ _ _ _ _ _ Hrun Hst Hhit)
    as [(d & -> & Hd) Hstore].
  assert (Hholds : cache_holds w1 amb3 feedback_id (VDict d)).
  { unfold cache_holds. unfold redis_mode in Hredis.
    destruct (backend w1) as [db|c].
    - destruct (Hredis eq_refl) as (Hf2 & Hf3 & Httl & text & Hd1 & Hne & Hl).
      exists text, (time_time amb2 + cache_ttl). auto.
    - exists (time_time amb2 + cache_ttl). auto. }
  destruct (get_feedback_results_hit amb3 amb4 q' feedback_id w1 d Hholds Hd)
    as (tr' & Hrun2 & Htq).
  do 2 eexists. split; [exact Hrun2|].
  split; [apply field_tag_cache_cache_hit|].
  split; [apply field_tag_cache_retrieved_from|].
  split; [apply field_tag_cache_other; discriminate | exact Htq].
Qed.

(** C6: [CacheManager.get] and [CacheManager.set] return on every input; a
    fault of the network cache makes [get] log the error and answer [None],
    so that a caching [get_feedback_results] goes on to the durable table,
    and makes [set] log the error and answer [False], the store unchanged;
    the response of the database branch does not depend on the cache write. *)
Theorem cache_operations_never_raise amb feedback_id v w :
  returns (CacheManager_get amb feedback_id) w /\
  returns (CacheManager_set amb feedback_id v) w /\
  (forall e,
     redis_mode w = true -> redis_fault amb = Some e ->
     let w0 :=
       MkWorld (backend w)
         ((trace w ++ [RedisGet (_get_cache_key feedback_id)]) ++
          [Log ERROR ("Cache retrieval error: " +:+ exn_str e)]) in
     CacheManager_get amb feedback_id w = (Ok VNone, w0) /\
     (forall amb2 q,
        get_feedback_results amb amb2 q feedback_id true w =
        fetch_from_database amb2 q feedback_id true w0) /\
     exists tr',
       CacheManager_set amb feedback_id v w = (Ok false, MkWorld (backend w) tr') /\
       exists msg, last tr' = Some (Log ERROR ("Cache storage error: " +:+ msg))) /\
  (forall amb' q use_cache,
     fst (fetch_from_database amb q feedback_id use_cache w) =
     fst (fetch_from_database amb' q feedback_id use_cache w)).
Proof.
  split; [|split; [|split]].
  - destruct (CacheManager_get_returns amb feedback_id w) as (x & w0 & H & _).
    exists x, w0. exact H.
  - destruct (CacheManager_set_returns amb feedback_id v w) as (ok & w0 & H & _).
    exists ok, w0. exact H.
  - intros e Hmode Hfault. destruct w as [[db|c] tr]; [|discriminate].
    cbn zeta.
    assert (Hget : CacheManager_get amb feedback_id (MkWorld (RedisBackend db) tr) =
              (Ok VNone,
               MkWorld (RedisBackend db)
                 ((tr ++ [RedisGet (_get_cache_key feedback_id)]) ++
                  [Log ERROR ("Cache retrieval error: " +:+ exn_str e)]))).
    { rewrite CacheManager_get_redis. cbn zeta. rewrite Hfault. reflexivity. }
    split; [exact Hget|]. split.
    + intros amb2 q. unfold get_feedback_results. unfold bind at 1.
      rewrite Hget. reflexivity.
    + rewrite CacheManager_set_redis. cbn zeta. rewrite Hfault.
      destruct (json_dumps v) as [text|e'];
        (eexists; split; [reflexivity|]; eexists; apply last_snoc).
  - intros amb' q use_cache. rewrite !fetch_from_database_spec. cbn zeta.
    destruct (q feedback_id) as [[|record rest]|e]; try reflexivity.
    destruct (_format_response record _) as [[response|e] w2]; [|reflexivity].
    destruct (use_cache && _)%bool; reflexivity.
Qed.

(** C7: when the cache backend answers, [invalidate_cache] returns [True]
    whether or not the key is present, leaves no entry under the key, and
    doing it again returns [True] and leaves the store as it was. *)
Theorem invalidate_cache_is_idempotent amb1 amb2 feedback_id w :
  backend_answers w amb1 -> backend_answers w amb2 ->
  exists w1 w2,
    invalidate_cache amb1 feedback_id w = (Ok true, w1) /\
    (_get_cache_key feedback_id ∉ cached_keys w1) /\
    (forall amb3, exists w3,
       CacheManager_get amb3 feedback_id w1 = (Ok VNone, w3)) /\
    invalidate_cache amb2 feedback_id w1 = (Ok true, w2) /\
    backend w2 = backend w1.
Proof.
  unfold backend_answers, invalidate_cache.
  destruct w as [[db|c] tr]; cbn [redis_mode backend]; intros H1 H2.
  - rewrite CacheManager_invalidate_redis. cbn zeta. rewrite (H1 eq_refl).
    do 2 eexists. split; [reflexivity|].
    assert (Habs : _get_cache_key feedback_id ∉
              cached_keys (MkWorld (RedisBackend (delete (_get_cache_key feedback_id) db))
                 ((tr ++ [RedisDelete (_get_cache_key feedback_id)]) ++
                  [Log INFO ("Cache invalidated for feedback_id: " +:+ feedback_id)]))).
    { unfold cached_keys. cbn. apply not_elem_of_dom, lookup_delete_eq. }
    split; [exact Habs|].
    split; [intros amb3; apply CacheManager_get_absent, Habs|].
    rewrite CacheManager_invalidate_redis. cbn zeta. rewrite (H2 eq_refl).
    split; [reflexivity|]. cbn. rewrite delete_delete_eq. reflexivity.
  - rewrite CacheManager_invalidate_memory.
    do 2 eexists. split; [reflexivity|].
    assert (Habs : _get_cache_key feedback_id ∉
              cached_keys (MkWorld (MemoryBackend (delete (_get_cache_key feedback_id) c))
                 (tr ++ [Log INFO ("Cache invalidated for feedback_id: " +:+ feedback_id)]))).
    { unfold cached_keys. cbn. apply not_elem_of_dom, lookup_delete_eq. }
    split; [exact Habs|].
    split; [intros amb3; apply CacheManager_get_absent, Habs|].
    rewrite CacheManager_invalidate_memory.
    split; [reflexivity|]. cbn. rewrite delete_delete_eq. reflexivity.
Qed.

(** ** Facts about the states the process can be in *)

Lemma get_cache_key_inj a b : _get_cache_key a = _get_cache_key b -> a = b.
Proof.
  unfold _get_cache_key, cache_key_prefix. intros H.
  cbv [String.append] in H. congruence.
Qed.

Lemma keys_of_stored amb key v w w0 :
  backend w = stored_backend amb key v (backend w0) ->
  cached_keys w ⊆ {[key]} ∪ cached_keys w0.
Proof.
  unfold cached_keys, stored_backend. intros ->.
  destruct (backend w0) as [db|c].
  - destruct (json_dumps v); [destruct (redis_fault amb); [|destruct (cache_ttl <=? 0)]|];
      try apply union_subseteq_r.
    rewrite dom_insert_L. reflexivity.
  - rewrite dom_insert_L. reflexivity.
Qed.

Lemma keys_of_aliased key obj w w0 :
  backend w = aliased key obj (backend w0) -> cached_keys w = cached_keys w0.
Proof.
  unfold cached_keys, aliased. intros ->.
  destruct (backend w0); [reflexivity|].
  apply leibniz_equiv. rewrite dom_alter. reflexivity.
Qed.

Lemma CacheManager_invalidate_within amb feedback_id w r w' :
  CacheManager_invalidate amb feedback_id w = (r, w') -> store_within w' w.
Proof.
  destruct w as [[db|c] tr].
  - rewrite CacheManager_invalidate_redis. cbn zeta.
    destruct (redis_fault amb); intros [= <- <-]; unfold store_within; cbn;
      [reflexivity | apply delete_subseteq].
  - rewrite CacheManager_invalidate_memory. intros [= <- <-].
    unfold store_within; cbn. apply delete_subseteq.
Qed.

Lemma caller_assigns_keys feedback_id k x w :
  cached_keys (caller_assigns feedback_id k x w) = cached_keys w.
Proof.
  unfold caller_assigns. destruct (backend w) as [db|c] eqn:Eb; [reflexivity|].
  destruct (c !! _get_cache_key feedback_id) as [e|]; [|reflexivity].
  destruct (py_setitem (data e) k x) as [obj|]; [|reflexivity].
  eapply keys_of_aliased. cbn [backend]. rewrite Eb. reflexivity.
Qed.

(** Keys enter the store only for ids the table answered with a record. *)
Lemma get_feedback_results_keys amb1 amb2 q feedback_id use_cache w r w' :
  get_feedback_results amb1 amb2 q feedback_id use_cache w = (r, w') ->
  cached_keys w' ⊆ cached_keys w \/
  ((exists record rest, q feedback_id = Ok (record :: rest)) /\
   cached_keys w' ⊆ {[_get_cache_key feedback_id]} ∪ cached_keys w).
Proof.
  intros Hrun.
  destruct (get_feedback_results_cases amb1 amb2 q feedback_id use_cache w)
    as [(cached & w0 & _ & _ & _ & Hb & _ & E) | (w0 & Hin & _ & _ & E)];
    rewrite E in Hrun; clear E.
  - left.
    assert (H0 : cached_keys w0 = cached_keys w) by (unfold cached_keys; rewrite Hb; reflexivity).
    set (key := _get_cache_key feedback_id) in *.
    destruct (py_setitem cached "cache_hit" (VBool true)) as [r1|].
    + destruct (py_setitem r1 "retrieved_from" (VStr "cache")) as [r2|];
        inversion Hrun; subst r w'; rewrite <- H0.
      * erewrite (keys_of_aliased key r2 (MkWorld _ _)
                    (MkWorld (aliased key r1 (backend w0)) (trace w0)))
          by reflexivity.
        erewrite (keys_of_aliased key r1 (MkWorld _ _) w0) by reflexivity.
        reflexivity.
      * erewrite (keys_of_aliased key r1 (MkWorld _ _) w0) by reflexivity.
        reflexivity.
    + inversion Hrun; subst. rewrite H0. reflexivity.
  - apply store_within_keys in Hin.
    apply fetch_from_database_outcome in Hrun
      as (v & _ & _ & [[Hb _] | (_ & _ & (record & rest & resp & Hq & _) & Hb)]).
    + left. unfold cached_keys in *. rewrite Hb. exact Hin.
    + right. split; [eauto|].
      apply keys_of_stored in Hb.
      intros x Hx. apply Hb, elem_of_union in Hx as [Hx | Hx];
        apply elem_of_union; [left; exact Hx | right; exact (Hin x Hx)].
Qed.

Lemma reachable_no_phantom_keys never_stored w :
  reachable never_stored w -> no_phantom_keys never_stored w.
Proof.
  unfold no_phantom_keys.
  induction 1 as [redis_ok | w amb1 amb2 q fid uc r w' _ IH Hq Hrun
                 | w amb fid r w' _ IH Hrun | w fid k x _ IH];
    intros id Hid.
  - destruct redis_ok; unfold cached_keys; cbn; rewrite dom_empty_L;
      apply not_elem_of_empty.
  - specialize (IH id Hid).
    destruct (get_feedback_results_keys _ _ _ _ _ _ _ _ Hrun)
      as [Hk | [(record & rest & Hrec) Hk]];
      [intros Hin; apply IH, Hk, Hin|].
    assert (Hne : id <> fid) by (intros ->; exact (Hq fid record rest Hid Hrec)).
    intros Hin. apply Hk, elem_of_union in Hin as [Hin%elem_of_singleton | Hin].
    + apply get_cache_key_inj in Hin. contradiction.
    + exact (IH Hin).
  - specialize (IH id Hid).
    apply CacheManager_invalidate_within, store_within_keys in Hrun.
    intros Hin. apply IH, Hrun, Hin.
  - rewrite caller_assigns_keys. apply IH, Hid.
Qed.

(** C4: for an id the durable table has never held a record of,
    [get_feedback_results] returns the not-found envelope
    ([status = 'not_found'], [cache_hit = False],
    [retrieved_from = 'database']) as an ordinary result, whether or not
    the caller uses the cache. *)
Theorem absent_record_is_not_found
    never_stored amb1 amb2 q feedback_id use_cache w :
  reachable never_stored w ->
  never_stored feedback_id ->
  q feedback_id = Ok [] ->
  exists w',
    get_feedback_results amb1 amb2 q feedback_id use_cache w =
      (Ok (not_found_result feedback_id), w') /\
    field (not_found_result feedback_id) "status" = VStr "not_found" /\
    field (not_found_result feedback_id) "cache_hit" = VBool false /\
    field (not_found_result feedback_id) "retrieved_from" = VStr "database".
Proof.
  intros Hreach Hid Hq.
  pose proof (reachable_no_phantom_keys _ _ Hreach feedback_id Hid) as Habs.
  assert (Hfetch : forall w0, exists w',
            fetch_from_database amb2 q feedback_id use_cache w0 =
              (Ok (not_found_result feedback_id), w')).
  { intros w0. rewrite fetch_from_database_spec, Hq. eexists; reflexivity. }
  unfold get_feedback_results. destruct use_cache.
  - destruct (CacheManager_get_absent amb1 feedback_id w Habs) as [w0 Hget].
    unfold bind. rewrite Hget. cbn [truthy].
    destruct (Hfetch w0) as [w' ->]. exists w'. repeat split.
  - destruct (Hfetch w) as [w' ->]. exists w'. repeat split.
Qed.

Section Codec.

(** What the module relies on from [json]: the text of a mapping does not
    decode to a non-empty value of another type. *)
Hypothesis mapping_text_decodes_to_mapping :
  forall d text v,
    json_dumps (VDict d) = Ok text -> json_loads text = Ok v ->
    truthy v = true -> isinstance_dict v = true.

Lemma cached_mappings_within w' w :
  store_within w' w -> cached_mappings w -> cached_mappings w'.
Proof.
  unfold store_within, cached_mappings, mappings_of.
  destruct (backend w') as [db'|c'], (backend w) as [db|c]; try contradiction.
  - intros Hsub H key text deadline v Hl. eapply H.
    eapply lookup_weaken; eassumption.
  - intros Hsub H key e Hl. eapply H. eapply lookup_weaken; eassumption.
Qed.

Lemma mappings_of_aliased key d b :
  mappings_of b -> mappings_of (aliased key (VDict d) b).
Proof.
  unfold mappings_of, aliased. destruct b as [db|c]; [auto|].
  intros H k e. rewrite lookup_alter. case_decide.
  - destruct (c !! key); cbn; [|discriminate]. intros [= <-]. reflexivity.
  - apply H.
Qed.

Lemma mappings_of_stored amb key d b :
  mappings_of b -> mappings_of (stored_backend amb key (VDict d) b).
Proof using mapping_text_decodes_to_mapping.
  unfold mappings_of, stored_backend. destruct b as [db|c].
  - destruct (json_dumps (VDict d)) as [text|] eqn:Ed; [|auto].
    destruct (redis_fault amb); [auto|]. destruct (cache_ttl <=? 0); [auto|].
    intros H k text' deadline v. rewrite lookup_insert. case_decide.
    + intros [= <- <-]. eapply mapping_text_decodes_to_mapping, Ed.
    + apply H.
  - intros H k e. rewrite lookup_insert. case_decide.
    + intros [= <-]. reflexivity.
    + apply H.
Qed.

Lemma get_feedback_results_mappings amb1 amb2 q feedback_id use_cache w r w' :
  get_feedback_results amb1 amb2 q feedback_id use_cache w = (r, w') ->
  cached_mappings w -> cached_mappings w'.
Proof using mapping_text_decodes_to_mapping.
  intros Hrun Hinv.
  destruct (get_feedback_results_cases amb1 amb2 q feedback_id use_cache w)
    as [(cached & w0 & _ & _ & _ & Hb & _ & E) | (w0 & Hin & _ & _ & E)];
    rewrite E in Hrun; clear E.
  - assert (H0 : mappings_of (backend w0)) by (rewrite Hb; exact Hinv).
    destruct (py_setitem cached "cache_hit" (VBool true)) as [r1|] eqn:E1;
      [|inversion Hrun; subst; exact H0].
    destruct cached; try discriminate. cbn in E1. inversion E1; subst r1.
    cbn in Hrun. inversion Hrun; subst. unfold cached_mappings. cbn [backend].
    apply mappings_of_aliased, mappings_of_aliased, H0.
  - pose proof (cached_mappings_within _ _ Hin Hinv) as H0.
    apply fetch_from_database_outcome in Hrun
      as (v & _ & _ & [[Hb _] | (_ & _ & (record & rest & resp & _ & ->) & Hb)]);
      unfold cached_mappings in *; rewrite Hb; [exact H0|].
    apply mappings_of_stored, H0.
Qed.

Lemma caller_assigns_mappings feedback_id k x w :
  cached_mappings w -> cached_mappings (caller_assigns feedback_id k x w).
Proof.
  intros H. unfold caller_assigns.
  destruct (backend w) as [db|c] eqn:Eb; [exact H|].
  destruct (c !! _get_cache_key feedback_id) as [e|]; [|exact H].
  destruct (data e) as [| | | | |d]; cbn [py_setitem]; try exact H.
  unfold cached_mappings in H. rewrite Eb in H.
  change (mappings_of (aliased (_get_cache_key feedback_id)
                         (VDict (dict_set (VStr k) x d)) (MemoryBackend c))).
  apply mappings_of_aliased, H.
Qed.

Lemma reachable_cached_mappings never_stored w :
  reachable never_stored w -> cached_mappings w.
Proof using mapping_text_decodes_to_mapping.
  induction 1 as [redis_ok | w amb1 amb2 q fid uc r w' _ IH _ Hrun
                 | w amb fid r w' _ IH Hrun | w fid k x _ IH].
  - destruct redis_ok; unfold cached_mappings, mappings_of; cbn; intros *;
      rewrite lookup_empty; discriminate.
  - eapply get_feedback_results_mappings; eassumption.
  - eapply cached_mappings_within; [|exact IH].
    eapply CacheManager_invalidate_within, Hrun.
  - apply caller_assigns_mappings, IH.
Qed.

(** C5: in every state the process can reach, [get_feedback_results] and
    [invalidate_cache] return a value and raise nothing; and when the query
    of the durable table faults, the call returns the error envelope
    ([status = 'error'], the message of the fault, [cache_hit = False],
    [retrieved_from = 'error']) unless the cache answered and the table was
    not queried at all. *)
Theorem public_operations_never_raise
    never_stored amb1 amb2 amb q feedback_id use_cache w :
  reachable never_stored w ->
  returns (get_feedback_results amb1 amb2 q feedback_id use_cache) w /\
  returns (invalidate_cache amb feedback_id) w /\
  (forall e,
     q feedback_id = Raise e ->
     exists r w',
       get_feedback_results amb1 amb2 q feedback_id use_cache w = (Ok r, w') /\
       (r = error_result feedback_id e \/
        (use_cache = true /\ field r "cache_hit" = VBool true /\
         table_queries (trace w') = table_queries (trace w)))).
Proof using mapping_text_decodes_to_mapping.
  intros Hreach. apply reachable_cached_mappings in Hreach.
  assert (Hcases :
    (exists d w', use_cache = true /\
       get_feedback_results amb1 amb2 q feedback_id use_cache w =
         (Ok (tag_cache d), w') /\
       table_queries (trace w') = table_queries (trace w)) \/
    (exists w0, get_feedback_results amb1 amb2 q feedback_id use_cache w =
       fetch_from_database amb2 q feedback_id use_cache w0)).
  { destruct (get_feedback_results_cases amb1 amb2 q feedback_id use_cache w)
      as [(cached & w0 & Huc & Hh & Ht & Hb & Htq & E) | (w0 & _ & _ & _ & E)];
      [left | right; eauto].
    assert (Hd : isinstance_dict cached = true).
    { unfold cached_mappings, mappings_of, cache_holds in *.
      destruct (backend w) as [db|c].
      - destruct Hh as (text & deadline & Hl & _ & _ & _ & Hj). eauto.
      - destruct Hh as (deadline & Hl & _). apply (Hreach _ _ Hl). }
    destruct cached as [| | | | |d]; try discriminate.
    cbn in E. eexists d, _. split; [exact Huc|]. split; [exact E | exact Htq]. }
  split; [|split].
  - destruct Hcases as [(d & w' & _ & E & _) | (w0 & E)].
    + eexists _, _. exact E.
    + destruct (fetch_from_database amb2 q feedback_id use_cache w0) as [r w'] eqn:Ef.
      destruct (fetch_from_database_outcome _ _ _ _ _ _ _ Ef) as (v & -> & _).
      eexists _, _. exact E.
  - unfold returns, invalidate_cache. destruct w as [[db|c] tr].
    + rewrite CacheManager_invalidate_redis. cbn zeta.
      destruct (redis_fault amb); eexists _, _; reflexivity.
    + rewrite CacheManager_invalidate_memory. eexists _, _; reflexivity.
  - intros e Hq.
    destruct Hcases as [(d & w' & Huc & E & Htq) | (w0 & E)].
    + eexists _, _. split; [exact E|]. right.
      split; [exact Huc|]. split; [apply field_tag_cache_cache_hit | exact Htq].
    + rewrite E, fetch_from_database_spec, Hq. cbn zeta.
      eexists _, _. split; [reflexivity|]. left. reflexivity.
Qed.

End Codec.

(** ** More about the grouping of recommendations *)

Lemma priority_append_absent priority rec buckets :
  existsb (fun b => String.eqb (fst b) priority) buckets = false ->
  priority_append priority rec buckets = buckets.
Proof.
  unfold priority_append. induction buckets as [|b buckets IH]; [reflexivity|].
  cbn [existsb map]. intros H. apply orb_false_iff in H as [Hb Hrest].
  rewrite Hb, (IH Hrest). reflexivity.
Qed.

(** One turn of the loop on a well-shaped item. *)
Lemma group_one_shaped g rec :
  recommendation_ok rec = true ->
  group_one g rec =
  Ok (MkGroups
        (priority_append (priority_of rec) rec (by_priority g))
        (department_append (department_of rec) rec (by_department g))
        (immediate_actions g ++
           if is_immediate rec then [immediate_summary rec] else [])).
Proof.
  destruct rec as [| | | | |d]; try discriminate. cbn [recommendation_ok].
  intros H. apply andb_true_iff in H as [H Ht]. apply andb_true_iff in H as [Hp Hd].
  unfold group_one, is_immediate, immediate_summary, priority_of, timeline_of,
    department_of, item_get.
  cbn [py_get res_bind].
  destruct (dict_get d "priority" (VStr "medium")) as [| | |p| |]; try discriminate.
  destruct (dict_get d "timeline" (VStr "")) as [| | |t| |]; try discriminate.
  cbn [py_lower res_bind]. rewrite Hd.
  assert (Hbuckets :
    by_priority
      (if existsb (fun b => String.eqb (fst b) (str_lower p)) (by_priority g)
       then MkGroups (priority_append (str_lower p) (VDict d) (by_priority g))
              (by_department g) (immediate_actions g)
       else g) = priority_append (str_lower p) (VDict d) (by_priority g) /\
    by_department
      (if existsb (fun b => String.eqb (fst b) (str_lower p)) (by_priority g)
       then MkGroups (priority_append (str_lower p) (VDict d) (by_priority g))
              (by_department g) (immediate_actions g)
       else g) = by_department g /\
    immediate_actions
      (if existsb (fun b => String.eqb (fst b) (str_lower p)) (by_priority g)
       then MkGroups (priority_append (str_lower p) (VDict d) (by_priority g))
              (by_department g) (immediate_actions g)
       else g) = immediate_actions g).
  { destruct (existsb _ (by_priority g)) eqn:E; cbn; [auto|].
    rewrite (priority_append_absent _ _ _ E). auto. }
  destruct Hbuckets as (-> & -> & ->). cbn [res_bind by_priority by_department immediate_actions].
  destruct (String.eqb (str_lower p) "high"); cbn [res_bind orb].
  - reflexivity.
  - destruct (existsb (String.eqb (str_lower t)) urgent_timelines); cbn [res_bind].
    + reflexivity.
    + rewrite app_nil_r. reflexivity.
Qed.

(** The loop on a list of well-shaped items, container by container. *)
Lemma group_all_shaped recs : forall g,
  forallb recommendation_ok recs = true ->
  exists g',
    group_all g recs = Ok g' /\
    by_priority g' =
      map (fun b => (fst b,
                     snd b ++ List.filter (fun r => String.eqb (fst b) (priority_of r)) recs))
        (by_priority g) /\
    by_department g' =
      fold_left (fun d r => department_append (department_of r) r d) recs
        (by_department g) /\
    immediate_actions g' =
      immediate_actions g ++ map immediate_summary (List.filter is_immediate recs).
Proof.
  induction recs as [|rec recs IH]; intros g H.
  - exists g. cbn. split; [reflexivity|]. split.
    + rewrite <- (map_id (by_priority g)) at 1. apply map_ext.
      intros [k l]. cbn. rewrite app_nil_r. reflexivity.
    + split; [reflexivity | rewrite app_nil_r; reflexivity].
  - cbn [forallb] in H. apply andb_true_iff in H as [Hrec Hrecs].
    cbn [group_all]. rewrite (group_one_shaped g rec Hrec). cbn [res_bind].
    match goal with
    | |- context [group_all ?g1 recs] =>
        destruct (IH g1 Hrecs) as (g' & Hrun & Hp & Hd & Hi)
    end.
    exists g'. split; [exact Hrun|].
    cbn [by_priority by_department immediate_actions] in Hp, Hd, Hi.
    split; [|split].
    + rewrite Hp. unfold priority_append. rewrite map_map. apply map_ext.
      intros [k l]. cbn [fst snd List.filter].
      destruct (String.eqb k (priority_of rec)); cbn [fst snd].
      * rewrite <- app_assoc. reflexivity.
      * reflexivity.
    + rewrite Hd. reflexivity.
    + rewrite Hi. cbn [List.filter]. destruct (is_immediate rec); cbn [map].
      * rewrite <- app_assoc. reflexivity.
      * rewrite app_nil_r. reflexivity.
Qed.

(** [==] on scalars is an equivalence. *)
Lemma key_eqb_sym a b : key_eqb a b = key_eqb b a.
Proof.
  destruct a, b; cbn; try reflexivity.
  - destruct b, b0; reflexivity.
  - apply Z.eqb_sym.
  - apply String.eqb_sym.
Qed.

Lemma key_eqb_trans a b c :
  key_eqb a b = true -> key_eqb b c = key_eqb a c.
Proof.
  destruct a, b, c; unfold key_eqb;
    repeat match goal with x : bool |- _ => destruct x end;
    cbv beta iota delta [Bool.eqb]; try discriminate; try reflexivity;
    intros H;
    try (apply Z.eqb_eq in H); try (apply String.eqb_eq in H); subst;
    try reflexivity; apply Z.eqb_sym.
Qed.

Lemma group_lookup_append department rec groups k :
  group_lookup k (department_append department rec groups) =
  if key_eqb department k
  then Some (match group_lookup k groups with
             | Some l => l ++ [rec]
             | None => [rec]
             end)
  else group_lookup k groups.
Proof.
  induction groups as [|[k0 l0] groups IH]; cbn [department_append group_lookup].
  - reflexivity.
  - destruct (key_eqb k0 department) eqn:E0; cbn [group_lookup].
    + rewrite (key_eqb_trans _ _ k E0).
      destruct (key_eqb k0 k); reflexivity.
    + destruct (key_eqb k0 k) eqn:E1.
      * rewrite (key_eqb_sym department k), (key_eqb_trans _ _ department E1), E0.
        reflexivity.
      * exact IH.
Qed.

Lemma group_lookup_fold recs : forall groups k,
  group_lookup k
    (fold_left (fun d r => department_append (department_of r) r d) recs groups) =
  match group_lookup k groups,
        List.filter (fun r => key_eqb (department_of r) k) recs with
  | Some l, found => Some (l ++ found)
  | None, [] => None
  | None, found => Some found
  end.
Proof.
  induction recs as [|rec recs IH]; intros groups k; cbn [fold_left List.filter].
  - destruct (group_lookup k groups); [rewrite app_nil_r|]; reflexivity.
  - rewrite IH, group_lookup_append.
    destruct (key_eqb (department_of rec) k).
    + destruct (group_lookup k groups) as [l|]; [rewrite <- app_assoc|]; reflexivity.
    + reflexivity.
Qed.

Lemma dict_lookup_groups k groups :
  dict_lookup k (map (fun b => (fst b, VList (snd b))) groups) =
  option_map VList (group_lookup k groups).
Proof.
  induction groups as [|[k0 l0] groups IH]; cbn; [reflexivity|].
  destruct (key_eqb k0 k); [reflexivity | exact IH].
Qed.

(** The formatted mapping of a non-empty list of well-shaped items. *)
Lemma format_recommendations_shaped recs :
  recs <> [] -> forallb recommendation_ok recs = true ->
  exists g,
    _format_recommendations (VList recs) =
      Ok (formatted_of (Z.of_nat (length recs)) g (VList recs)) /\
    by_priority g =
      map (fun p => (p, List.filter (fun r => String.eqb p (priority_of r)) recs))
        ["high"; "medium"; "low"] /\
    by_department g =
      fold_left (fun d r => department_append (department_of r) r d) recs [] /\
    immediate_actions g = map immediate_summary (List.filter is_immediate recs).
Proof.
  intros Hne Hok. unfold _format_recommendations.
  destruct recs as [|rec recs]; [congruence|].
  cbn [truthy negb py_len py_iter res_bind].
  destruct (group_all_shaped (rec :: recs) empty_groups Hok)
    as (g & -> & Hp & Hd & Hi).
  exists g. split; [reflexivity|]. split; [exact Hp|]. split; [exact Hd | exact Hi].
Qed.

(** ** Properties of the recommendation grouping *)

(** X1: each priority bucket holds exactly the items whose lowered priority
    is the bucket's name, in input order; an item with any other priority is
    in no bucket. *)
Theorem priority_buckets_are_filters recs :
  recs <> [] -> forallb recommendation_ok recs = true ->
  exists out,
    _format_recommendations (VList recs) = Ok out /\
    field out "by_priority" =
      VDict
        [(VStr "high",
           VList (List.filter (fun r => String.eqb "high" (priority_of r)) recs));
         (VStr "medium",
           VList (List.filter (fun r => String.eqb "medium" (priority_of r)) recs));
         (VStr "low",
           VList (List.filter (fun r => String.eqb "low" (priority_of r)) recs))].
Proof.
  intros Hne Hok.
  destruct (format_recommendations_shaped recs Hne Hok) as (g & -> & Hp & _).
  eexists. split; [reflexivity|].
  unfold formatted_of. rewrite Hp. reflexivity.
Qed.

(** X2: the department groups partition the items: under each department
    stand exactly the items of that department (the default being
    ['General']), in input order, and a department no item has is no key. *)
Theorem department_groups_are_filters recs :
  recs <> [] -> forallb recommendation_ok recs = true ->
  exists out groups,
    _format_recommendations (VList recs) = Ok out /\
    field out "by_department" = VDict groups /\
    forall k,
      dict_lookup k groups =
      match List.filter (fun r => key_eqb (department_of r) k) recs with
      | [] => None
      | found => Some (VList found)
      end.
Proof.
  intros Hne Hok.
  destruct (format_recommendations_shaped recs Hne Hok) as (g & -> & _ & Hd & _).
  eexists. eexists. split; [reflexivity|]. split; [reflexivity|].
  intros k. rewrite dict_lookup_groups, Hd, group_lookup_fold. cbn [group_lookup].
  destruct (List.filter _ recs); reflexivity.
Qed.

(** X3: the immediate actions are, in input order, the four-field summaries
    of exactly the items that have priority high or an urgent timeline, both
    compared in lower case; so a low-priority item due in ['24 hours'] is
    among them. *)
Theorem immediate_actions_are_the_urgent_items recs :
  recs <> [] -> forallb recommendation_ok recs = true ->
  exists out,
    _format_recommendations (VList recs) = Ok out /\
    field out "immediate_actions" =
      VList (map immediate_summary (List.filter is_immediate recs)).
Proof.
  intros Hne Hok.
  destruct (format_recommendations_shaped recs Hne Hok) as (g & -> & _ & _ & Hi).
  eexists. split; [reflexivity|].
  unfold formatted_of. rewrite Hi. reflexivity.
Qed.

(** ** Properties of the response normalizer *)

Lemma dict_contains_set_other k k' v d :
  k <> k' ->
  dict_contains (VStr k') (dict_set (VStr k) v d) = dict_contains (VStr k') d.
Proof.
  intros H. unfold dict_contains. rewrite dict_lookup_set_other by exact H.
  reflexivity.
Qed.

(** X4: a top-level [analysis] attribute has no effect on the response of a
    record that has a [results] attribute, whatever [results] holds: the
    root-level fallback is only for records without [results]. *)
Theorem top_level_analysis_is_ignored_beside_results record v w :
  dict_contains (VStr "results") record = true ->
  _format_response (dict_set (VStr "analysis") v record) w =
  _format_response record w.
Proof.
  intros Hres. unfold dict_contains in Hres.
  destruct (dict_lookup (VStr "results") record) as [results|] eqn:E; [|discriminate].
  unfold _format_response, _extract_analysis_data, select_payload, dict_item.
  rewrite !dict_get_set_other by discriminate.
  rewrite !dict_lookup_set_other by discriminate.
  rewrite E. reflexivity.
Qed.

(** X5: a record in the processing state is reported as processing, with
    the estimated completion and without a [results] field, whatever payload
    it carries; nothing is decoded and nothing is logged. *)
Theorem processing_record_is_passed_through record feedback_id w :
  dict_lookup (VStr "feedback_id") record = Some feedback_id ->
  dict_get record "status" (VStr "completed") = VStr "processing" ->
  exists response,
    _format_response record w = (Ok response, w) /\
    dict_get response "feedback_id" VNone = feedback_id /\
    dict_get response "status" VNone = VStr "processing" /\
    dict_get response "message" VNone = VStr "Feedback is still being processed" /\
    dict_get response "estimated_completion" VNone = VStr "Within 2-3 minutes" /\
    dict_lookup (VStr "results") response = None.
Proof.
  intros Hid Hst. unfold _format_response, dict_item. rewrite Hid, Hst.
  cbn. eexists. split; [reflexivity|]. repeat split.
Qed.

(** X6: whatever a response reports as its status, its
    [cache_metadata.cacheable] says whether the stored status was
    ['completed'], and the identifying and bookkeeping fields are those of
    the record. *)
Theorem response_passes_record_fields_through record w response w' :
  _format_response record w = (Ok response, w') ->
  dict_item record "feedback_id" = Ok (dict_get response "feedback_id" VNone) /\
  dict_get response "created_at" VNone = dict_get record "created_at" VNone /\
  dict_get response "updated_at" VNone = dict_get record "updated_at" VNone /\
  dict_get response "processing_timestamp" VNone =
    dict_get record "processing_timestamp" VNone /\
  dict_get response "request_id" VNone = dict_get record "request_id" VNone /\
  dict_get response "original_data" VNone =
    dict_get record "original_data" (VDict []) /\
  dict_get response "cache_metadata" VNone =
    VDict [(VStr "cacheable",
             VBool (eq_str (dict_get record "status" (VStr "completed")) "completed"));
           (VStr "cache_ttl", VNum CACHE_TTL_SECONDS)].
Proof.
  unfold _format_response, bind, lift, ret.
  destruct (dict_item record "feedback_id") as [fid|]; [|discriminate].
  destruct (status_messages_get _ _) as [message|]; [|discriminate].
  destruct (eq_str (dict_get record "status" (VStr "completed")) "processing").
  - intros [= <- <-]. repeat split; dict_fields.
  - destruct (_extract_analysis_data record w) as [[payload|] w1]; [|discriminate].
    destruct (truthy payload).
    + destruct (_structure_analysis_results payload) as [results|]; [|discriminate].
      intros [= <- <-]. repeat split; dict_fields.
    + intros [= <- <-]. repeat split; dict_fields.
Qed.

(** X7: a fault while the payload is shaped (a payload that is not a
    mapping, an item that is not one, a priority that is not a string) is
    reported as the error envelope with the fault's message, not as a failed
    analysis; in particular a non-empty payload of another type gives
    ['T' object has no attribute 'get']. *)
Theorem ill_shaped_payload_is_an_error
    amb1 amb2 q feedback_id w record rest payload :
  q feedback_id = Ok (record :: rest) ->
  stored_record record ->
  eq_str (dict_get record "status" (VStr "completed")) "processing" = false ->
  select_payload record = Ok payload ->
  truthy payload = true ->
  (forall e,
     _structure_analysis_results payload = Raise e ->
     exists w',
       get_feedback_results amb1 amb2 q feedback_id false w =
         (Ok (error_result feedback_id e), w') /\
       backend w' = backend w) /\
  (isinstance_dict payload = false ->
   _structure_analysis_results payload = Raise (no_attribute payload "get")).
Proof.
  intros Hq [Hid Hst] Hproc Hsel Htruthy. split.
  - intros e Hshape. unfold get_feedback_results.
    rewrite fetch_from_database_spec, Hq. cbn zeta.
    unfold _format_response. unfold dict_contains in Hid. unfold dict_item.
    destruct (dict_lookup (VStr "feedback_id") record) as [fid|]; [|discriminate].
    unfold status_messages_get. rewrite Hst, Hproc.
    unfold bind, lift, ret. rewrite extract_analysis_data_spec, Hsel, Htruthy, Hshape.
    eexists. split; reflexivity.
  - intros Hd. unfold _structure_analysis_results. rewrite Htruthy.
    destruct payload; try discriminate; reflexivity.
Qed.

(** ** Properties of the cache store *)

(** X8: the in-process store gives back what was stored, the same object,
    until the TTL has run out; from then on a lookup answers [None] and
    removes the entry. *)
Theorem memory_cache_round_trip amb1 amb2 feedback_id v w :
  redis_mode w = false ->
  let w1 := snd (CacheManager_set amb1 feedback_id v w) in
  (time_time amb2 < time_time amb1 + cache_ttl ->
   fst (CacheManager_get amb2 feedback_id w1) = Ok v) /\
  (time_time amb1 + cache_ttl <= time_time amb2 ->
   fst (CacheManager_get amb2 feedback_id w1) = Ok VNone /\
   _get_cache_key feedback_id ∉
     cached_keys (snd (CacheManager_get amb2 feedback_id w1))).
Proof.
  destruct w as [[db|c] tr]; [discriminate|]. intros _.
  rewrite CacheManager_set_memory. cbn [snd].
  rewrite CacheManager_get_memory, lookup_insert_eq. cbn [expires_at data].
  split; intros Ht.
  - apply Z.ltb_lt in Ht. rewrite Ht. reflexivity.
  - apply Z.ltb_ge in Ht. rewrite Ht. split; [reflexivity|].
    unfold cached_keys. cbn. apply not_elem_of_dom, lookup_delete_eq.
Qed.

(** X9: with the network cache, what comes back within the TTL is the
    decoding of the text that was written, or [None] if that text does not
    decode; after the TTL it is [None]; a lookup never changes the store. *)
Theorem redis_cache_round_trip amb1 amb2 feedback_id v text w :
  redis_mode w = true ->
  json_dumps v = Ok text -> text <> "" ->
  redis_fault amb1 = None -> redis_fault amb2 = None -> 0 < cache_ttl ->
  let w1 := snd (CacheManager_set amb1 feedback_id v w) in
  (time_time amb2 < time_time amb1 + cache_ttl ->
   fst (CacheManager_get amb2 feedback_id w1) =
     match json_loads text with Ok x => Ok x | Raise _ => Ok VNone end) /\
  (time_time amb1 + cache_ttl <= time_time amb2 ->
   fst (CacheManager_get amb2 feedback_id w1) = Ok VNone) /\
  backend (snd (CacheManager_get amb2 feedback_id w1)) = backend w1.
Proof.
  destruct w as [[db|c] tr]; [|discriminate]. intros _ Hd Hne Hf1 Hf2 Httl.
  rewrite CacheManager_set_redis. cbn zeta. rewrite Hd, Hf1.
  apply Z.leb_gt in Httl. rewrite Httl. cbn [snd].
  rewrite CacheManager_get_redis. cbn zeta. rewrite Hf2, lookup_insert_eq.
  rewrite (truthy_nonempty_text text Hne).
  split; [|split].
  - intros Ht. apply Z.ltb_lt in Ht. rewrite Ht. cbn [andb].
    destruct (json_loads text); reflexivity.
  - intros Ht. apply Z.ltb_ge in Ht. rewrite Ht. reflexivity.
  - destruct (time_time amb2 <? time_time amb1 + cache_ttl); cbn [andb];
      [destruct (json_loads text)|]; reflexivity.
Qed.

Lemma same_entry_refl key w w' : backend w' = backend w -> same_entry key w w'.
Proof. unfold same_entry. intros ->. destruct (backend w); reflexivity. Qed.

Lemma same_entry_trans key w1 w2 w3 :
  same_entry key w1 w2 -> same_entry key w2 w3 -> same_entry key w1 w3.
Proof.
  unfold same_entry.
  destruct (backend w1), (backend w2), (backend w3); try contradiction; congruence.
Qed.

(** What [CacheManager.get] answers depends on the entry under its key only. *)
Lemma CacheManager_get_same_entry amb feedback_id w w' :
  same_entry (_get_cache_key feedback_id) w w' ->
  fst (CacheManager_get amb feedback_id w) = fst (CacheManager_get amb feedback_id w').
Proof.
  unfold same_entry. destruct w as [[db|c] tr], w' as [[db'|c'] tr'];
    cbn [backend]; try contradiction; intros H.
  - rewrite !CacheManager_get_redis. cbn zeta. rewrite H.
    destruct (redis_fault amb); [reflexivity|].
    destruct (db' !! _get_cache_key feedback_id) as [[s deadline]|]; [|reflexivity].
    destruct (_ && _)%bool; [destruct (json_loads s)|]; reflexivity.
  - rewrite !CacheManager_get_memory. rewrite H.
    destruct (c' !! _get_cache_key feedback_id) as [e|]; [|reflexivity].
    destruct (time_time amb <? expires_at e); reflexivity.
Qed.

Lemma CacheManager_get_other_entries amb feedback_id w key :
  key <> _get_cache_key feedback_id ->
  same_entry key w (snd (CacheManager_get amb feedback_id w)).
Proof.
  intros Hne. unfold same_entry. destruct w as [[db|c] tr].
  - rewrite CacheManager_get_redis. cbn zeta.
    destruct (redis_fault amb); [reflexivity|].
    destruct (db !! _get_cache_key feedback_id) as [[s deadline]|]; [|reflexivity].
    destruct (_ && _)%bool; [destruct (json_loads s)|]; reflexivity.
  - rewrite CacheManager_get_memory.
    destruct (c !! _get_cache_key feedback_id) as [e|]; [|reflexivity].
    destruct (time_time amb <? expires_at e); [reflexivity|].
    cbn. symmetry. apply lookup_delete_ne. congruence.
Qed.

Lemma aliased_other_entries key key' obj w w' :
  key' <> key ->
  backend w' = aliased key obj (backend w) -> same_entry key' w w'.
Proof.
  intros Hne Hb. unfold same_entry. rewrite Hb. unfold aliased.
  destruct (backend w); [reflexivity|].
  symmetry. apply lookup_alter_ne. congruence.
Qed.

Lemma stored_other_entries amb key key' v w w' :
  key' <> key ->
  backend w' = stored_backend amb key v (backend w) -> same_entry key' w w'.
Proof.
  intros Hne Hb. unfold same_entry. rewrite Hb. unfold stored_backend.
  destruct (backend w) as [db|c].
  - destruct (json_dumps v); [destruct (redis_fault amb); [|destruct (cache_ttl <=? 0)]|];
      try reflexivity.
    symmetry. apply lookup_insert_ne. congruence.
  - symmetry. apply lookup_insert_ne. congruence.
Qed.

(** A call for one id changes the store under that id's key only. *)
Lemma get_feedback_results_other_entries amb1 amb2 q feedback_id use_cache w r w' key :
  key <> _get_cache_key feedback_id ->
  get_feedback_results amb1 amb2 q feedback_id use_cache w = (r, w') ->
  same_entry key w w'.
Proof.
  intros Hne Hrun.
  destruct use_cache; unfold get_feedback_results in Hrun.
  - unfold bind at 1 in Hrun.
    pose proof (CacheManager_get_other_entries amb1 feedback_id w key Hne) as H0.
    destruct (CacheManager_get_returns amb1 feedback_id w) as (v & w0 & Hget & _).
    rewrite Hget in Hrun, H0. cbn [snd] in H0.
    eapply same_entry_trans; [exact H0|].
    destruct (truthy v).
    + unfold setitem_cached, bind, lift, ret, write_through in Hrun.
      destruct (py_setitem v "cache_hit" (VBool true)) as [r1|];
        [|inversion Hrun; subst; apply same_entry_refl; reflexivity].
      cbn [backend trace] in Hrun.
      destruct (py_setitem r1 "retrieved_from" (VStr "cache")) as [r2|];
        inversion Hrun; subst.
      * apply (same_entry_trans key w0
                 (MkWorld (aliased (_get_cache_key feedback_id) r1 (backend w0))
                    (trace w0))).
        -- apply (aliased_other_entries (_get_cache_key feedback_id) key r1);
             [exact Hne | reflexivity].
        -- apply (aliased_other_entries (_get_cache_key feedback_id) key r2);
             [exact Hne | reflexivity].
      * apply (aliased_other_entries (_get_cache_key feedback_id) key r1);
             [exact Hne | reflexivity].
    + apply fetch_from_database_outcome in Hrun
        as (x & _ & _ & [[Hb _] | (_ & _ & _ & Hb)]).
      * apply same_entry_refl, Hb.
      * apply (stored_other_entries amb2 (_get_cache_key feedback_id) key x);
          [exact Hne | exact Hb].
  - apply fetch_from_database_outcome in Hrun
      as (x & _ & _ & [[Hb _] | (Huc & _)]); [|discriminate].
    apply same_entry_refl, Hb.
Qed.

(** X10: entries are kept apart by id: a retrieval or an invalidation for
    one id, whatever it does to the store, leaves what the cache answers
    for every other id as it was. *)
Theorem other_ids_are_untouched amb1 amb2 amb q id other use_cache w :
  other <> id ->
  fst (CacheManager_get amb other
         (snd (get_feedback_results amb1 amb2 q id use_cache w))) =
    fst (CacheManager_get amb other w) /\
  fst (CacheManager_get amb other (snd (invalidate_cache amb1 id w))) =
    fst (CacheManager_get amb other w).
Proof.
  intros Hne.
  assert (Hkey : _get_cache_key other <> _get_cache_key id)
    by (intros E; apply get_cache_key_inj in E; contradiction).
  split; symmetry; apply CacheManager_get_same_entry.
  - destruct (get_feedback_results amb1 amb2 q id use_cache w) as [r w'] eqn:Hrun.
    exact (get_feedback_results_other_entries _ _ _ _ _ _ _ _ _ Hkey Hrun).
  - unfold invalidate_cache, same_entry. destruct w as [[db|c] tr].
    + rewrite CacheManager_invalidate_redis. cbn zeta.
      destruct (redis_fault amb1); cbn; [reflexivity|].
      symmetry. apply lookup_delete_ne. congruence.
    + rewrite CacheManager_invalidate_memory. cbn.
      symmetry. apply lookup_delete_ne. congruence.
Qed.

Lemma cache_calls_app tr tr' :
  cache_calls (tr ++ tr') = cache_calls tr ++ cache_calls tr'.
Proof.
  induction tr as [|ev tr IH]; [reflexivity|].
  destruct ev; cbn; rewrite IH; reflexivity.
Qed.

Lemma cache_calls_log tr level msg :
  cache_calls (tr ++ [Log level msg]) = cache_calls tr.
Proof. rewrite cache_calls_app. cbn. apply app_nil_r. Qed.

Lemma cache_calls_table_query tr feedback_id :
  cache_calls (tr ++ [TableQuery feedback_id]) = cache_calls tr.
Proof. rewrite cache_calls_app. cbn. apply app_nil_r. Qed.

Lemma format_response_cache_calls record w r w' :
  _format_response record w = (r, w') ->
  cache_calls (trace w') = cache_calls (trace w).
Proof.
  unfold _format_response, bind, lift, ret.
  destruct (dict_item record "feedback_id"); [|intros [= <- <-]; auto].
  destruct (status_messages_get _ _); [|intros [= <- <-]; auto].
  destruct (eq_str _ "processing"); [intros [= <- <-]; auto|].
  rewrite extract_analysis_data_spec.
  destruct (select_payload record) as [v|e].
  - destruct (truthy v); [|intros [= <- <-]; auto].
    destruct (_structure_analysis_results v); intros [= <- <-]; auto.
  - destruct (decode_or_type_error (exn_cls e)); [|intros [= <- <-]; auto].
    cbn [truthy]. intros [= <- <-]. cbn. apply cache_calls_log.
Qed.

(** The status of a formatted response is one of three. *)
Lemma format_response_status record w response w' :
  _format_response record w = (Ok response, w') ->
  dict_get response "status" VNone = VStr "processing" \/
  dict_get response "status" VNone = VStr "completed" \/
  dict_get response "status" VNone = VStr "failed".
Proof.
  unfold _format_response, bind, lift, ret.
  destruct (dict_item record "feedback_id") as [fid|]; [|discriminate].
  destruct (status_messages_get _ _) as [message|]; [|discriminate].
  destruct (eq_str (dict_get record "status" (VStr "completed")) "processing") eqn:Ep.
  - intros [= <- <-]. left. dict_fields. cbn.
    destruct (dict_get record "status" (VStr "completed")); try discriminate.
    cbn in Ep. apply String.eqb_eq in Ep. subst. reflexivity.
  - destruct (_extract_analysis_data record w) as [[payload|] w1]; [|discriminate].
    destruct (truthy payload).
    + destruct (_structure_analysis_results payload) as [results|]; [|discriminate].
      intros [= <- <-]. right. left. dict_fields.
    + intros [= <- <-]. right. right. dict_fields.
Qed.

(** X11: a cache hit does not renew the entry: its deadline stays what the
    first write made it, and a lookup at or after that deadline misses. *)
Theorem cache_hit_does_not_extend_the_ttl amb1 amb2 q feedback_id w d :
  cache_holds w amb1 feedback_id (VDict d) -> d <> [] ->
  let w' := snd (get_feedback_results amb1 amb2 q feedback_id true w) in
  exists deadline,
    deadline_of w feedback_id = Some deadline /\
    deadline_of w' feedback_id = Some deadline /\
    forall amb3,
      deadline <= time_time amb3 ->
      fst (CacheManager_get amb3 feedback_id w') = Ok VNone.
Proof.
  intros Hh Hd.
  destruct (get_feedback_results_hit amb1 amb2 q feedback_id w d Hh Hd)
    as (tr' & -> & _). cbn [snd].
  unfold cache_holds in Hh. unfold deadline_of, hit_backend, aliased.
  destruct (backend w) as [db|c]; cbn [backend].
  - destruct Hh as (text & deadline & Hl & _).
    exists deadline. rewrite Hl. split; [reflexivity|]. split; [reflexivity|].
    intros amb3 Ht. rewrite CacheManager_get_redis. cbn zeta. rewrite Hl.
    apply Z.ltb_ge in Ht. rewrite Ht.
    destruct (redis_fault amb3); reflexivity.
  - destruct Hh as (deadline & Hl & _).
    exists deadline. rewrite Hl. split; [reflexivity|].
    rewrite !lookup_alter_eq, Hl. split; [reflexivity|].
    intros amb3 Ht. rewrite CacheManager_get_memory.
    rewrite !lookup_alter_eq, Hl. cbn.
    apply Z.ltb_ge in Ht. rewrite Ht. reflexivity.
Qed.

(** X12: a call that does not use the cache leaves the cache store as it
    is, sends no command to the network cache, queries the durable table
    exactly once, and answers with [cache_hit = False]. *)
Theorem uncached_call_leaves_the_cache_alone amb1 amb2 q feedback_id w :
  let run := get_feedback_results amb1 amb2 q feedback_id false w in
  backend (snd run) = backend w /\
  cache_calls (trace (snd run)) = cache_calls (trace w) /\
  table_queries (trace (snd run)) = table_queries (trace w) ++ [feedback_id] /\
  exists r, fst run = Ok r /\ field r "cache_hit" = VBool false.
Proof.
  cbn zeta. unfold get_feedback_results.
  rewrite fetch_from_database_spec. cbn zeta.
  destruct (q feedback_id) as [[|record rest]|e].
  - cbn. rewrite cache_calls_table_query, table_queries_app. eauto 10.
  - destruct (_format_response record _) as [[response|e] w2] eqn:Ef;
      pose proof (format_response_cache_calls _ _ _ _ Ef) as Hc;
      apply format_response_frame in Ef as [Hb Htq]; cbn in Hb, Htq, Hc;
      rewrite table_queries_app in Htq; rewrite cache_calls_table_query in Hc;
      cbn in Htq; cbn [andb fst snd backend trace].
    + split; [exact Hb|]. split; [exact Hc|]. split; [exact Htq|].
      eexists. split; [reflexivity|]. unfold tag_database, field. dict_fields.
    + rewrite cache_calls_log, table_queries_log. eauto 10.
  - cbn. rewrite cache_calls_log, cache_calls_table_query, table_queries_log,
      table_queries_app. eauto 10.
Qed.

(** X13: every result is either tagged as a cache hit or comes from the
    database branch; in the second case its status is one of not_found,
    error, processing, completed, failed, and [retrieved_from] is ['error']
    exactly for the error status and ['database'] otherwise. *)
Theorem result_provenance_and_status amb1 amb2 q feedback_id use_cache w r w' :
  get_feedback_results amb1 amb2 q feedback_id use_cache w = (Ok r, w') ->
  (field r "cache_hit" = VBool true /\ field r "retrieved_from" = VStr "cache") \/
  (field r "cache_hit" = VBool false /\
   In (field r "status") known_statuses /\
   field r "retrieved_from" =
     VStr (if eq_str (field r "status") "error" then "error" else "database")).
Proof.
  intros Hrun.
  destruct (get_feedback_results_cases amb1 amb2 q feedback_id use_cache w)
    as [(cached & w0 & _ & _ & _ & _ & _ & E) | (w0 & _ & _ & _ & E)];
    rewrite E in Hrun; clear E.
  - left.
    destruct (py_setitem cached "cache_hit" (VBool true)) as [r1|] eqn:E1;
      [|discriminate].
    destruct (py_setitem r1 "retrieved_from" (VStr "cache")) as [r2|] eqn:E2;
      [|discriminate].
    destruct (tag_of_truthy_cached _ _ _ E1 E2) as (d & _ & -> & _).
    inversion Hrun; subst r.
    split; [apply field_tag_cache_cache_hit | apply field_tag_cache_retrieved_from].
  - right. rewrite fetch_from_database_spec in Hrun. cbn zeta in Hrun.
    destruct (q feedback_id) as [[|record rest]|e].
    + inversion Hrun; subst r. cbn. auto 10.
    + destruct (_format_response record _) as [[response|e] w2] eqn:Ef.
      * assert (Hr : r = tag_database response)
          by (destruct (use_cache && _)%bool; inversion Hrun; reflexivity).
        subst r. unfold tag_database, field.
        rewrite (dict_get_set_other "retrieved_from" "status") by discriminate.
        rewrite (dict_get_set_other "cache_hit" "status") by discriminate.
        rewrite (dict_get_set_other "retrieved_from" "cache_hit") by discriminate.
        rewrite !dict_get_set_same.
        split; [reflexivity|].
        destruct (format_response_status _ _ _ _ Ef) as [-> | [-> | ->]];
          cbn; auto 10.
      * inversion Hrun; subst r. cbn. auto 10.
    + inversion Hrun; subst r. cbn. auto 10.
Qed.

(** ** Facts about the handler *)

Lemma status_code_map_get_code status :
  hashable status = true ->
  status_code_map_get status = Ok (VNum (http_code status)).
Proof.
  intros H. unfold status_code_map_get. rewrite H. f_equal.
  unfold http_code, eq_str, status_code_map, mk_dict.
  cbn [map dict_lookup fst snd].
  destruct status; try discriminate; cbn [key_eqb]; try reflexivity.
  rewrite !(String.eqb_sym s).
  repeat match goal with
         | |- context [String.eqb ?a s] => destruct (String.eqb a s)
         end; reflexivity.
Qed.

Lemma http_code_in status : In (http_code status) handler_codes.
Proof.
  unfold http_code, handler_codes.
  repeat match goal with
         | |- context [if ?b then _ else _] => destruct b
         end; cbn; auto 10.
Qed.

(** The handler's answer once the retrieval service has returned. *)
Lemma respond_spec utcnow id_text use_cache results w :
  match results with
  | VDict d =>
      match dict_lookup (VStr "status") d with
      | Some status =>
          if hashable status then
            let results' := with_performance use_cache utcnow d in
            exists msg,
              respond utcnow id_text use_cache results w =
              let w1 :=
                MkWorld
                  (if shares_cached_object (truthy use_cache) results'
                   then aliased (_get_cache_key id_text) results' (backend w)
                   else backend w)
                  (trace w ++ [Log INFO msg]) in
              match json_dumps results' with
              | Ok body =>
                  (Ok (http_response (VNum (http_code status))
                         (json_headers ++
                          [("X-Cache-Status",
                            VStr (if truthy (dict_get d "cache_hit" VNone)
                                  then "HIT" else "MISS"))])
                         body), w1)
              | Raise e => (Raise e, w1)
              end
          else respond utcnow id_text use_cache results w =
               (Raise (unhashable status), w)
      | None => exists e, respond utcnow id_text use_cache results w = (Raise e, w)
      end
  | _ => exists e, respond utcnow id_text use_cache results w = (Raise e, w)
  end.
Proof.
  unfold respond.
  destruct results as [| | | | |d];
    try (eexists; unfold bind, lift, py_item; cbn; reflexivity).
  unfold bind at 1. unfold lift at 1. unfold py_item, dict_item.
  destruct (dict_lookup (VStr "status") d) as [status|] eqn:Es;
    [|eexists; reflexivity].
  destruct (hashable status) eqn:Eh.
  - cbn zeta. eexists.
    unfold bind at 1. unfold lift at 1.
    rewrite (status_code_map_get_code _ Eh).
    unfold bind, lift, ret, write_through, logger_info, emit, py_get, py_setitem.
    fold (with_performance use_cache utcnow d).
    unfold with_performance at 2 3 4 5.
    rewrite dict_lookup_set_other by discriminate. rewrite Es.
    rewrite !dict_get_set_other by discriminate.
    destruct (shares_cached_object _ _); cbn [backend trace];
      destruct (json_dumps _); reflexivity.
  - unfold bind, lift. unfold status_code_map_get. rewrite Eh. reflexivity.
Qed.

Lemma table_queries_redis_delete tr key :
  table_queries (tr ++ [RedisDelete key]) = table_queries tr.
Proof. rewrite table_queries_app. cbn. apply app_nil_r. Qed.

(** Eviction always returns; when the backend answers, the key is gone. *)
Lemma invalidate_cache_outcome amb feedback_id w :
  exists b w',
    invalidate_cache amb feedback_id w = (Ok b, w') /\
    table_queries (trace w') = table_queries (trace w) /\
    redis_mode w' = redis_mode w /\
    (backend_answers w amb -> _get_cache_key feedback_id ∉ cached_keys w').
Proof.
  unfold invalidate_cache, backend_answers, redis_mode, cached_keys.
  destruct w as [[db|c] tr]; cbn [backend trace].
  - rewrite CacheManager_invalidate_redis. cbn zeta.
    destruct (redis_fault amb) as [e|] eqn:Ef; do 2 eexists;
      (split; [reflexivity|]); cbn [backend trace];
      rewrite table_queries_log, table_queries_redis_delete;
      (split; [reflexivity|]); (split; [reflexivity|]).
    + intros H. specialize (H eq_refl). discriminate.
    + intros _. apply not_elem_of_dom, lookup_delete_eq.
  - rewrite CacheManager_invalidate_memory. do 2 eexists.
    split; [reflexivity|]. cbn [backend trace]. rewrite table_queries_log.
    split; [reflexivity|]. split; [reflexivity|].
    intros _. apply not_elem_of_dom, lookup_delete_eq.
Qed.

Lemma truthy_text id : id <> "" -> truthy (VStr id) = true.
Proof. intros H. cbn. destruct (String.eqb_spec id ""); [contradiction|reflexivity]. Qed.

(** X14: a request without a feedback id is answered 400 before anything
    else happens: no cache access, no table query, no log record. *)
Theorem missing_feedback_id_is_rejected amb0 amb1 amb2 utcnow q event w
    feedback_id use_cache force_refresh text :
  extract_request event = Ok (feedback_id, use_cache, force_refresh) ->
  truthy feedback_id = false ->
  json_dumps usage_body = Ok text ->
  lambda_handler amb0 amb1 amb2 utcnow q event w =
    (Ok (http_response (VNum 400) json_headers text), w).
Proof.
  intros He Ht Hd. unfold lambda_handler, try_except, bind, lift, ret.
  rewrite He, Ht. cbn [negb]. rewrite Hd. reflexivity.
Qed.

(** X15: path parameters take precedence over every other source: the id
    is the one of the path (even when it has none and the query string or
    the body has), the cache is used and no refresh is forced. *)
Theorem path_parameters_take_precedence ev p :
  dict_lookup (VStr "pathParameters") ev = Some (VDict p) -> p <> [] ->
  extract_request (VDict ev) =
    Ok (dict_get p "feedback_id" VNone, VBool true, VBool false).
Proof.
  intros Hp Hne.
  unfold extract_request, present, py_get, py_item, dict_item, dict_get.
  rewrite Hp. cbn [res_bind truthy].
  destruct p; [contradiction|]. reflexivity.
Qed.

(** X16: the answer to a request that names a feedback id and forces no
    refresh: the HTTP code is the one of the result's status (404, 500,
    202, 422, else 200), the cache header says HIT exactly when the result
    is tagged a cache hit, the body is the result with the performance
    entry; the handler itself queries neither the table nor the network
    cache. *)
Theorem response_code_follows_the_status amb0 amb1 amb2 utcnow q event w
    id use_cache force_refresh d w1 status text :
  extract_request event = Ok (VStr id, use_cache, force_refresh) ->
  id <> "" ->
  truthy force_refresh = false ->
  get_feedback_results amb1 amb2 q id (truthy use_cache) w = (Ok (VDict d), w1) ->
  dict_lookup (VStr "status") d = Some status ->
  hashable status = true ->
  json_dumps (with_performance use_cache utcnow d) = Ok text ->
  exists w',
    lambda_handler amb0 amb1 amb2 utcnow q event w =
      (Ok (http_response (VNum (http_code status))
             (json_headers ++
              [("X-Cache-Status",
                VStr (if truthy (dict_get d "cache_hit" VNone)
                      then "HIT" else "MISS"))])
             text), w') /\
    table_queries (trace w') = table_queries (trace w1) /\
    cache_calls (trace w') = cache_calls (trace w1).
Proof.
  intros He Hid Hf Hrun Hs Hh Hd.
  unfold lambda_handler, try_except.
  unfold bind at 1. unfold lift at 1. rewrite He.
  rewrite (truthy_text _ Hid). cbn [negb]. rewrite Hf.
  unfold bind at 1. unfold ret at 1.
  unfold bind at 1. rewrite Hrun.
  pose proof (respond_spec utcnow (interpolate (VStr id)) use_cache (VDict d) w1) as R.
  cbn match in R. rewrite Hs, Hh in R. cbn zeta in R. destruct R as (msg & R).
  rewrite R, Hd. eexists. split; [reflexivity|]. cbn [trace].
  rewrite table_queries_log, cache_calls_log. auto.
Qed.

Lemma dict_get_lookup d k s :
  dict_get d k VNone = VStr s -> dict_lookup (VStr k) d = Some (VStr s).
Proof.
  unfold dict_get. destruct (dict_lookup (VStr k) d); [congruence|discriminate].
Qed.

(** What the database branch returns is a mapping with a known status,
    tagged as no cache hit. *)
Lemma fetch_from_database_shape amb q feedback_id use_cache w v w' :
  fetch_from_database amb q feedback_id use_cache w = (Ok v, w') ->
  exists d status,
    v = VDict d /\
    dict_lookup (VStr "status") d = Some status /\
    In status known_statuses /\
    dict_get d "cache_hit" VNone = VBool false.
Proof.
  rewrite fetch_from_database_spec. cbn zeta.
  destruct (q feedback_id) as [[|record rest]|e].
  - intros [= <- <-]. do 2 eexists. split; [reflexivity|].
    split; [reflexivity|]. cbn. auto 10.
  - destruct (_format_response record _) as [[response|e] w2] eqn:Ef.
    + intros H.
      assert (Hv : v = tag_database response)
        by (destruct (use_cache && _)%bool; inversion H; reflexivity).
      subst v. unfold tag_database.
      assert (Hst : exists s, dict_get response "status" VNone = VStr s /\
                              In (VStr s) known_statuses).
      { destruct (format_response_status _ _ _ _ Ef) as [E | [E | E]];
          eexists; (split; [exact E|]); cbn; auto 10. }
      destruct Hst as (s & Hs & Hin).
      do 2 eexists. split; [reflexivity|].
      split; [|split; [exact Hin|]].
      * rewrite !dict_lookup_set_other by discriminate.
        apply dict_get_lookup, Hs.
      * rewrite (dict_get_set_other "retrieved_from" "cache_hit") by discriminate.
        apply dict_get_set_same.
    + intros [= <- <-]. do 2 eexists. split; [reflexivity|].
      split; [reflexivity|]. cbn. auto 10.
  - intros [= <- <-]. do 2 eexists. split; [reflexivity|].
    split; [reflexivity|]. cbn. auto 10.
Qed.

Lemma known_status_hashable status :
  In status known_statuses -> hashable status = true.
Proof.
  unfold known_statuses. cbn.
  intros [<- | [<- | [<- | [<- | [<- | []]]]]]; reflexivity.
Qed.

(** What [respond] does to the state, and what it can return. *)
Lemma respond_frame utcnow id_text use_cache results w r w' :
  respond utcnow id_text use_cache results w = (r, w') ->
  table_queries (trace w') = table_queries (trace w) /\
  cache_calls (trace w') = cache_calls (trace w) /\
  (truthy use_cache = false -> backend w' = backend w) /\
  cached_keys w' = cached_keys w /\
  (forall response, r = Ok response ->
     exists code hit body,
       response =
         http_response (VNum code)
           (json_headers ++ [("X-Cache-Status", VStr hit)]) body /\
       In code handler_codes /\
       (field results "cache_hit" = VBool false -> hit = "MISS")).
Proof.
  pose proof (respond_spec utcnow id_text use_cache results w) as R.
  assert (Hraise : (exists e, respond utcnow id_text use_cache results w = (Raise e, w)) ->
          respond utcnow id_text use_cache results w = (r, w') ->
          table_queries (trace w') = table_queries (trace w) /\
          cache_calls (trace w') = cache_calls (trace w) /\
          (truthy use_cache = false -> backend w' = backend w) /\
          cached_keys w' = cached_keys w /\
          (forall response, r = Ok response ->
             exists code hit body,
               response =
                 http_response (VNum code)
                   (json_headers ++ [("X-Cache-Status", VStr hit)]) body /\
               In code handler_codes /\
               (field results "cache_hit" = VBool false -> hit = "MISS"))).
  { intros (e & ->). intros [= <- <-]. repeat split; try reflexivity.
    intros response [=]. }
  destruct results as [| | | | |d]; try exact (Hraise R).
  destruct (dict_lookup (VStr "status") d) as [status|]; [|exact (Hraise R)].
  destruct (hashable status); [|apply Hraise; eauto].
  clear Hraise. cbn zeta in R. destruct R as (msg & ->).
  intros H.
  assert (Hw : table_queries (trace w') = table_queries (trace w) /\
               cache_calls (trace w') = cache_calls (trace w) /\
               (truthy use_cache = false -> backend w' = backend w) /\
               cached_keys w' = cached_keys w).
  { assert (E : w' =
      MkWorld
        (if shares_cached_object (truthy use_cache)
              (with_performance use_cache utcnow d)
         then aliased (_get_cache_key id_text) (with_performance use_cache utcnow d)
                (backend w)
         else backend w)
        (trace w ++ [Log INFO msg]))
      by (destruct (json_dumps _); inversion H; reflexivity).
    subst w'. cbn [trace backend].
    rewrite table_queries_log, cache_calls_log.
    split; [reflexivity|]. split; [reflexivity|]. split.
    - intros ->. reflexivity.
    - destruct (shares_cached_object _ _); [|reflexivity].
      eapply keys_of_aliased. reflexivity. }
  destruct Hw as (H1 & H2 & H3 & H4). repeat (split; [assumption|]).
  intros response ->.
  destruct (json_dumps _) as [body|]; [|discriminate].
  inversion H; subst. do 3 eexists. split; [reflexivity|].
  split; [apply http_code_in|].
  unfold field. intros Hc.
  assert (Hc' : dict_get d "cache_hit" VNone = VBool false) by exact Hc.
  rewrite Hc'. reflexivity.
Qed.

(** The handler's own [except]. *)
Lemma lambda_handler_cases amb0 amb1 amb2 utcnow q event w :
  let body :=
    (let! request := lift (extract_request event) in
     let '(feedback_id, use_cache, force_refresh) := request in
     if negb (truthy feedback_id) then
       let! body := lift (json_dumps usage_body) in
       ret (http_response (VNum 400) json_headers body)
     else
       let id_text := interpolate feedback_id in
       let! use_cache :=
         (if truthy force_refresh then
            let! _ := invalidate_cache amb0 id_text in
            ret (VBool false)
          else ret use_cache) in
       let! results :=
         match feedback_id with
         | VStr id =>
             get_feedback_results amb1 amb2 q id (truthy use_cache)
         | _ => get_feedback_results_untyped feedback_id (truthy use_cache)
         end in
       respond utcnow id_text use_cache results)%M in
  lambda_handler amb0 amb1 amb2 utcnow q event w =
  match body w with
  | (Ok response, w') => (Ok response, w')
  | (Raise e, w') =>
      let w'' :=
        MkWorld (backend w')
          (trace w' ++
           [Log ERROR ("Unexpected error in results retrieval: " +:+ exn_str e)]) in
      match json_dumps (internal_error_body e) with
      | Ok text => (Ok (http_response (VNum 500) json_headers text), w'')
      | Raise e' => (Raise e', w'')
      end
  end.
Proof.
  cbn zeta. unfold lambda_handler, try_except.
  match goal with |- match ?b with _ => _ end = _ => destruct b as [[response|e] w'] end;
    [reflexivity|].
  unfold Exception, bind, logger_error, emit, lift, ret. cbn [backend trace].
  destruct (json_dumps (internal_error_body e)); reflexivity.
Qed.

(** X17: a forced refresh evicts the id, reads the durable table exactly
    once whatever the cache holds, and caches nothing: the store is left as
    the eviction left it, so the id is not cached afterwards when the
    backend answered the eviction; the response, unless it is the
    handler's own 500, is marked MISS. *)
Theorem force_refresh_reads_the_table_and_caches_nothing
    amb0 amb1 amb2 utcnow q event w id use_cache force_refresh :
  extract_request event = Ok (VStr id, use_cache, force_refresh) ->
  id <> "" ->
  truthy force_refresh = true ->
  let run := lambda_handler amb0 amb1 amb2 utcnow q event w in
  table_queries (trace (snd run)) = table_queries (trace w) ++ [id] /\
  backend (snd run) = backend (snd (invalidate_cache amb0 id w)) /\
  (backend_answers w amb0 -> (_get_cache_key id ∉ cached_keys (snd run))) /\
  (forall response, fst run = Ok response ->
     field response "statusCode" = VNum 500 \/
     field (field response "headers") "X-Cache-Status" = VStr "MISS").
Proof.
  intros He Hid Hf. cbn zeta.
  destruct (invalidate_cache_outcome amb0 id w) as (b & w0 & Hinv & Htq0 & _ & Hkey).
  destruct (fetch_from_database amb2 q id false w0) as [r w1] eqn:Hfetch.
  destruct (fetch_from_database_outcome _ _ _ _ _ _ _ Hfetch) as (v & -> & Htq1 & Hb).
  assert (Hb1 : backend w1 = backend w0)
    by (destruct Hb as [[? _] | (? & _)]; [assumption|discriminate]).
  destruct (fetch_from_database_shape _ _ _ _ _ _ _ Hfetch)
    as (d & status & -> & Hs & Hin & Hc).
  destruct (respond utcnow id (VBool false) (VDict d) w1) as [r2 w2] eqn:Hresp.
  destruct (respond_frame _ _ _ _ _ _ _ Hresp) as (T & _ & B & K & S).
  specialize (B eq_refl).
  assert (Hk : backend_answers w amb0 -> (_get_cache_key id ∉ cached_keys w2)).
  { intros Ha. rewrite K. unfold cached_keys. rewrite Hb1. apply (Hkey Ha). }
  assert (Hrun : lambda_handler amb0 amb1 amb2 utcnow q event w =
    match r2 with
    | Ok response => (Ok response, w2)
    | Raise e =>
        let w'' :=
          MkWorld (backend w2)
            (trace w2 ++
             [Log ERROR ("Unexpected error in results retrieval: " +:+ exn_str e)]) in
        match json_dumps (internal_error_body e) with
        | Ok text => (Ok (http_response (VNum 500) json_headers text), w'')
        | Raise e' => (Raise e', w'')
        end
    end).
  { rewrite lambda_handler_cases. cbn zeta.
    unfold bind at 1. unfold lift at 1. rewrite He, (truthy_text _ Hid), Hf.
    cbn [negb interpolate].
    unfold bind at 1. unfold bind at 1. rewrite Hinv.
    unfold ret at 1. cbn [truthy].
    unfold bind at 1. unfold get_feedback_results. rewrite Hfetch, Hresp.
    destruct r2; reflexivity. }
  rewrite Hrun, Hinv. clear Hrun. cbn [snd].
  destruct r2 as [response|e]; cbn [fst snd].
  - rewrite T, Htq1, Htq0, B, Hb1.
    split; [reflexivity|]. split; [reflexivity|]. split; [exact Hk|].
    intros response' [= <-].
    destruct (S response eq_refl) as (code & hit & body & -> & _ & Hm).
    right. rewrite (Hm Hc). reflexivity.
  - assert (Hw : forall x : res pyval * world,
              snd x = MkWorld (backend w2)
                        (trace w2 ++
                         [Log ERROR ("Unexpected error in results retrieval: "
                                     +:+ exn_str e)]) ->
              table_queries (trace (snd x)) = table_queries (trace w) ++ [id] /\
              backend (snd x) = backend w0 /\
              (backend_answers w amb0 -> (_get_cache_key id ∉ cached_keys (snd x)))).
    { intros x ->. cbn [trace backend].
      rewrite table_queries_log, T, Htq1, Htq0, B, Hb1.
      split; [reflexivity|]. split; [reflexivity|].
      intros Ha. specialize (Hk Ha). unfold cached_keys in *. cbn [backend].
      rewrite B in Hk. rewrite <- Hb1. exact Hk. }
    destruct (json_dumps (internal_error_body e)) as [text|e'].
    + destruct (Hw (Ok (http_response (VNum 500) json_headers text), _) eq_refl)
        as (W1 & W2 & W3).
      split; [exact W1|]. split; [exact W2|]. split; [exact W3|].
      intros response [= <-]. left. reflexivity.
    + destruct (Hw (@Raise pyval e', _) eq_refl) as (W1 & W2 & W3).
      split; [exact W1|]. split; [exact W2|]. split; [exact W3|].
      intros response [=].
Qed.

(** X18: the handler always answers: whatever the event, the table, the
    cache and the retrieval service do, it returns a response whose code is
    one of 200, 202, 400, 404, 422, 500 and whose content type is JSON,
    provided the fixed error body can be serialised. *)
Theorem lambda_handler_always_answers amb0 amb1 amb2 utcnow q event w :
  (forall e, exists text, json_dumps (internal_error_body e) = Ok text) ->
  exists code headers body w',
    lambda_handler amb0 amb1 amb2 utcnow q event w =
      (Ok (http_response (VNum code) headers body), w') /\
    In code handler_codes /\
    In ("Content-Type", VStr "application/json") headers.
Proof.
  intros Hdump.
  assert (Hfail : forall e w1,
    exists code headers body w',
      (let w'' :=
         MkWorld (backend w1)
           (trace w1 ++
            [Log ERROR ("Unexpected error in results retrieval: " +:+ exn_str e)]) in
       match json_dumps (internal_error_body e) with
       | Ok text => (Ok (http_response (VNum 500) json_headers text), w'')
       | Raise e' => (Raise e', w'')
       end) = (Ok (http_response (VNum code) headers body), w') /\
      In code handler_codes /\
      In ("Content-Type", VStr "application/json") headers).
  { intros e w1. destruct (Hdump e) as (text & ->). cbn zeta.
    do 4 eexists. split; [reflexivity|]. cbn. auto 10. }
  rewrite lambda_handler_cases. cbn zeta.
  unfold bind at 1. unfold lift at 1.
  destruct (extract_request event) as [[[feedback_id use_cache] force_refresh]|e];
    [|apply Hfail].
  destruct (truthy feedback_id); cbn [negb].
  - match goal with
    | |- context [bind ?m ?k w] =>
        destruct (m w) as [[uc|e] w0] eqn:Em; unfold bind at 1; rewrite Em
    end; [|apply Hfail].
    match goal with
    | |- context [bind ?m ?k w0] =>
        destruct (m w0) as [[results|e] w1] eqn:Er; unfold bind at 1; rewrite Er
    end; [|apply Hfail].
    destruct (respond utcnow (interpolate feedback_id) uc results w1)
      as [[response|e] w2] eqn:Hresp; [|apply Hfail].
    destruct (respond_frame _ _ _ _ _ _ _ Hresp) as (_ & _ & _ & _ & S).
    destruct (S response eq_refl) as (code & hit & body & -> & Hin & _).
    do 4 eexists. split; [reflexivity|]. split; [exact Hin|]. cbn. auto.
  - unfold bind, lift, ret.
    destruct (json_dumps usage_body) as [text|e]; [|apply Hfail].
    do 4 eexists. split; [reflexivity|]. cbn. auto 10.
Qed.

(** X19: the in-process store hands out the object it holds, so the
    handler's ['performance'] entry lands in the cache: after a request
    served from the in-process store the cached object is the served one,
    with the tags of the hit and the performance entry of this request,
    whether or not the response could be serialised; the network cache,
    which holds text, is left as it was. *)
Theorem served_object_keeps_the_performance_entry
    amb0 amb1 amb2 utcnow q event w id use_cache force_refresh d status :
  extract_request event = Ok (VStr id, use_cache, force_refresh) ->
  id <> "" ->
  truthy force_refresh = false ->
  truthy use_cache = true ->
  cache_holds w amb1 id (VDict d) -> d <> [] ->
  dict_lookup (VStr "status") d = Some status ->
  hashable status = true ->
  let w' := snd (lambda_handler amb0 amb1 amb2 utcnow q event w) in
  (redis_mode w = false ->
   cached_object w' id =
     Some (with_performance use_cache utcnow
             (dict_set (VStr "retrieved_from") (VStr "cache")
                (dict_set (VStr "cache_hit") (VBool true) d)))) /\
  (redis_mode w = true -> backend w' = backend w).
Proof.
  intros He Hid Hf Hu Hh Hd Hs Hst. cbn zeta.
  destruct (get_feedback_results_hit amb1 amb2 q id w d Hh Hd) as (tr' & Hrun & _).
  set (hit := dict_set (VStr "retrieved_from") (VStr "cache")
                (dict_set (VStr "cache_hit") (VBool true) d)) in *.
  pose proof (respond_spec utcnow id use_cache (VDict hit)
                (MkWorld (hit_backend (_get_cache_key id) d (backend w)) tr')) as R.
  cbn match in R.
  assert (Hs' : dict_lookup (VStr "status") hit = Some status).
  { unfold hit. rewrite !dict_lookup_set_other by discriminate. exact Hs. }
  rewrite Hs', Hst in R. cbn zeta in R. destruct R as (msg & R).
  assert (Hshare : shares_cached_object (truthy use_cache)
                     (with_performance use_cache utcnow hit) = true).
  { unfold shares_cached_object, with_performance, field, hit. rewrite Hu.
    rewrite (dict_get_set_other "performance" "cache_hit") by discriminate.
    rewrite (dict_get_set_other "retrieved_from" "cache_hit") by discriminate.
    rewrite dict_get_set_same. reflexivity. }
  rewrite Hshare in R. cbn [backend trace] in R.
  assert (Hb : backend (snd (lambda_handler amb0 amb1 amb2 utcnow q event w)) =
               aliased (_get_cache_key id) (with_performance use_cache utcnow hit)
                 (hit_backend (_get_cache_key id) d (backend w))).
  { rewrite lambda_handler_cases. cbn zeta.
    unfold bind at 1. unfold lift at 1. rewrite He, (truthy_text _ Hid), Hf.
    cbn [negb interpolate].
    unfold bind at 1. unfold ret at 1.
    unfold bind at 1. rewrite Hu, Hrun. fold hit. unfold tag_cache. fold hit.
    rewrite R.
    destruct (json_dumps (with_performance use_cache utcnow hit)); [reflexivity|].
    destruct (json_dumps (internal_error_body e)); reflexivity. }
  unfold cached_object, redis_mode. rewrite Hb. clear Hb R.
  unfold cache_holds in Hh. unfold hit_backend, aliased.
  destruct (backend w) as [db|c].
  - split; [discriminate|reflexivity].
  - split; [|discriminate]. intros _.
    destruct Hh as (deadline & Hl & _).
    rewrite !lookup_alter_eq, Hl. reflexivity.
Qed.

(** ** The service without a cache *)

(** The two normalizers differ by the [cache_metadata] entry only, as long
    as the plain one can write the record to its log; the tags the caching
    service adds afterwards are new keys. *)
Lemma plain_format_response_refines record w :
  (exists text, json_dumps_indent (VDict record) = Ok text) ->
  match _format_response record w, plain_format_response record w with
  | (Ok r, w1), (Ok rp, w2) =>
      rp = without_key "cache_metadata" r /\
      VDict rp = VDict (without_cache_fields
                          (dict_set (VStr "retrieved_from") (VStr "database")
                             (dict_set (VStr "cache_hit") (VBool false) r))) /\
      backend w1 = backend w2 /\
      table_queries (trace w1) = table_queries (trace w2)
  | (Raise e, w1), (Raise e', w2) =>
      e = e' /\
      backend w1 = backend w2 /\
      table_queries (trace w1) = table_queries (trace w2)
  | _, _ => False
  end.
Proof.
  intros (text & Hdump).
  unfold _format_response, plain_format_response, _extract_analysis_data,
    plain_extract_analysis_data, try_except, bind, lift, ret, logger_error, emit.
  destruct (dict_item record "feedback_id") as [fid|e]; [|auto].
  destruct (status_messages_get _ _) as [message|e]; [|auto].
  destruct (eq_str (dict_get record "status" (VStr "completed")) "processing").
  - split; [reflexivity|]. split; [reflexivity|auto].
  - destruct (select_payload record) as [payload|e].
    + destruct (truthy payload).
      * destruct (_structure_analysis_results payload) as [results|e]; [|auto].
        split; [reflexivity|]. split; [reflexivity|auto].
      * split; [reflexivity|]. split; [reflexivity|auto].
    + destruct (decode_or_type_error (exn_cls e)); [|auto].
      rewrite Hdump. cbn [truthy backend trace]. split; [reflexivity|].
      split; [reflexivity|].
      split; [reflexivity|]. rewrite !table_queries_log. reflexivity.
Qed.

Lemma plain_get_feedback_results_spec q feedback_id w :
  plain_get_feedback_results q feedback_id w =
  let w1 := MkWorld (backend w) (trace w ++ [TableQuery feedback_id]) in
  let failed e w2 :=
    (Ok (VDict (mk_dict
           [("status", VStr "error");
            ("message", VStr ("Error retrieving results: " +:+ exn_str e));
            ("feedback_id", VStr feedback_id)])),
     MkWorld (backend w2)
       (trace w2 ++ [Log ERROR ("Error retrieving feedback results: " +:+ exn_str e)])) in
  match q feedback_id with
  | Raise e => failed e w1
  | Ok [] =>
      (Ok (VDict (mk_dict
             [("status", VStr "not_found");
              ("message", VStr "Feedback ID not found");
              ("feedback_id", VStr feedback_id)])), w1)
  | Ok (record :: _) =>
      match plain_format_response record w1 with
      | (Raise e, w2) => failed e w2
      | (Ok response, w2) => (Ok (VDict response), w2)
      end
  end.
Proof.
  unfold plain_get_feedback_results, try_except, bind, emit, lift, ret,
    logger_error, Exception. cbn zeta.
  destruct (q feedback_id) as [[|record rest]|e]; try reflexivity.
  destruct (plain_format_response record _) as [[response|e] w2]; reflexivity.
Qed.

(** The uncached caching service against the plain one. *)
Lemma uncached_plain amb1 amb2 q feedback_id w :
  (forall record rest,
     q feedback_id = Ok (record :: rest) ->
     exists text, json_dumps_indent (VDict record) = Ok text) ->
  exists r,
    fst (get_feedback_results amb1 amb2 q feedback_id false w) = Ok (VDict r) /\
    fst (plain_get_feedback_results q feedback_id w) =
      Ok (VDict (without_cache_fields r)).
Proof.
  intros Hdump. unfold get_feedback_results.
  rewrite fetch_from_database_spec, plain_get_feedback_results_spec. cbn zeta.
  destruct (q feedback_id) as [[|record rest]|e] eqn:Eq.
  - eexists. split; reflexivity.
  - pose proof (plain_format_response_refines record
                  (MkWorld (backend w) (trace w ++ [TableQuery feedback_id]))
                  (Hdump _ _ eq_refl)) as R.
    destruct (_format_response record _) as [[r|e] w1];
      destruct (plain_format_response record _) as [[rp|e'] w2];
      try contradiction.
    + destruct R as (_ & Hr & _). cbn [andb fst snd].
      eexists. split; [reflexivity|]. f_equal. exact Hr.
    + destruct R as (<- & _). eexists. split; reflexivity.
  - eexists. split; reflexivity.
Qed.

(** X20: with the cache switched off the caching service answers as the
    service without a cache does: the same result once [cache_hit],
    [retrieved_from] and [cache_metadata] are taken out, after the same
    queries to the durable table. *)
Theorem uncached_service_refines_plain_service amb1 amb2 q feedback_id w :
  (forall record rest,
     q feedback_id = Ok (record :: rest) ->
     exists text, json_dumps_indent (VDict record) = Ok text) ->
  let cached := get_feedback_results amb1 amb2 q feedback_id false w in
  let plain := plain_get_feedback_results q feedback_id w in
  exists r,
    fst cached = Ok (VDict r) /\
    fst plain = Ok (VDict (without_cache_fields r)) /\
    table_queries (trace (snd plain)) = table_queries (trace (snd cached)) /\
    backend (snd plain) = backend (snd cached).
Proof.
  intros Hdump. cbn zeta. unfold get_feedback_results.
  rewrite fetch_from_database_spec, plain_get_feedback_results_spec. cbn zeta.
  destruct (q feedback_id) as [[|record rest]|e] eqn:Eq.
  - eexists. split; [reflexivity|]. split; [reflexivity|]. auto.
  - pose proof (plain_format_response_refines record
                  (MkWorld (backend w) (trace w ++ [TableQuery feedback_id]))
                  (Hdump _ _ eq_refl)) as R.
    destruct (_format_response record _) as [[r|e] w1];
      destruct (plain_format_response record _) as [[rp|e'] w2];
      try contradiction.
    + destruct R as (_ & Hr & Hb & Ht). cbn [andb fst snd].
      eexists. split; [reflexivity|]. split; [f_equal; exact Hr|]. auto.
    + destruct R as (<- & Hb & Ht). cbn [fst snd backend trace].
      eexists. split; [reflexivity|]. split; [reflexivity|].
      rewrite !table_queries_log. auto.
  - cbn [fst snd backend trace].
    eexists. split; [reflexivity|]. split; [reflexivity|]. auto.
Qed.

(** The plain handler reads the feedback id as the caching handler does. *)
Lemma plain_extract_request_agrees event feedback_id use_cache force_refresh :
  extract_request event = Ok (feedback_id, use_cache, force_refresh) ->
  plain_extract_request event = Ok feedback_id.
Proof.
  unfold extract_request, plain_extract_request, flag_of_text.
  destruct (present event "pathParameters") as [[|]|]; cbn [res_bind];
    [| |discriminate].
  - destruct (py_item event "pathParameters") as [path|]; cbn [res_bind];
      [|discriminate].
    destruct (py_get path "feedback_id" VNone); cbn [res_bind]; congruence.
  - destruct (present event "queryStringParameters") as [[|]|]; cbn [res_bind];
      [| |discriminate].
    + destruct (py_item event "queryStringParameters") as [query|]; cbn [res_bind];
        [|discriminate].
      destruct (py_get query "feedback_id" VNone); cbn [res_bind]; [|discriminate].
      destruct (py_get query "use_cache" _) as [u|]; cbn [res_bind]; [|discriminate].
      destruct (py_lower u); cbn [res_bind]; [|discriminate].
      destruct (py_get query "force_refresh" _) as [f|]; cbn [res_bind]; [|discriminate].
      destruct (py_lower f); cbn [res_bind]; congruence.
    + destruct (py_get event "body" VNone) as [raw|]; cbn [res_bind]; [|discriminate].
      destruct (truthy raw).
      * destruct (py_item event "body") as [body|]; cbn [res_bind]; [|discriminate].
        destruct (loads_if_str body) as [body'|]; cbn [res_bind]; [|discriminate].
        destruct (py_get body' "feedback_id" VNone); cbn [res_bind]; [|discriminate].
        destruct (py_get body' "use_cache" _); cbn [res_bind]; [|discriminate].
        destruct (py_get body' "force_refresh" _); cbn [res_bind]; congruence.
      * destruct (py_get event "feedback_id" VNone); cbn [res_bind]; [|discriminate].
        destruct (py_get event "use_cache" _); cbn [res_bind]; [|discriminate].
        destruct (py_get event "force_refresh" _); cbn [res_bind]; congruence.
Qed.

(** X21: a request in which the caching handler finds no feedback id is
    rejected by the handler without a cache as well, with code 400 and
    before the table is queried or anything is logged. *)
Theorem plain_handler_rejects_the_same_requests q event w
    feedback_id use_cache force_refresh text :
  extract_request event = Ok (feedback_id, use_cache, force_refresh) ->
  truthy feedback_id = false ->
  json_dumps plain_usage_body = Ok text ->
  plain_lambda_handler q event w =
    (Ok (http_response (VNum 400) json_headers text), w).
Proof.
  intros He Ht Hd. apply plain_extract_request_agrees in He.
  unfold plain_lambda_handler, try_except, bind, lift, ret.
  rewrite He, Ht. cbn [negb]. rewrite Hd. reflexivity.
Qed.

Lemma without_cache_fields_status r status :
  dict_lookup (VStr "status") r = Some status ->
  dict_lookup (VStr "status") (without_cache_fields r) = Some status.
Proof.
  unfold without_cache_fields, without_key.
  induction r as [|[k v] r IH]; [discriminate|].
  cbn [dict_lookup List.filter fst].
  destruct (key_eqb k (VStr "status")) eqn:Ek.
  - apply key_eqb_VStr in Ek. subst k. intros [= ->].
    cbn. reflexivity.
  - intros H. specialize (IH H).
    destruct (key_eqb k (VStr "cache_hit")); cbn [negb List.filter fst]; [exact IH|].
    destruct (key_eqb k (VStr "retrieved_from")); cbn [negb List.filter fst]; [exact IH|].
    destruct (key_eqb k (VStr "cache_metadata")); cbn [negb List.filter fst]; [exact IH|].
    cbn [dict_lookup]. rewrite Ek. exact IH.
Qed.

(** X22: a request that switches the cache off is answered by the caching
    handler as by the handler without a cache: the same HTTP code, each
    with its own serialisation of the result. *)
Theorem cache_bypass_answers_as_the_plain_handler
    amb0 amb1 amb2 utcnow q event w id use_cache force_refresh r w1 text text' :
  extract_request event = Ok (VStr id, use_cache, force_refresh) ->
  id <> "" ->
  truthy force_refresh = false ->
  truthy use_cache = false ->
  (forall record rest,
     q id = Ok (record :: rest) ->
     exists dump, json_dumps_indent (VDict record) = Ok dump) ->
  get_feedback_results amb1 amb2 q id false w = (Ok (VDict r), w1) ->
  json_dumps (with_performance use_cache utcnow r) = Ok text ->
  json_dumps (VDict (without_cache_fields r)) = Ok text' ->
  exists code,
    In code handler_codes /\
    fst (lambda_handler amb0 amb1 amb2 utcnow q event w) =
      Ok (http_response (VNum code)
            (json_headers ++ [("X-Cache-Status", VStr "MISS")]) text) /\
    fst (plain_lambda_handler q event w) =
      Ok (http_response (VNum code) json_headers text').
Proof.
  intros He Hid Hf Hu Hdump Hrun Ht Ht'.
  assert (Hfetch : fetch_from_database amb2 q id false w = (Ok (VDict r), w1))
    by exact Hrun.
  destruct (fetch_from_database_shape _ _ _ _ _ _ _ Hfetch)
    as (d & status & [= <-] & Hs & Hin & Hc).
  pose proof (known_status_hashable _ Hin) as Hh.
  exists (http_code status). split; [apply http_code_in|]. split.
  - unfold lambda_handler, try_except.
    unfold bind at 1. unfold lift at 1. rewrite He.
    rewrite (truthy_text _ Hid). cbn [negb]. rewrite Hf.
    unfold bind at 1. unfold ret at 1.
    unfold bind at 1. rewrite Hu, Hrun.
    pose proof (respond_spec utcnow (interpolate (VStr id)) use_cache (VDict r) w1) as R.
    cbn match in R. rewrite Hs, Hh in R. cbn zeta in R. destruct R as (msg & R).
    rewrite R, Ht, Hc. reflexivity.
  - destruct (uncached_plain amb1 amb2 q id w Hdump) as (r' & Hc' & Hp).
    rewrite Hrun in Hc'. cbn [fst] in Hc'. injection Hc' as <-.
    apply plain_extract_request_agrees in He.
    unfold plain_lambda_handler, try_except.
    unfold bind at 1. unfold lift at 1. rewrite He.
    rewrite (truthy_text _ Hid). cbn [negb].
    unfold bind at 1.
    destruct (plain_get_feedback_results q id w) as [rp wp]. cbn [fst] in Hp.
    subst rp.
    unfold bind, lift, ret, logger_info, emit, py_item, dict_item.
    rewrite (without_cache_fields_status _ _ Hs).
    rewrite (status_code_map_get_code _ Hh), Ht'. reflexivity.
Qed.

End Retrieval.

(** ** The reference codec meets the assumption on [json] *)

Lemma reference_mapping_text_decodes_to_mapping d text v :
  ReferenceJSON.dumps (VDict d) = Ok text ->
  ReferenceJSON.loads text = Ok v ->
  truthy v = true -> isinstance_dict v = true.
Proof.
  unfold ReferenceJSON.dumps. cbn [ReferenceJSON.encode].
  match goal with |- context [res_bind ?b _] => destruct b as [body|] end;
    cbn [res_bind]; [|discriminate].
  intros [= <-]. unfold ReferenceJSON.loads.
  cbn [ReferenceJSON.parse_value ReferenceJSON.skip_ws].
  change (ReferenceJSON.is_space "{"%char) with false. cbv iota.
  change (Ascii.eqb "{"%char "{"%char) with true. cbv iota.
  destruct (ReferenceJSON.skip_ws _) as [|c2 rest2]; [discriminate|].
  destruct (Ascii.eqb c2 "}"%char).
  - destruct (ReferenceJSON.skip_ws rest2); [|discriminate].
    intros [= <-]. reflexivity.
  - destruct (ReferenceJSON.parse_members _ _) as [[d' after]|]; [|discriminate].
    destruct (ReferenceJSON.skip_ws after); [|discriminate].
    intros [= <-]. reflexivity.
Qed.

(** ** The claims at concrete inputs *)

Lemma format_recommendations_partition_witness :
  recommendations_E5 <> [] /\
  exists out high medium low,
    _format_recommendations ascii_lower (VList recommendations_E5) = Ok out /\
    field out "total_recommendations" = VNum 3 /\
    field out "detailed_recommendations" = VList recommendations_E5 /\
    field out "by_priority" =
      VDict [(VStr "high", VList high); (VStr "medium", VList medium);
             (VStr "low", VList low)] /\
    (length high + length medium + length low <= 3)%nat.
Proof.
  assert (Hne : recommendations_E5 <> []) by discriminate.
  split; [exact Hne|].
  destruct (format_recommendations_partition ascii_lower recommendations_E5)
    as (_ & Htotal & Hshape).
  destruct (Htotal eq_refl) as [out Hout].
  destruct (Hshape out Hne Hout) as (high & medium & low & H).
  exists out, high, medium, low. split; [exact Hout | exact H].
Defined.

Lemma unextractable_record_is_failed_witness :
  (stored_record record_G7 /\
   eq_str (dict_get record_G7 "status" (VStr "completed")) "processing" = false /\
   unextractable ReferenceJSON.loads record_G7 /\
   exists response w1,
     _format_response ReferenceJSON.loads ascii_lower 300 record_G7
       (initial_world false) = (Ok response, w1) /\
     dict_get response "status" VNone = VStr "failed" /\
     dict_get response "message" VNone =
       VStr "Analysis results not found or corrupted" /\
     dict_get response "results" VNone = VDict []) /\
  (unextractable ReferenceJSON.loads record_D4 /\
   exists response w1,
     _format_response ReferenceJSON.loads ascii_lower 300 record_D4
       (initial_world false) = (Ok response, w1) /\
     dict_get response "status" VNone = VStr "failed") /\
  (unextractable ReferenceJSON.loads record_H8 /\
   exists response w1,
     _format_response ReferenceJSON.loads ascii_lower 300 record_H8
       (initial_world false) = (Ok response, w1) /\
     dict_get response "status" VNone = VStr "failed") /\
  (unextractable ReferenceJSON.loads record_B2 /\
   exists response w1,
     _format_response ReferenceJSON.loads ascii_lower 300 record_B2
       (initial_world false) = (Ok response, w1) /\
     dict_get response "status" VNone = VStr "failed") /\
  (stored_record record_C3 /\
   eq_str (dict_get record_C3 "status" (VStr "completed")) "processing" = true /\
   exists response,
     _format_response ReferenceJSON.loads ascii_lower 300 record_C3
       (initial_world false) = (Ok response, initial_world false) /\
     dict_get response "status" VNone = VStr "processing" /\
     dict_lookup (VStr "results") response = None).
Proof.
  destruct (unextractable_record_is_failed ReferenceJSON.loads ascii_lower 300)
    as [Hfailed Hprocessing].
  assert (HG : stored_record record_G7) by (split; reflexivity).
  assert (HD : stored_record record_D4) by (split; reflexivity).
  assert (HH : stored_record record_H8) by (split; reflexivity).
  assert (HB : stored_record record_B2) by (split; reflexivity).
  assert (HC : stored_record record_C3) by (split; reflexivity).
  assert (UG : unextractable ReferenceJSON.loads record_G7) by reflexivity.
  assert (UD : unextractable ReferenceJSON.loads record_D4) by reflexivity.
  assert (UH : unextractable ReferenceJSON.loads record_H8) by reflexivity.
  assert (UB : unextractable ReferenceJSON.loads record_B2) by exact I.
  split.
  { split; [exact HG|]. split; [reflexivity|]. split; [exact UG|].
    destruct (Hfailed record_G7 (initial_world false) HG eq_refl UG)
      as (response & w1 & Hrun & _ & Hs & Hm & Hr).
    exists response, w1. auto. }
  split.
  { split; [exact UD|].
    destruct (Hfailed record_D4 (initial_world false) HD eq_refl UD)
      as (response & w1 & Hrun & _ & Hs & _).
    exists response, w1. auto. }
  split.
  { split; [exact UH|].
    destruct (Hfailed record_H8 (initial_world false) HH eq_refl UH)
      as (response & w1 & Hrun & _ & Hs & _).
    exists response, w1. auto. }
  split.
  { split; [exact UB|].
    destruct (Hfailed record_B2 (initial_world false) HB eq_refl UB)
      as (response & w1 & Hrun & _ & Hs & _).
    exists response, w1. auto. }
  split; [exact HC|]. split; [reflexivity|].
  destruct (Hprocessing record_C3 (initial_world false) HC eq_refl)
    as (response & Hrun & Hs & _ & Hr).
  exists response. auto.
Defined.

Lemma processing_record_is_not_failed :
  stored_record record_C3 /\
  _extract_analysis_data ReferenceJSON.loads record_C3 (initial_world false) =
    (Ok (VDict []), initial_world false) /\
  truthy (VDict []) = false /\
  exists response,
    _format_response ReferenceJSON.loads ascii_lower 300 record_C3
      (initial_world false) = (Ok response, initial_world false) /\
    dict_get response "status" VNone = VStr "processing" /\
    dict_lookup (VStr "results") response = None.
Proof.
  split; [split; reflexivity|]. split; [reflexivity|]. split; [reflexivity|].
  eexists. split; [reflexivity|]. split; reflexivity.
Qed.


Lemma completed_is_not_cached_without_payload :
  dict_get record_B2 "status" VNone = VStr "completed" /\
  exists r1 w1 r2 w2,
    get_feedback_results ReferenceJSON.loads ReferenceJSON.dumps ascii_lower 300
      (at_time 10) (at_time 11) table_1 "B2" true (initial_world false) =
      (Ok r1, w1) /\
    field r1 "status" = VStr "failed" /\
    cached_keys w1 = ∅ /\
    get_feedback_results ReferenceJSON.loads ReferenceJSON.dumps ascii_lower 300
      (at_time 20) (at_time 21) table_1 "B2" true w1 = (Ok r2, w2) /\
    field r2 "cache_hit" = VBool false /\
    table_queries (trace w2) = ["B2"; "B2"].
Proof.
  split; [reflexivity|].
  do 4 eexists.
  split; [reflexivity|]. split; [reflexivity|]. split; [reflexivity|].
  split; [reflexivity|]. split; reflexivity.
Qed.

Lemma completed_response_is_then_served_from_cache_witness :
  exists r1 w1 r2 w2,
    get_feedback_results ReferenceJSON.loads ReferenceJSON.dumps ascii_lower 300
      (at_time 10) (at_time 11) table_1 "A1" true (initial_world true) =
      (Ok r1, w1) /\
    get_feedback_results ReferenceJSON.loads ReferenceJSON.dumps ascii_lower 300
      (at_time 310) (at_time 311) table_1 "A1" true w1 = (Ok r2, w2) /\
    field r2 "cache_hit" = VBool true /\
    field r2 "retrieved_from" = VStr "cache" /\
    field r2 "results" = field r1 "results" /\
    table_queries (trace w2) = table_queries (trace w1).
Proof.
  destruct (get_feedback_results ReferenceJSON.loads ReferenceJSON.dumps
              ascii_lower 300 (at_time 10) (at_time 11) table_1 "A1" true
              (initial_world true)) as [r w1] eqn:Hrun.
  assert (Hfirst : exists r1, r = Ok r1 /\
            eq_str (field r1 "status") "completed" = true /\
            field r1 "cache_hit" = VBool false /\
            redis_mode w1 = true /\
            exists text, ReferenceJSON.dumps r1 = Ok text /\ text <> "" /\
                         ReferenceJSON.loads text = Ok r1).
  { vm_compute in Hrun. inversion Hrun; subst r w1; clear Hrun.
    eexists. split; [reflexivity|]. split; [reflexivity|].
    split; [reflexivity|]. split; [reflexivity|].
    eexists. split; [vm_compute; reflexivity|].
    split; [discriminate | vm_compute; reflexivity]. }
  destruct Hfirst as (r1 & -> & Hst & Hhit & Hmode & Hcodec).
  destruct (completed_response_is_then_served_from_cache
              ReferenceJSON.loads ReferenceJSON.dumps ascii_lower 300
              (at_time 10) (at_time 11) (at_time 310) (at_time 311)
              table_1 table_1 "A1" (initial_world true) r1 w1 Hrun Hst Hhit)
    as (r2 & w2 & H).
  - unfold cache_ttl. cbn. lia.
  - intros _. split; [reflexivity|]. split; [reflexivity|].
    split; [unfold cache_ttl; lia | exact Hcodec].
  - exists r1, w1, r2, w2. split; [reflexivity | exact H].
Defined.

Lemma cache_hit_is_served_without_table_access_witness :
  exists d w1 w2,
    get_feedback_results ReferenceJSON.loads ReferenceJSON.dumps ascii_lower 300
      (at_time 10) (at_time 11) table_1 "A1" true (initial_world false) =
      (Ok (VDict d), w1) /\
    cache_holds ReferenceJSON.loads w1 (at_time 100) "A1" (VDict d) /\
    get_feedback_results ReferenceJSON.loads ReferenceJSON.dumps ascii_lower 300
      (at_time 100) (at_time 101) table_down "A1" true w1 =
      (Ok (tag_cache d), w2) /\
    field (tag_cache d) "cache_hit" = VBool true /\
    field (tag_cache d) "retrieved_from" = VStr "cache" /\
    table_queries (trace w2) = table_queries (trace w1).
Proof.
  destruct (get_feedback_results ReferenceJSON.loads ReferenceJSON.dumps
              ascii_lower 300 (at_time 10) (at_time 11) table_1 "A1" true
              (initial_world false)) as [r w1] eqn:Hrun.
  assert (Hfirst : exists d, r = Ok (VDict d) /\ d <> [] /\
            cache_holds ReferenceJSON.loads w1 (at_time 100) "A1" (VDict d)).
  { vm_compute in Hrun. inversion Hrun; subst r w1; clear Hrun.
    eexists. split; [reflexivity|]. split; [discriminate|].
    exists 311. split; [vm_compute; reflexivity | reflexivity]. }
  destruct Hfirst as (d & -> & Hd & Hholds).
  destruct (cache_hit_is_served_without_table_access
              ReferenceJSON.loads ReferenceJSON.dumps ascii_lower 300
              (at_time 100) (at_time 101) table_down "A1" w1 d Hholds Hd)
    as (w2 & Hrun2 & Hhit & Hfrom & _ & Htq).
  exists d, w1, w2. auto 10.
Defined.

Lemma cache_is_populated_only_with_completed_witness :
  (exists r w',
     get_feedback_results ReferenceJSON.loads ReferenceJSON.dumps ascii_lower 300
       (at_time 10) (at_time 11) table_1 "C3" true (initial_world false) =
       (Ok r, w') /\
     field r "status" = VStr "processing" /\
     cached_keys w' ⊆ cached_keys (initial_world false) /\
     exists w'',
       CacheManager_get ReferenceJSON.loads (at_time 12) "C3" w' = (Ok VNone, w'')) /\
  (exists r w',
     get_feedback_results ReferenceJSON.loads ReferenceJSON.dumps ascii_lower 300
       (at_time 10) (at_time 11) table_1 "A1" true (initial_world false) =
       (Ok r, w') /\
     field r "status" = VStr "completed" /\
     match backend w' with
     | MemoryBackend c' =>
         c' !! "feedback_results:A1" = Some (MkEntry r 311)
     | RedisBackend _ => False
     end).
Proof.
  split.
  - destruct (get_feedback_results ReferenceJSON.loads ReferenceJSON.dumps
                ascii_lower 300 (at_time 10) (at_time 11) table_1 "C3" true
                (initial_world false)) as [r w'] eqn:Hrun.
    assert (Hr : exists v, r = Ok v /\ field v "status" = VStr "processing").
    { vm_compute in Hrun. inversion Hrun. eexists. split; reflexivity. }
    destruct Hr as (v & -> & Hst).
    destruct (cache_is_populated_only_with_completed
                ReferenceJSON.loads ReferenceJSON.dumps ascii_lower 300
                _ _ _ _ _ _ _ _ Hrun) as [Hnone _].
    destruct Hnone as [Hkeys Habsent].
    { right. rewrite Hst. reflexivity. }
    destruct (Habsent ltac:(vm_compute; set_solver) (at_time 12)) as [w'' Hget].
    exists v, w'. eauto.
  - destruct (get_feedback_results ReferenceJSON.loads ReferenceJSON.dumps
                ascii_lower 300 (at_time 10) (at_time 11) table_1 "A1" true
                (initial_world false)) as [r w'] eqn:Hrun.
    assert (Hr : exists v, r = Ok v /\ field v "status" = VStr "completed" /\
                           field v "cache_hit" = VBool false /\
                           redis_mode w' = false).
    { vm_compute in Hrun. inversion Hrun. eexists. repeat split. }
    destruct Hr as (v & -> & Hst & Hhit & Hmode).
    destruct (cache_is_populated_only_with_completed
                ReferenceJSON.loads ReferenceJSON.dumps ascii_lower 300
                _ _ _ _ _ _ _ _ Hrun) as [_ Hstored].
    specialize (Hstored eq_refl ltac:(rewrite Hst; reflexivity) Hhit).
    exists v, w'. split; [reflexivity|]. split; [exact Hst|].
    unfold redis_mode in Hmode.
    destruct (backend w'); [discriminate | exact Hstored].
Defined.

Lemma absent_record_is_not_found_witness :
  exists w w',
    reachable ReferenceJSON.loads ReferenceJSON.dumps ascii_lower 300
      (fun feedback_id => feedback_id = "Z9") w /\
    cached_keys w = {["feedback_results:A1"]} /\
    get_feedback_results ReferenceJSON.loads ReferenceJSON.dumps ascii_lower 300
      (at_time 20) (at_time 21) table_1 "Z9" true w =
      (Ok (not_found_result "Z9"), w') /\
    field (not_found_result "Z9") "status" = VStr "not_found" /\
    field (not_found_result "Z9") "cache_hit" = VBool false /\
    field (not_found_result "Z9") "retrieved_from" = VStr "database".
Proof.
  destruct (get_feedback_results ReferenceJSON.loads ReferenceJSON.dumps
              ascii_lower 300 (at_time 10) (at_time 11) table_1 "A1" true
              (initial_world false)) as [r w] eqn:Hrun.
  assert (Hreach : reachable ReferenceJSON.loads ReferenceJSON.dumps ascii_lower
                     300 (fun feedback_id => feedback_id = "Z9") w).
  { eapply reach_get_feedback_results; [apply (reach_start _ _ _ _ _ false) | | exact Hrun].
    intros id record rest ->. discriminate. }
  destruct (absent_record_is_not_found
              ReferenceJSON.loads ReferenceJSON.dumps ascii_lower 300
              (fun feedback_id => feedback_id = "Z9")
              (at_time 20) (at_time 21) table_1 "Z9" true w Hreach eq_refl eq_refl)
    as (w' & H).
  exists w, w'. split; [exact Hreach|]. split; [|exact H].
  vm_compute in Hrun. inversion Hrun. vm_compute. reflexivity.
Defined.

Lemma public_operations_never_raise_witness :
  exists w,
    reachable ReferenceJSON.loads ReferenceJSON.dumps ascii_lower 300
      (fun _ => False) w /\
    returns (get_feedback_results ReferenceJSON.loads ReferenceJSON.dumps
               ascii_lower 300 (at_time 20) (at_time 21) table_down "B2" false) w /\
    returns (invalidate_cache (cache_down 22) "B2") w /\
    exists r w',
      get_feedback_results ReferenceJSON.loads ReferenceJSON.dumps ascii_lower 300
        (at_time 20) (at_time 21) table_down "B2" false w = (Ok r, w') /\
      r = error_result "B2" (MkExn (OtherException "ClientError") "table unavailable").
Proof.
  destruct (get_feedback_results ReferenceJSON.loads ReferenceJSON.dumps
              ascii_lower 300 (at_time 10) (at_time 11) table_1 "A1" true
              (initial_world true)) as [r0 w] eqn:Hrun.
  assert (Hreach : reachable ReferenceJSON.loads ReferenceJSON.dumps ascii_lower
                     300 (fun _ => False) w).
  { eapply reach_get_feedback_results; [apply (reach_start _ _ _ _ _ true) | | exact Hrun].
    intros id record rest []. }
  destruct (public_operations_never_raise
              ReferenceJSON.loads ReferenceJSON.dumps ascii_lower 300
              reference_mapping_text_decodes_to_mapping
              (fun _ => False) (at_time 20) (at_time 21) (cache_down 22)
              table_down "B2" false w Hreach)
    as (Hget & Hinv & Hfault).
  destruct (Hfault _ eq_refl) as (r & w' & Hrun2 & [Herr | (Huc & _)]);
    [|discriminate].
  exists w. split; [exact Hreach|]. split; [exact Hget|]. split; [exact Hinv|].
  exists r, w'. split; [exact Hrun2 | exact Herr].
Defined.

Lemma cache_operations_never_raise_witness :
  returns (CacheManager_get ReferenceJSON.loads (cache_down 5) "A1")
    (initial_world true) /\
  returns (CacheManager_set ReferenceJSON.dumps 300 (cache_down 5) "A1"
             (VDict record_A1)) (initial_world true) /\
  CacheManager_get ReferenceJSON.loads (cache_down 5) "A1" (initial_world true) =
    (Ok VNone,
     MkWorld (backend (initial_world true))
       ([RedisGet "feedback_results:A1";
         Log ERROR "Cache retrieval error: Error 111 connecting to localhost:6379"])) /\
  field (match fst (get_feedback_results ReferenceJSON.loads ReferenceJSON.dumps
                      ascii_lower 300 (cache_down 5) (cache_down 6) table_1 "A1"
                      true (initial_world true)) with
         | Ok r => r
         | Raise _ => VNone
         end) "retrieved_from" = VStr "database" /\
  exists tr',
    CacheManager_set ReferenceJSON.dumps 300 (cache_down 5) "A1" (VDict record_A1)
      (initial_world true) = (Ok false, MkWorld (backend (initial_world true)) tr').
Proof.
  destruct (cache_operations_never_raise ReferenceJSON.loads ReferenceJSON.dumps
              ascii_lower 300 (cache_down 5) "A1" (VDict record_A1)
              (initial_world true))
    as (Hget & Hset & Hfault & _).
  destruct (Hfault _ eq_refl eq_refl) as (Hnone & Hopen & tr' & Hfalse & _).
  split; [exact Hget|]. split; [exact Hset|]. split; [exact Hnone|].
  split; [rewrite (Hopen (cache_down 6) table_1); vm_compute; reflexivity|].
  exists tr'. exact Hfalse.
Defined.

Lemma invalidate_cache_is_idempotent_witness :
  exists w1 w2,
    invalidate_cache (at_time 5) "Z9" (initial_world true) = (Ok true, w1) /\
    ("feedback_results:Z9" ∉ cached_keys w1) /\
    invalidate_cache (at_time 6) "Z9" w1 = (Ok true, w2) /\
    backend w2 = backend w1.
Proof.
  destruct (invalidate_cache_is_idempotent ReferenceJSON.loads
              (at_time 5) (at_time 6) "Z9" (initial_world true))
    as (w1 & w2 & H1 & Habs & _ & H2 & Hb).
  - intros _. reflexivity.
  - intros _. reflexivity.
  - exists w1, w2. auto.
Defined.

(** ** The further properties, on the scenarios *)

Lemma priority_buckets_are_filters_witness :
  recommendations_E5 <> [] /\
  forallb recommendation_ok recommendations_E5 = true /\
  exists out,
    _format_recommendations ascii_lower (VList recommendations_E5) = Ok out /\
    field out "by_priority" =
      VDict
        [(VStr "high",
           VList (List.filter
                    (fun r => String.eqb "high" (priority_of ascii_lower r))
                    recommendations_E5));
         (VStr "medium",
           VList (List.filter
                    (fun r => String.eqb "medium" (priority_of ascii_lower r))
                    recommendations_E5));
         (VStr "low",
           VList (List.filter
                    (fun r => String.eqb "low" (priority_of ascii_lower r))
                    recommendations_E5))].
Proof.
  assert (H1 : recommendations_E5 <> []) by discriminate.
  assert (H2 : forallb recommendation_ok recommendations_E5 = true) by reflexivity.
  split; [exact H1|]. split; [exact H2|].
  exact (priority_buckets_are_filters ascii_lower recommendations_E5 H1 H2).
Defined.

Lemma department_groups_are_filters_witness :
  recommendations_E5 <> [] /\
  forallb recommendation_ok recommendations_E5 = true /\
  exists out groups,
    _format_recommendations ascii_lower (VList recommendations_E5) = Ok out /\
    field out "by_department" = VDict groups /\
    dict_lookup (VStr "General") groups =
      Some (VList (List.filter
                     (fun r => key_eqb (department_of r) (VStr "General"))
                     recommendations_E5)) /\
    dict_lookup (VStr "Sales") groups = None.
Proof.
  assert (H1 : recommendations_E5 <> []) by discriminate.
  assert (H2 : forallb recommendation_ok recommendations_E5 = true) by reflexivity.
  split; [exact H1|]. split; [exact H2|].
  destruct (department_groups_are_filters ascii_lower recommendations_E5 H1 H2)
    as (out & groups & Hout & Hfield & Hgroups).
  exists out, groups. split; [exact Hout|]. split; [exact Hfield|].
  split; [exact (Hgroups (VStr "General")) | exact (Hgroups (VStr "Sales"))].
Defined.

Lemma immediate_actions_are_the_urgent_items_witness :
  recommendations_E5 <> [] /\
  forallb recommendation_ok recommendations_E5 = true /\
  exists out,
    _format_recommendations ascii_lower (VList recommendations_E5) = Ok out /\
    field out "immediate_actions" =
      VList (map (immediate_summary ascii_lower)
               (List.filter (is_immediate ascii_lower) recommendations_E5)).
Proof.
  assert (H1 : recommendations_E5 <> []) by discriminate.
  assert (H2 : forallb recommendation_ok recommendations_E5 = true) by reflexivity.
  split; [exact H1|]. split; [exact H2|].
  exact (immediate_actions_are_the_urgent_items ascii_lower recommendations_E5 H1 H2).
Defined.

Lemma top_level_analysis_is_ignored_beside_results_witness :
  dict_contains (VStr "results") record_A1 = true /\
  _format_response ReferenceJSON.loads ascii_lower 300
    (dict_set (VStr "analysis") (VStr "{not valid json") record_A1)
    (initial_world false) =
  _format_response ReferenceJSON.loads ascii_lower 300 record_A1
    (initial_world false).
Proof.
  assert (H : dict_contains (VStr "results") record_A1 = true) by reflexivity.
  split; [exact H|].
  exact (top_level_analysis_is_ignored_beside_results ReferenceJSON.loads
           ascii_lower 300 record_A1 (VStr "{not valid json")
           (initial_world false) H).
Defined.

Lemma processing_record_is_passed_through_witness :
  dict_lookup (VStr "feedback_id") record_C3 = Some (VStr "C3") /\
  dict_get record_C3 "status" (VStr "completed") = VStr "processing" /\
  exists response,
    _format_response ReferenceJSON.loads ascii_lower 300 record_C3
      (initial_world true) = (Ok response, initial_world true) /\
    dict_get response "feedback_id" VNone = VStr "C3" /\
    dict_get response "status" VNone = VStr "processing" /\
    dict_get response "message" VNone = VStr "Feedback is still being processed" /\
    dict_get response "estimated_completion" VNone = VStr "Within 2-3 minutes" /\
    dict_lookup (VStr "results") response = None.
Proof.
  assert (H1 : dict_lookup (VStr "feedback_id") record_C3 = Some (VStr "C3"))
    by reflexivity.
  assert (H2 : dict_get record_C3 "status" (VStr "completed") = VStr "processing")
    by reflexivity.
  split; [exact H1|]. split; [exact H2|].
  exact (processing_record_is_passed_through ReferenceJSON.loads ascii_lower 300
           record_C3 (VStr "C3") (initial_world true) H1 H2).
Defined.

Lemma response_passes_record_fields_through_witness :
  exists response w',
    _format_response ReferenceJSON.loads ascii_lower 300 record_E5
      (initial_world false) = (Ok response, w') /\
    dict_item record_E5 "feedback_id" = Ok (dict_get response "feedback_id" VNone) /\
    dict_get response "original_data" VNone = VDict [] /\
    dict_get response "cache_metadata" VNone =
      VDict [(VStr "cacheable", VBool false); (VStr "cache_ttl", VNum 300)].
Proof.
  destruct (_format_response ReferenceJSON.loads ascii_lower 300 record_E5
              (initial_world false)) as [[response|e] w'] eqn:Hrun;
    [|vm_compute in Hrun; discriminate].
  destruct (response_passes_record_fields_through ReferenceJSON.loads ascii_lower
              300 record_E5 (initial_world false) response w' Hrun)
    as (Hid & _ & _ & _ & _ & Ho & Hm).
  exists response, w'. split; [reflexivity|]. split; [exact Hid|].
  split; [exact Ho | exact Hm].
Defined.

Lemma ill_shaped_payload_is_an_error_witness :
  table_2 "F6" = Ok [record_F6] /\
  stored_record record_F6 /\
  eq_str (dict_get record_F6 "status" (VStr "completed")) "processing" = false /\
  select_payload ReferenceJSON.loads record_F6 = Ok (VList [VNum 1; VNum 2]) /\
  truthy (VList [VNum 1; VNum 2]) = true /\
  exists w',
    get_feedback_results ReferenceJSON.loads ReferenceJSON.dumps ascii_lower 300
      (at_time 10) (at_time 11) table_2 "F6" false (initial_world false) =
      (Ok (error_result "F6" (no_attribute (VList [VNum 1; VNum 2]) "get")), w') /\
    backend w' = backend (initial_world false).
Proof.
  assert (H1 : table_2 "F6" = Ok [record_F6]) by reflexivity.
  assert (H2 : stored_record record_F6) by (split; reflexivity).
  assert (H3 : eq_str (dict_get record_F6 "status" (VStr "completed")) "processing"
               = false) by reflexivity.
  assert (H4 : select_payload ReferenceJSON.loads record_F6 =
               Ok (VList [VNum 1; VNum 2])) by (vm_compute; reflexivity).
  assert (H5 : truthy (VList [VNum 1; VNum 2]) = true) by reflexivity.
  split; [exact H1|]. split; [exact H2|]. split; [exact H3|].
  split; [exact H4|]. split; [exact H5|].
  destruct (ill_shaped_payload_is_an_error ReferenceJSON.loads ReferenceJSON.dumps
              ascii_lower 300 (at_time 10) (at_time 11) table_2 "F6"
              (initial_world false) record_F6 [] (VList [VNum 1; VNum 2])
              H1 H2 H3 H4 H5) as [Herr Hshape].
  exact (Herr _ (Hshape eq_refl)).
Defined.

Lemma memory_cache_round_trip_witness :
  redis_mode (initial_world false) = false /\
  fst (CacheManager_get ReferenceJSON.loads (at_time 309) "A1"
         (snd (CacheManager_set ReferenceJSON.dumps 300 (at_time 10) "A1"
                 (VDict record_A1) (initial_world false)))) =
    Ok (VDict record_A1) /\
  fst (CacheManager_get ReferenceJSON.loads (at_time 310) "A1"
         (snd (CacheManager_set ReferenceJSON.dumps 300 (at_time 10) "A1"
                 (VDict record_A1) (initial_world false)))) =
    Ok VNone.
Proof.
  assert (H : redis_mode (initial_world false) = false) by reflexivity.
  split; [exact H|].
  destruct (memory_cache_round_trip ReferenceJSON.loads ReferenceJSON.dumps 300
              (at_time 10) (at_time 309) "A1" (VDict record_A1)
              (initial_world false) H) as [Hin _].
  destruct (memory_cache_round_trip ReferenceJSON.loads ReferenceJSON.dumps 300
              (at_time 10) (at_time 310) "A1" (VDict record_A1)
              (initial_world false) H) as [_ Hout].
  split.
  - apply Hin. reflexivity.
  - apply Hout. discriminate.
Defined.

Lemma redis_cache_round_trip_witness :
  redis_mode (initial_world true) = true /\
  exists text,
    ReferenceJSON.dumps (VDict record_C3) = Ok text /\
    text <> "" /\
    redis_fault (at_time 10) = None /\
    redis_fault (at_time 309) = None /\
    0 < cache_ttl 300 /\
    fst (CacheManager_get ReferenceJSON.loads (at_time 309) "C3"
           (snd (CacheManager_set ReferenceJSON.dumps 300 (at_time 10) "C3"
                   (VDict record_C3) (initial_world true)))) =
      Ok (VDict record_C3).
Proof.
  assert (H : redis_mode (initial_world true) = true) by reflexivity.
  split; [exact H|].
  destruct (ReferenceJSON.dumps (VDict record_C3)) as [text|e] eqn:Hd;
    [|vm_compute in Hd; discriminate].
  assert (Hne : text <> "")
    by (vm_compute in Hd; injection Hd as <-; discriminate).
  assert (Ht : 0 < cache_ttl 300) by reflexivity.
  exists text. split; [reflexivity|]. split; [exact Hne|].
  split; [reflexivity|]. split; [reflexivity|]. split; [exact Ht|].
  destruct (redis_cache_round_trip ReferenceJSON.loads ReferenceJSON.dumps 300
              (at_time 10) (at_time 309) "C3" (VDict record_C3) text
              (initial_world true) H Hd Hne eq_refl eq_refl Ht) as [Hin _].
  eapply eq_trans; [apply Hin; reflexivity|].
  vm_compute in Hd. injection Hd as <-. vm_compute. reflexivity.
Defined.

Lemma other_ids_are_untouched_witness :
  "B2" <> "A1" /\
  fst (CacheManager_get ReferenceJSON.loads (at_time 20) "B2"
         (snd (get_feedback_results ReferenceJSON.loads ReferenceJSON.dumps
                 ascii_lower 300 (at_time 10) (at_time 11) table_1 "A1" true
                 (initial_world false)))) =
    fst (CacheManager_get ReferenceJSON.loads (at_time 20) "B2" (initial_world false)) /\
  fst (CacheManager_get ReferenceJSON.loads (at_time 20) "B2"
         (snd (invalidate_cache (at_time 10) "A1" (initial_world false)))) =
    fst (CacheManager_get ReferenceJSON.loads (at_time 20) "B2" (initial_world false)).
Proof.
  assert (H : "B2" <> "A1") by discriminate.
  split; [exact H|].
  exact (other_ids_are_untouched ReferenceJSON.loads ReferenceJSON.dumps ascii_lower
           300 (at_time 10) (at_time 11) (at_time 20) table_1 "A1" "B2" true
           (initial_world false) H).
Defined.

Lemma cache_hit_does_not_extend_the_ttl_witness :
  exists d w1,
    get_feedback_results ReferenceJSON.loads ReferenceJSON.dumps ascii_lower 300
      (at_time 10) (at_time 11) table_1 "A1" true (initial_world false) =
      (Ok (VDict d), w1) /\
    cache_holds ReferenceJSON.loads w1 (at_time 100) "A1" (VDict d) /\
    d <> [] /\
    exists deadline,
      deadline_of w1 "A1" = Some deadline /\
      deadline_of
        (snd (get_feedback_results ReferenceJSON.loads ReferenceJSON.dumps
                ascii_lower 300 (at_time 100) (at_time 101) table_1 "A1" true w1))
        "A1" = Some deadline /\
      forall amb3,
        deadline <= time_time amb3 ->
        fst (CacheManager_get ReferenceJSON.loads amb3 "A1"
               (snd (get_feedback_results ReferenceJSON.loads ReferenceJSON.dumps
                       ascii_lower 300 (at_time 100) (at_time 101) table_1 "A1"
                       true w1))) = Ok VNone.
Proof.
  destruct (get_feedback_results ReferenceJSON.loads ReferenceJSON.dumps
              ascii_lower 300 (at_time 10) (at_time 11) table_1 "A1" true
              (initial_world false)) as [r w1] eqn:Hrun.
  assert (Hfirst : exists d, r = Ok (VDict d) /\ d <> [] /\
            cache_holds ReferenceJSON.loads w1 (at_time 100) "A1" (VDict d)).
  { vm_compute in Hrun. inversion Hrun; subst r w1; clear Hrun.
    eexists. split; [reflexivity|]. split; [discriminate|].
    exists 311. split; [vm_compute; reflexivity | reflexivity]. }
  destruct Hfirst as (d & -> & Hd & Hholds).
  exists d, w1. split; [reflexivity|]. split; [exact Hholds|]. split; [exact Hd|].
  exact (cache_hit_does_not_extend_the_ttl ReferenceJSON.loads ReferenceJSON.dumps
           ascii_lower 300 (at_time 100) (at_time 101) table_1 "A1" w1 d Hholds Hd).
Defined.

Lemma result_provenance_and_status_witness :
  exists r w',
    get_feedback_results ReferenceJSON.loads ReferenceJSON.dumps ascii_lower 300
      (at_time 10) (at_time 11) table_down "A1" true (initial_world true) =
      (Ok r, w') /\
    ((field r "cache_hit" = VBool true /\ field r "retrieved_from" = VStr "cache") \/
     (field r "cache_hit" = VBool false /\
      In (field r "status") known_statuses /\
      field r "retrieved_from" =
        VStr (if eq_str (field r "status") "error" then "error" else "database"))).
Proof.
  destruct (get_feedback_results ReferenceJSON.loads ReferenceJSON.dumps
              ascii_lower 300 (at_time 10) (at_time 11) table_down "A1" true
              (initial_world true)) as [[r|e] w'] eqn:Hrun;
    [|vm_compute in Hrun; discriminate].
  exists r, w'. split; [reflexivity|].
  exact (result_provenance_and_status ReferenceJSON.loads ReferenceJSON.dumps
           ascii_lower 300 (at_time 10) (at_time 11) table_down "A1" true
           (initial_world true) r w' Hrun).
Defined.

Lemma missing_feedback_id_is_rejected_witness :
  extract_request ReferenceJSON.loads ascii_lower event_without_id =
    Ok (VNone, VBool true, VBool false) /\
  truthy VNone = false /\
  exists text,
    ReferenceJSON.dumps usage_body = Ok text /\
    lambda_handler ReferenceJSON.loads ReferenceJSON.dumps ascii_lower 300
      reference_format untyped_rejected (at_time 10) (at_time 11) (at_time 12)
      utc_1 table_1 event_without_id (initial_world true) =
      (Ok (http_response (VNum 400) json_headers text), initial_world true).
Proof.
  assert (H1 : extract_request ReferenceJSON.loads ascii_lower event_without_id =
               Ok (VNone, VBool true, VBool false)) by reflexivity.
  assert (H2 : truthy VNone = false) by reflexivity.
  split; [exact H1|]. split; [exact H2|].
  destruct (ReferenceJSON.dumps usage_body) as [text|e] eqn:Hd;
    [|vm_compute in Hd; discriminate].
  exists text. split; [reflexivity|].
  exact (missing_feedback_id_is_rejected ReferenceJSON.loads ReferenceJSON.dumps
           ascii_lower 300 reference_format untyped_rejected (at_time 10)
           (at_time 11) (at_time 12) utc_1 table_1 event_without_id
           (initial_world true) VNone (VBool true) (VBool false) text H1 H2 Hd).
Defined.

Lemma path_parameters_take_precedence_witness :
  exists ev p,
    event_path = VDict ev /\
    dict_lookup (VStr "pathParameters") ev = Some (VDict p) /\
    p <> [] /\
    extract_request ReferenceJSON.loads ascii_lower event_path =
      Ok (VStr "A1", VBool true, VBool false).
Proof.
  eexists. eexists. split; [reflexivity|].
  assert (H1 : dict_lookup (VStr "pathParameters")
                 (mk_dict
                    [("pathParameters", VDict (mk_dict [("feedback_id", VStr "A1")]));
                     ("queryStringParameters",
                       VDict (mk_dict [("feedback_id", VStr "B2");
                                       ("use_cache", VStr "false")]))]) =
               Some (VDict (mk_dict [("feedback_id", VStr "A1")])))
    by reflexivity.
  assert (H2 : mk_dict [("feedback_id", VStr "A1")] <> []) by discriminate.
  split; [exact H1|]. split; [exact H2|].
  exact (path_parameters_take_precedence ReferenceJSON.loads ascii_lower _ _ H1 H2).
Defined.

Lemma response_code_follows_the_status_witness :
  extract_request ReferenceJSON.loads ascii_lower event_direct =
    Ok (VStr "A1", VBool true, VBool false) /\
  "A1" <> "" /\
  truthy (VBool false) = false /\
  exists d w1 text w',
    get_feedback_results ReferenceJSON.loads ReferenceJSON.dumps ascii_lower 300
      (at_time 11) (at_time 12) table_1 "A1" (truthy (VBool true))
      (initial_world false) = (Ok (VDict d), w1) /\
    dict_lookup (VStr "status") d = Some (VStr "completed") /\
    hashable (VStr "completed") = true /\
    ReferenceJSON.dumps (with_performance (VBool true) utc_1 d) = Ok text /\
    lambda_handler ReferenceJSON.loads ReferenceJSON.dumps ascii_lower 300
      reference_format untyped_rejected (at_time 10) (at_time 11) (at_time 12)
      utc_1 table_1 event_direct (initial_world false) =
      (Ok (http_response (VNum 200)
             (json_headers ++ [("X-Cache-Status", VStr "MISS")]) text), w').
Proof.
  assert (H1 : extract_request ReferenceJSON.loads ascii_lower event_direct =
               Ok (VStr "A1", VBool true, VBool false)) by reflexivity.
  assert (H2 : "A1" <> "") by discriminate.
  assert (H3 : truthy (VBool false) = false) by reflexivity.
  split; [exact H1|]. split; [exact H2|]. split; [exact H3|].
  destruct (get_feedback_results ReferenceJSON.loads ReferenceJSON.dumps
              ascii_lower 300 (at_time 11) (at_time 12) table_1 "A1"
              (truthy (VBool true)) (initial_world false)) as [r w1] eqn:Hrun.
  assert (Hfirst : exists d text,
            r = Ok (VDict d) /\
            dict_lookup (VStr "status") d = Some (VStr "completed") /\
            dict_get d "cache_hit" VNone = VBool false /\
            ReferenceJSON.dumps (with_performance (VBool true) utc_1 d) = Ok text).
  { vm_compute in Hrun. inversion Hrun; subst r w1; clear Hrun.
    eexists. eexists. split; [reflexivity|]. split; [reflexivity|].
    split; [reflexivity|]. vm_compute. reflexivity. }
  destruct Hfirst as (d & text & -> & Hs & Hc & Hd).
  destruct (response_code_follows_the_status ReferenceJSON.loads
              ReferenceJSON.dumps ascii_lower 300 reference_format untyped_rejected
              (at_time 10) (at_time 11) (at_time 12) utc_1 table_1 event_direct
              (initial_world false) "A1" (VBool true) (VBool false) d w1
              (VStr "completed") text H1 H2 H3 Hrun Hs eq_refl Hd)
    as (w' & Hresp & _).
  exists d, w1, text, w'. split; [reflexivity|]. split; [exact Hs|].
  split; [reflexivity|]. split; [exact Hd|].
  rewrite Hc in Hresp. exact Hresp.
Defined.

Lemma force_refresh_reads_the_table_and_caches_nothing_witness :
  extract_request ReferenceJSON.loads ascii_lower event_refresh =
    Ok (VStr "A1", VBool true, VBool true) /\
  "A1" <> "" /\
  truthy (VBool true) = true /\
  let w :=
    snd (get_feedback_results ReferenceJSON.loads ReferenceJSON.dumps ascii_lower
           300 (at_time 1) (at_time 2) table_1 "A1" true (initial_world false)) in
  let run :=
    lambda_handler ReferenceJSON.loads ReferenceJSON.dumps ascii_lower 300
      reference_format untyped_rejected (at_time 10) (at_time 11) (at_time 12)
      utc_1 table_1 event_refresh w in
  (_get_cache_key "A1" ∈ cached_keys w) /\
  table_queries (trace (snd run)) = table_queries (trace w) ++ ["A1"] /\
  (_get_cache_key "A1" ∉ cached_keys (snd run)).
Proof.
  assert (H1 : extract_request ReferenceJSON.loads ascii_lower event_refresh =
               Ok (VStr "A1", VBool true, VBool true)) by reflexivity.
  assert (H2 : "A1" <> "") by discriminate.
  assert (H3 : truthy (VBool true) = true) by reflexivity.
  split; [exact H1|]. split; [exact H2|]. split; [exact H3|].
  cbv zeta.
  destruct (force_refresh_reads_the_table_and_caches_nothing ReferenceJSON.loads
              ReferenceJSON.dumps ascii_lower 300 reference_format untyped_rejected
              (at_time 10) (at_time 11) (at_time 12) utc_1 table_1 event_refresh
              (snd (get_feedback_results ReferenceJSON.loads ReferenceJSON.dumps
                      ascii_lower 300 (at_time 1) (at_time 2) table_1 "A1" true
                      (initial_world false)))
              "A1" (VBool true) (VBool true) H1 H2 H3) as (Htq & _ & Hkey & _).
  split; [vm_compute; reflexivity|].
  split; [exact Htq|].
  apply Hkey. intros _. reflexivity.
Defined.

Lemma lambda_handler_always_answers_witness :
  (forall e, exists text, ReferenceJSON.dumps (internal_error_body e) = Ok text) /\
  exists code headers body w',
    lambda_handler ReferenceJSON.loads ReferenceJSON.dumps ascii_lower 300
      reference_format untyped_rejected (cache_down 10) (cache_down 11)
      (cache_down 12) utc_1 table_down event_path (initial_world true) =
      (Ok (http_response (VNum code) headers body), w') /\
    In code handler_codes /\
    In ("Content-Type", VStr "application/json") headers.
Proof.
  assert (H : forall e, exists text,
            ReferenceJSON.dumps (internal_error_body e) = Ok text)
    by (intros e; eexists; reflexivity).
  split; [exact H|].
  exact (lambda_handler_always_answers ReferenceJSON.loads ReferenceJSON.dumps
           ascii_lower 300 reference_format untyped_rejected (cache_down 10)
           (cache_down 11) (cache_down 12) utc_1 table_down event_path
           (initial_world true) H).
Defined.

Lemma served_object_keeps_the_performance_entry_witness :
  extract_request ReferenceJSON.loads ascii_lower event_direct =
    Ok (VStr "A1", VBool true, VBool false) /\
  "A1" <> "" /\
  truthy (VBool false) = false /\
  truthy (VBool true) = true /\
  exists d w1,
    get_feedback_results ReferenceJSON.loads ReferenceJSON.dumps ascii_lower 300
      (at_time 1) (at_time 2) table_1 "A1" true (initial_world false) =
      (Ok (VDict d), w1) /\
    cache_holds ReferenceJSON.loads w1 (at_time 11) "A1" (VDict d) /\
    d <> [] /\
    dict_lookup (VStr "status") d = Some (VStr "completed") /\
    hashable (VStr "completed") = true /\
    redis_mode w1 = false /\
    cached_object
      (snd (lambda_handler ReferenceJSON.loads ReferenceJSON.dumps ascii_lower 300
              reference_format untyped_rejected (at_time 10) (at_time 11)
              (at_time 12) utc_1 table_down event_direct w1))
      "A1" =
    Some (with_performance (VBool true) utc_1
            (dict_set (VStr "retrieved_from") (VStr "cache")
               (dict_set (VStr "cache_hit") (VBool true) d))).
Proof.
  assert (H1 : extract_request ReferenceJSON.loads ascii_lower event_direct =
               Ok (VStr "A1", VBool true, VBool false)) by reflexivity.
  assert (H2 : "A1" <> "") by discriminate.
  assert (H3 : truthy (VBool false) = false) by reflexivity.
  assert (H4 : truthy (VBool true) = true) by reflexivity.
  split; [exact H1|]. split; [exact H2|]. split; [exact H3|]. split; [exact H4|].
  destruct (get_feedback_results ReferenceJSON.loads ReferenceJSON.dumps
              ascii_lower 300 (at_time 1) (at_time 2) table_1 "A1" true
              (initial_world false)) as [r w1] eqn:Hrun.
  assert (Hfirst : exists d,
            r = Ok (VDict d) /\ d <> [] /\
            cache_holds ReferenceJSON.loads w1 (at_time 11) "A1" (VDict d) /\
            dict_lookup (VStr "status") d = Some (VStr "completed") /\
            redis_mode w1 = false).
  { vm_compute in Hrun. inversion Hrun; subst r w1; clear Hrun.
    eexists. split; [reflexivity|]. split; [discriminate|].
    split; [|split; reflexivity].
    exists 302. split; [vm_compute; reflexivity | reflexivity]. }
  destruct Hfirst as (d & -> & Hd & Hholds & Hs & Hm).
  exists d, w1. split; [reflexivity|]. split; [exact Hholds|]. split; [exact Hd|].
  split; [exact Hs|]. split; [reflexivity|]. split; [exact Hm|].
  exact (proj1 (served_object_keeps_the_performance_entry ReferenceJSON.loads
                  ReferenceJSON.dumps ascii_lower 300 reference_format
                  untyped_rejected (at_time 10) (at_time 11) (at_time 12) utc_1
                  table_down event_direct w1 "A1" (VBool true) (VBool false) d
                  (VStr "completed") H1 H2 H3 H4 Hholds Hd Hs eq_refl) Hm).
Defined.

Lemma uncached_service_refines_plain_service_witness :
  (forall record rest,
     table_1 "D4" = Ok (record :: rest) ->
     exists text, ReferenceJSON.dumps (VDict record) = Ok text) /\
  exists r,
    fst (get_feedback_results ReferenceJSON.loads ReferenceJSON.dumps ascii_lower
           300 (at_time 10) (at_time 11) table_1 "D4" false (initial_world true)) =
      Ok (VDict r) /\
    fst (plain_get_feedback_results ReferenceJSON.loads ascii_lower
           ReferenceJSON.dumps table_1 "D4" (initial_world true)) =
      Ok (VDict (without_cache_fields r)) /\
    field (VDict r) "status" = VStr "failed".
Proof.
  assert (H : forall record rest,
            table_1 "D4" = Ok (record :: rest) ->
            exists text, ReferenceJSON.dumps (VDict record) = Ok text).
  { intros record rest Hq. vm_compute in Hq. injection Hq as <- <-.
    eexists. vm_compute. reflexivity. }
  split; [exact H|].
  destruct (uncached_service_refines_plain_service ReferenceJSON.loads
              ReferenceJSON.dumps ascii_lower 300 ReferenceJSON.dumps (at_time 10)
              (at_time 11) table_1 "D4" (initial_world true) H)
    as (r & Hc & Hp & _).
  exists r. split; [exact Hc|]. split; [exact Hp|].
  vm_compute in Hc. injection Hc as <-. reflexivity.
Defined.

Lemma plain_handler_rejects_the_same_requests_witness :
  extract_request ReferenceJSON.loads ascii_lower event_without_id =
    Ok (VNone, VBool true, VBool false) /\
  truthy VNone = false /\
  exists text,
    ReferenceJSON.dumps plain_usage_body = Ok text /\
    plain_lambda_handler ReferenceJSON.loads ReferenceJSON.dumps ascii_lower
      reference_format ReferenceJSON.dumps plain_untyped_rejected table_1
      event_without_id (initial_world true) =
      (Ok (http_response (VNum 400) json_headers text), initial_world true).
Proof.
  assert (H1 : extract_request ReferenceJSON.loads ascii_lower event_without_id =
               Ok (VNone, VBool true, VBool false)) by reflexivity.
  assert (H2 : truthy VNone = false) by reflexivity.
  split; [exact H1|]. split; [exact H2|].
  destruct (ReferenceJSON.dumps plain_usage_body) as [text|e] eqn:Hd;
    [|vm_compute in Hd; discriminate].
  exists text. split; [reflexivity|].
  exact (plain_handler_rejects_the_same_requests ReferenceJSON.loads
           ReferenceJSON.dumps ascii_lower reference_format ReferenceJSON.dumps
           plain_untyped_rejected table_1 event_without_id (initial_world true)
           VNone (VBool true) (VBool false) text H1 H2 Hd).
Defined.

Lemma cache_bypass_answers_as_the_plain_handler_witness :
  extract_request ReferenceJSON.loads ascii_lower event_uncached =
    Ok (VStr "A1", VBool false, VBool false) /\
  "A1" <> "" /\
  truthy (VBool false) = false /\
  (forall record rest,
     table_1 "A1" = Ok (record :: rest) ->
     exists dump, ReferenceJSON.dumps (VDict record) = Ok dump) /\
  exists r w1 text text' code,
    get_feedback_results ReferenceJSON.loads ReferenceJSON.dumps ascii_lower 300
      (at_time 11) (at_time 12) table_1 "A1" false (initial_world true) =
      (Ok (VDict r), w1) /\
    ReferenceJSON.dumps (with_performance (VBool false) utc_1 r) = Ok text /\
    ReferenceJSON.dumps (VDict (without_cache_fields r)) = Ok text' /\
    In code handler_codes /\
    fst (lambda_handler ReferenceJSON.loads ReferenceJSON.dumps ascii_lower 300
           reference_format untyped_rejected (at_time 10) (at_time 11)
           (at_time 12) utc_1 table_1 event_uncached (initial_world true)) =
      Ok (http_response (VNum code)
            (json_headers ++ [("X-Cache-Status", VStr "MISS")]) text) /\
    fst (plain_lambda_handler ReferenceJSON.loads ReferenceJSON.dumps ascii_lower
           reference_format ReferenceJSON.dumps plain_untyped_rejected table_1
           event_uncached (initial_world true)) =
      Ok (http_response (VNum code) json_headers text').
Proof.
  assert (H1 : extract_request ReferenceJSON.loads ascii_lower event_uncached =
               Ok (VStr "A1", VBool false, VBool false)) by reflexivity.
  assert (H2 : "A1" <> "") by discriminate.
  assert (H3 : truthy (VBool false) = false) by reflexivity.
  assert (H4 : forall record rest,
            table_1 "A1" = Ok (record :: rest) ->
            exists dump, ReferenceJSON.dumps (VDict record) = Ok dump).
  { intros record rest Hq. vm_compute in Hq. injection Hq as <- <-.
    eexists. vm_compute. reflexivity. }
  split; [exact H1|]. split; [exact H2|]. split; [exact H3|]. split; [exact H4|].
  destruct (get_feedback_results ReferenceJSON.loads ReferenceJSON.dumps
              ascii_lower 300 (at_time 11) (at_time 12) table_1 "A1" false
              (initial_world true)) as [r0 w1] eqn:Hrun.
  assert (Hfirst : exists r text text',
            r0 = Ok (VDict r) /\
            ReferenceJSON.dumps (with_performance (VBool false) utc_1 r) = Ok text /\
            ReferenceJSON.dumps (VDict (without_cache_fields r)) = Ok text').
  { vm_compute in Hrun. inversion Hrun; subst r0 w1; clear Hrun.
    eexists. eexists. eexists. split; [reflexivity|].
    split; vm_compute; reflexivity. }
  destruct Hfirst as (r & text & text' & -> & Ht & Ht').
  destruct (cache_bypass_answers_as_the_plain_handler ReferenceJSON.loads
              ReferenceJSON.dumps ascii_lower 300 reference_format untyped_rejected
              ReferenceJSON.dumps plain_untyped_rejected (at_time 10) (at_time 11)
              (at_time 12) utc_1 table_1 event_uncached (initial_world true) "A1"
              (VBool false) (VBool false) r w1 text text' H1 H2 H3 H3 H4 Hrun Ht Ht')
    as (code & Hin & Hc & Hp).
  exists r, w1, text, text', code. split; [reflexivity|].
  split; [exact Ht|]. split; [exact Ht'|]. split; [exact Hin|].
  split; [exact Hc | exact Hp].
Defined.
